(** * The TikTok profile scraper of [app.py]: model and properties

    [scrape_tiktok_profile] is an asynchronous generator.  It drives a
    browser, yields one dictionary per video and keeps two pieces of
    run-scoped state: the set [seen_ids] and the list
    [intercepted_api_responses].  The model below follows the function
    statement by statement:

    - JSON data is a tree ([json]); the Python operations the function
      applies to it ([.get], subscripting, [in], truthiness, iteration,
      [len], set membership) keep their failure cases;
    - the generator is a state-and-exception computation ([gen]): the
      state holds [seen_ids], the records yielded so far, the browser
      calls made so far and the exceptions caught so far; an exception
      leaves the state reached so far intact, as a generator that raises
      after some [yield]s does;
    - what the browser and the site answer (navigation result, page
      markup, intercepted payloads, measured heights) is an input
      ([browser]).

    The consumer is taken to iterate the generator to its end, the list
    of intercepted responses is the one [handle_route] has accumulated
    by the time strategy 2 reads it, and the [print] calls, which change
    nothing, are left out; the exceptions they report are kept in the
    state.

    [scrape_tiktok_profile] is the function in a session in which the
    calls that [browser] does not list return.  What the function does
    when one of them raises is [scrape_tiktok_profile_with], of which
    [scrape_tiktok_profile] is the case [no_faults]
    ([scrape_no_faults]); the calls before and after the [try] of line
    77 are not guarded, so their exceptions reach the consumer. *)

From Stdlib Require Import List String Ascii ZArith Bool Lia PeanoNat.
Import ListNotations.

Set Warnings "-register-all".

Local Open Scope string_scope.
Local Open Scope Z_scope.
Local Open Scope list_scope.

(** ** Python values and exceptions *)

(** Values produced by [json.loads] / [response.json()].  Numbers are
    the integers ([int]); a dictionary is its list of bindings, the first
    binding of a key being the effective one. *)
Inductive json : Type :=
| JNull
| JBool (b : bool)
| JInt (n : Z)
| JStr (s : string)
| JList (l : list json)
| JDict (d : list (string * json)).

Inductive exn : Type :=
| KeyError
| TypeError
| AttributeError
| ValueError
| TimeoutError
| OtherError.

Inductive result (A : Type) : Type :=
| Ok (a : A)
| Raise (e : exn).

Arguments Ok {A} a.
Arguments Raise {A} e.

Module Res.
Definition bind {A B} (m : result A) (k : A -> result B) : result B :=
  match m with
  | Ok a => k a
  | Raise e => Raise e
  end.
End Res.

Declare Scope res_scope.
Delimit Scope res_scope with res.
Notation "x <- m ;; k" := (Res.bind m (fun x => k))
  (at level 61, m at next level, right associativity) : res_scope.

Module Py.

Fixpoint lookup (k : string) (d : list (string * json)) : option json :=
  match d with
  | [] => None
  | (k', v) :: rest => if String.eqb k k' then Some v else lookup k rest
  end.

(** [o.get(k, default)]: only dictionaries have [get]. *)
Definition get (o : json) (k : string) (default : json) : result json :=
  match o with
  | JDict d =>
      match lookup k d with
      | Some v => Ok v
      | None => Ok default
      end
  | _ => Raise AttributeError
  end.

(** [o[k]] for a string key [k]. *)
Definition index (o : json) (k : string) : result json :=
  match o with
  | JDict d =>
      match lookup k d with
      | Some v => Ok v
      | None => Raise KeyError
      end
  | _ => Raise TypeError
  end.

Definition truthy (v : json) : bool :=
  match v with
  | JNull => false
  | JBool b => b
  | JInt n => negb (n =? 0)
  | JStr s => negb (String.eqb s "")
  | JList l => match l with [] => false | _ => true end
  | JDict d => match d with [] => false | _ => true end
  end.

Definition is_none (v : json) : bool :=
  match v with
  | JNull => true
  | _ => false
  end.

Definition is_dict (v : json) : bool :=
  match v with
  | JDict _ => true
  | _ => false
  end.

Definition hashable (v : json) : bool :=
  match v with
  | JList _ | JDict _ => false
  | _ => true
  end.

(** The numeric value of a [bool] or an [int]: [True == 1]. *)
Definition num (v : json) : option Z :=
  match v with
  | JBool b => Some (if b then 1 else 0)
  | JInt n => Some n
  | _ => None
  end.

(** [a == b] on hashable values. *)
Definition eqb (a b : json) : bool :=
  match a, b with
  | JNull, JNull => true
  | JStr s, JStr t => String.eqb s t
  | _, _ =>
      match num a, num b with
      | Some x, Some y => x =? y
      | _, _ => false
      end
  end.

(** [v in s] for a set [s], kept as a list of its elements.  The
    function only tests membership in [seen_ids] and adds to it: the
    order of the list stands for nothing in the program. *)
Definition mem (v : json) (s : list json) : bool := existsb (eqb v) s.

Definition set_contains (s : list json) (v : json) : result bool :=
  if hashable v then Ok (mem v s) else Raise TypeError.

Definition set_add (s : list json) (v : json) : list json :=
  if mem v s then s else s ++ [v].

Definition is_substring (needle s : string) : bool :=
  match String.index 0 needle s with
  | Some _ => true
  | None => false
  end.

(** [k in o] for a string [k]: key of a dictionary, element of a list,
    substring of a string. *)
Definition contains (o : json) (k : string) : result bool :=
  match o with
  | JDict d => Ok (match lookup k d with Some _ => true | None => false end)
  | JList l => Ok (existsb (eqb (JStr k)) l)
  | JStr s => Ok (is_substring k s)
  | _ => Raise TypeError
  end.

Definition chars (s : string) : list json :=
  map (fun c => JStr (String c EmptyString)) (list_ascii_of_string s).

(** The sequence [for item in o] runs through. *)
Definition iter (o : json) : result (list json) :=
  match o with
  | JList l => Ok l
  | JDict d => Ok (map (fun kv => JStr (fst kv)) d)
  | JStr s => Ok (chars s)
  | _ => Raise TypeError
  end.

Definition len (o : json) : result nat :=
  match o with
  | JList l => Ok (List.length l)
  | JDict d => Ok (List.length d)
  | JStr s => Ok (String.length s)
  | _ => Raise TypeError
  end.

End Py.

(** ** Records, browser calls and the generator *)

(** The value of ["video_url"]: the f-string
    [https://www.tiktok.com/@{author_unique_id}/video/{video_id}], kept
    as its two interpolated values, or the string ['N/A']. *)
Inductive permalink : Type :=
| NoLink
| Link (author_unique_id video_id : json).

(** The calls made on the Playwright objects, with the bounds passed. *)
Inductive action : Type :=
| Launch (headless : bool)
| NewContext (storage_state : option string)
| NewPage
| Route
| Goto (url : string) (timeout_ms : Z)
| WaitForTimeout (ms : Z)
| Content
| WaitForSelector (timeout_ms : Z)
| Click
| WaitForLoadState (timeout_ms : Z)
| EvaluateScrollHeight
| EvaluateScrollTo
| StorageState (path : string)
| Close.

(** What [re.search] finds in the page for the
    [__UNIVERSAL_DATA_FOR_REHYDRATION__] script element: no match, or a
    text, given by what [json.loads] makes of it. *)
Inductive rehydration : Type :=
| NoScriptTag
| ScriptText (loaded : result json).

(** The three [try] statements of the function, by what they guard. *)
Inductive handler : Type :=
| EmbeddedData      (* lines 90-139 *)
| RefreshButton     (* lines 146-156 *)
| Navigation.       (* lines 77-221 *)

(** The answers of the browser and of the site during one run.  The
    calls that are not listed here are taken to return by
    [scrape_tiktok_profile]; their failures are the [faults] of
    [scrape_tiktok_profile_with]. *)
Record browser : Type := {
  path_exists : bool;                      (* os.path.exists(storage_state_path) *)
  goto_outcome : option exn;               (* page.goto: None when it returns *)
  page_content : rehydration;              (* page.content(), searched and decoded *)
  selector_outcome : option exn;           (* page.wait_for_selector *)
  load_state_outcome : option exn;         (* page.wait_for_load_state *)
  scroll_height : nat -> Z;                (* document.body.scrollHeight, per measurement *)
  intercepted_api_responses : list json    (* as accumulated by handle_route *)
}.

(** [pd.to_datetime(_, unit='s')] and [datetime.now().strftime(...)]
    belong to the libraries the function calls; the second is read once
    per record, so it is indexed by the number of records yielded
    before. *)
Class Libraries : Type := {
  timestamp : Type;
  to_datetime : json -> result timestamp;
  now : nat -> string
}.

Declare Scope gen_scope.
Delimit Scope gen_scope with gen.

Section Scraper.

Context `{Libraries}.

Record video : Type := {
  ID : json;
  Description : json;
  playCount : json;
  Likes : json;
  Comments : json;
  Shares : json;
  bookmarks : json;
  repostCount : json;
  creation_date : option timestamp;
  video_url : permalink;
  creator_image : json;
  video_cover : json;
  video_duration : json;
  date_extraction : string
}.

(** The state of a run: [seen_ids], the records yielded so far, the
    browser calls made so far and the exceptions caught (and printed)
    so far, each oldest first. *)
Record run_state : Type := {
  seen_ids : list json;
  emitted : list video;
  actions : list action;
  caught : list (handler * exn)
}.

Definition initial : run_state :=
  {| seen_ids := []; emitted := []; actions := []; caught := [] |}.

Definition gen (A : Type) : Type := run_state -> run_state * result A.

Definition ret {A} (a : A) : gen A := fun st => (st, Ok a).

Definition bind {A B} (m : gen A) (k : A -> gen B) : gen B :=
  fun st =>
    match m st with
    | (st', Ok a) => k a st'
    | (st', Raise e) => (st', Raise e)
    end.

Definition lift {A} (r : result A) : gen A := fun st => (st, r).

(** [try: m] followed by [except] clauses that together catch every
    exception and print it. *)
Definition try_except (h : handler) (m : gen unit) : gen unit :=
  fun st =>
    match m st with
    | (st', Ok _) => (st', Ok tt)
    | (st', Raise e) =>
        ({| seen_ids := seen_ids st';
            emitted := emitted st';
            actions := actions st';
            caught := caught st' ++ [(h, e)] |}, Ok tt)
    end.

Definition yield_ (r : video) : gen unit :=
  fun st =>
    ({| seen_ids := seen_ids st;
        emitted := emitted st ++ [r];
        actions := actions st;
        caught := caught st |}, Ok tt).

Definition seen_add (v : json) : gen unit :=
  fun st =>
    ({| seen_ids := Py.set_add (seen_ids st) v;
        emitted := emitted st;
        actions := actions st;
        caught := caught st |}, Ok tt).

Definition not_in_seen (v : json) : gen bool :=
  fun st =>
    (st, Res.bind (Py.set_contains (seen_ids st) v) (fun b => Ok (negb b))).

Definition yielded_count : gen nat :=
  fun st => (st, Ok (List.length (emitted st))).

Definition call (a : action) : gen unit :=
  fun st =>
    ({| seen_ids := seen_ids st;
        emitted := emitted st;
        actions := actions st ++ [a];
        caught := caught st |}, Ok tt).

(** A call that may raise: it is made, then its outcome is seen. *)
Definition call_outcome (a : action) (o : option exn) : gen unit :=
  fun st =>
    (fst (call a st), match o with None => Ok tt | Some e => Raise e end).

(** [for x in xs: body(x)] *)
Fixpoint for_each {A} (body : A -> gen unit) (xs : list A) : gen unit :=
  match xs with
  | [] => ret tt
  | x :: rest => bind (body x) (fun _ => for_each body rest)
  end.

Notation "x <- m ;; k" := (bind m (fun x => k))
  (at level 61, m at next level, right associativity) : gen_scope.
Notation "m ;; k" := (bind m (fun _ => k))
  (at level 61, right associativity) : gen_scope.

(** *** Strategy 1: the embedded document (lines 88-141) *)

(** The dictionary yielded at lines 110-129. *)
Definition html_record (item video_id create_time author_unique_id : json)
    (n : nat) : result video :=
  (description <- Py.get item "desc" (JStr "No description") ;;
   statsV2 <- Py.index item "statsV2" ;;
   play_count <- Py.index statsV2 "playCount" ;;
   statistics <- Py.get item "statistics" (JDict []) ;;
   likes <- Py.get statistics "digg_count" (JStr "N/A") ;;
   statistics <- Py.get item "statistics" (JDict []) ;;
   comments <- Py.get statistics "comment_count" (JStr "N/A") ;;
   statistics <- Py.get item "statistics" (JDict []) ;;
   shares <- Py.get statistics "share_count" (JStr "N/A") ;;
   statsV2 <- Py.index item "statsV2" ;;
   collect_count <- Py.index statsV2 "collectCount" ;;
   statsV2 <- Py.index item "statsV2" ;;
   repost_count <- Py.index statsV2 "repostCount" ;;
   creation <- (if Py.is_none create_time then Ok None
                else t <- to_datetime create_time ;; Ok (Some t)) ;;
   author <- Py.index item "author" ;;
   avatar_thumb <- Py.index author "avatarThumb" ;;
   video_ <- Py.index item "video" ;;
   zoom_cover <- Py.index video_ "zoomCover" ;;
   cover <- Py.index zoom_cover "720" ;;
   video_ <- Py.index item "video" ;;
   duration <- Py.index video_ "duration" ;;
   Ok {| ID := video_id;
         Description := description;
         playCount := play_count;
         Likes := likes;
         Comments := comments;
         Shares := shares;
         bookmarks := collect_count;
         repostCount := repost_count;
         creation_date := creation;
         video_url :=
           if Py.truthy author_unique_id
              && negb (Py.eqb video_id (JStr "N/A"))
           then Link author_unique_id video_id else NoLink;
         creator_image := avatar_thumb;
         video_cover := cover;
         video_duration := duration;
         date_extraction := now n |})%res.

(** The body of the loop of line 102. *)
Definition html_item (item : json) : gen unit :=
  (if Py.is_dict item
   then
     has_id <- lift (Py.contains item "aweme_id") ;;
     if has_id : bool
     then
       video_id <- lift (Py.get item "aweme_id" (JStr "N/A")) ;;
       create_time <- lift (Py.get item "createTime" JNull) ;;
       author <- lift (Py.get item "author" (JDict [])) ;;
       author_unique_id <- lift (Py.get author "uniqueId" JNull) ;;
       fresh <- not_in_seen video_id ;;
       if fresh : bool
       then
         n <- yielded_count ;;
         r <- lift (html_record item video_id create_time
                      author_unique_id n) ;;
         yield_ r ;;
         seen_add video_id
       else ret tt
     else ret tt
   else ret tt)%gen.

(** Lines 94-98: the item list, by the first path or else the second. *)
Definition aweme_list_from_html (universal_data : json) : result json :=
  (default_scope <- Py.get universal_data "__DEFAULT_SCOPE__" (JDict []) ;;
   user_detail_scope <- Py.get default_scope "webapp.user-detail" (JDict []) ;;
   user_info <- Py.get user_detail_scope "userInfo" (JDict []) ;;
   user <- Py.get user_info "user" (JDict []) ;;
   aweme_list <- Py.get user "awemeList" (JList []) ;;
   if negb (Py.truthy aweme_list)
   then
     item_info <- Py.get user_detail_scope "itemInfo" (JDict []) ;;
     Py.get item_info "itemStruct" (JList [])
   else Ok aweme_list)%res.

(** Lines 91-134, inside the [try] of line 90. *)
Definition strategy1_body (loaded : result json) : gen unit :=
  (universal_data <- lift loaded ;;
   aweme_list <- lift (aweme_list_from_html universal_data) ;;
   if Py.truthy aweme_list
   then
     _ <- lift (Py.len aweme_list) ;;
     items <- lift (Py.iter aweme_list) ;;
     for_each html_item items
   else ret tt)%gen.

Definition strategy1 (page : rehydration) : gen unit :=
  match page with
  | ScriptText loaded => try_except EmbeddedData (strategy1_body loaded)
  | NoScriptTag => ret tt
  end.

(** *** The refresh button (lines 145-156) *)

Definition refresh (env : browser) : gen unit :=
  try_except RefreshButton
    (call_outcome (WaitForSelector 3000) (selector_outcome env) ;;
     call Click ;;
     call_outcome (WaitForLoadState 60000) (load_state_outcome env) ;;
     call (WaitForTimeout 5000))%gen.

(** *** The scroll loop (lines 160-173) *)

Definition max_scrolls : nat := 3.

(** [while scroll_count < max_scrolls], with
    [remaining = max_scrolls - scroll_count]; the computation returns
    the final [scroll_count]. *)
Fixpoint scroll_loop (env : browser) (remaining : nat)
    (previous_height : Z) (scroll_count : nat) : gen nat :=
  match remaining with
  | O => ret scroll_count
  | S remaining' =>
      (call EvaluateScrollHeight ;;
       let current_height := scroll_height env scroll_count in
       if current_height =? previous_height
       then ret scroll_count
       else
         call EvaluateScrollTo ;;
         call (WaitForTimeout 2000) ;;
         scroll_loop env remaining' current_height (S scroll_count))%gen
  end.

Definition scroll (env : browser) : gen nat :=
  scroll_loop env max_scrolls (-1) 0.

(** *** Strategy 2: the intercepted responses (lines 182-216) *)

(** The dictionary yielded at lines 193-211. *)
Definition api_record (item video_id create_time author_unique_id : json)
    (n : nat) : result video :=
  (description <- Py.get item "desc" (JStr "No description") ;;
   statsV2 <- Py.index item "statsV2" ;;
   play_count <- Py.index statsV2 "playCount" ;;
   stats <- Py.get item "stats" (JDict []) ;;
   likes <- Py.get stats "diggCount" (JStr "N/A") ;;
   stats <- Py.get item "stats" (JDict []) ;;
   comments <- Py.get stats "commentCount" (JStr "N/A") ;;
   stats <- Py.get item "stats" (JDict []) ;;
   shares <- Py.get stats "shareCount" (JStr "N/A") ;;
   statsV2 <- Py.index item "statsV2" ;;
   collect_count <- Py.index statsV2 "collectCount" ;;
   statsV2 <- Py.index item "statsV2" ;;
   repost_count <- Py.index statsV2 "repostCount" ;;
   creation <- (if Py.is_none create_time then Ok None
                else t <- to_datetime create_time ;; Ok (Some t)) ;;
   author <- Py.index item "author" ;;
   avatar_thumb <- Py.index author "avatarThumb" ;;
   video_ <- Py.index item "video" ;;
   zoom_cover <- Py.index video_ "zoomCover" ;;
   cover <- Py.index zoom_cover "480" ;;
   video_ <- Py.index item "video" ;;
   duration <- Py.index video_ "duration" ;;
   Ok {| ID := video_id;
         Description := description;
         playCount := play_count;
         Likes := likes;
         Comments := comments;
         Shares := shares;
         bookmarks := collect_count;
         repostCount := repost_count;
         creation_date := creation;
         video_url :=
           if Py.truthy author_unique_id
              && negb (Py.eqb video_id (JStr "N/A"))
           then Link author_unique_id video_id else NoLink;
         creator_image := avatar_thumb;
         video_cover := cover;
         video_duration := duration;
         date_extraction := now n |})%res.

(** The body of the loop of line 185. *)
Definition api_item (item : json) : gen unit :=
  (if Py.is_dict item
   then
     video_id <- lift (Py.get item "id" (JStr "N/A")) ;;
     create_time <- lift (Py.get item "createTime" JNull) ;;
     author <- lift (Py.get item "author" (JDict [])) ;;
     author_unique_id <- lift (Py.get author "uniqueId" JNull) ;;
     fresh <- not_in_seen video_id ;;
     if fresh : bool
     then
       n <- yielded_count ;;
       r <- lift (api_record item video_id create_time
                    author_unique_id n) ;;
       yield_ r ;;
       seen_add video_id
     else ret tt
   else ret tt)%gen.

(** The body of the loop of line 182. *)
Definition api_response (response_data : json) : gen unit :=
  (has_list <- lift (Py.contains response_data "itemList") ;;
   if has_list : bool
   then
     item_list <- lift (Py.index response_data "itemList") ;;
     if Py.truthy item_list
     then
       _ <- lift (Py.len item_list) ;;
       items <- lift (Py.iter item_list) ;;
       for_each api_item items
     else ret tt
   else ret tt)%gen.

Definition strategy2 (responses : list json) : gen unit :=
  for_each api_response responses.

(** *** The whole function (lines 43-230) *)

(** [if storage_state_path:] for a path that is [None] or a string. *)
Definition path_given (storage_state_path : option string) : bool :=
  match storage_state_path with
  | Some p => negb (String.eqb p "")
  | None => false
  end.

Definition navigation_timeout : Z := 60000.

Definition scrape_tiktok_profile (url : string)
    (storage_state_path : option string) (headless_debug : bool)
    (env : browser) : gen unit :=
  (call (Launch headless_debug) ;;
   call (NewContext
           (if path_given storage_state_path && path_exists env
            then storage_state_path else None)) ;;
   call NewPage ;;
   call Route ;;
   try_except Navigation
     (call_outcome (Goto url navigation_timeout) (goto_outcome env) ;;
      call (WaitForTimeout 5000) ;;
      call Content ;;
      strategy1 (page_content env) ;;
      refresh env ;;
      _ <- scroll env ;;
      strategy2 (intercepted_api_responses env)) ;;
   match storage_state_path with
   | Some p =>
       if path_given storage_state_path
       then call (StorageState p) else ret tt
   | None => ret tt
   end ;;
   call Close)%gen.

(** The state in which a run ends: the stream it yielded, the browser
    calls it made and the exceptions it caught. *)
Definition run (url : string) (storage_state_path : option string)
    (headless_debug : bool) (env : browser) : run_state :=
  fst (scrape_tiktok_profile url storage_state_path headless_debug env
         initial).

End Scraper.

(** ** Derived notions used to state the properties *)

Section Specification.

Context `{Libraries}.

(** The record an embedded item gives when it is the [n]-th one
    yielded: lines 104-107 followed by the dictionary of line 110.
    The tests of lines 103 and 109, which decide whether the item is
    yielded at all, are not part of it: they are in [html_item]. *)
Definition html_normalize (item : json) (n : nat) : result video :=
  (video_id <- Py.get item "aweme_id" (JStr "N/A") ;;
   create_time <- Py.get item "createTime" JNull ;;
   author <- Py.get item "author" (JDict []) ;;
   author_unique_id <- Py.get author "uniqueId" JNull ;;
   html_record item video_id create_time author_unique_id n)%res.

(** The same for an item of an intercepted response: lines 187-190
    followed by the dictionary of line 193, without the tests of lines
    186 and 192, which are in [api_item]. *)
Definition api_normalize (item : json) (n : nat) : result video :=
  (video_id <- Py.get item "id" (JStr "N/A") ;;
   create_time <- Py.get item "createTime" JNull ;;
   author <- Py.get item "author" (JDict []) ;;
   author_unique_id <- Py.get author "uniqueId" JNull ;;
   api_record item video_id create_time author_unique_id n)%res.

(** The items the loop of line 102 runs through. *)
Definition embedded_items (page : rehydration) : list json :=
  match page with
  | ScriptText (Ok universal_data) =>
      match aweme_list_from_html universal_data with
      | Ok aweme_list =>
          if Py.truthy aweme_list
          then match Py.iter aweme_list with
               | Ok items => items
               | Raise _ => []
               end
          else []
      | Raise _ => []
      end
  | _ => []
  end.

(** The items the loop of line 185 runs through for one response, and
    for all the responses in accumulation order. *)
Definition response_items (response_data : json) : list json :=
  match Py.index response_data "itemList" with
  | Ok item_list =>
      match Py.iter item_list with
      | Ok items => items
      | Raise _ => []
      end
  | Raise _ => []
  end.

Definition intercepted_items (responses : list json) : list json :=
  flat_map response_items responses.

(** The states a run goes through once the page has loaded: when the
    markup has been read, after strategy 1, after the refresh button
    and the scrolling, and after strategy 2. *)
Definition opening (url : string) (storage_state_path : option string)
    (headless_debug : bool) (env : browser) : list action :=
  [Launch headless_debug;
   NewContext (if path_given storage_state_path && path_exists env
               then storage_state_path else None);
   NewPage; Route; Goto url navigation_timeout].

Definition closing (storage_state_path : option string) : list action :=
  match storage_state_path with
  | Some p => if path_given storage_state_path then [StorageState p] else []
  | None => []
  end ++ [Close].

Definition loaded (url : string) (storage_state_path : option string)
    (headless_debug : bool) (env : browser) : run_state :=
  {| seen_ids := [];
     emitted := [];
     actions := opening url storage_state_path headless_debug env
                ++ [WaitForTimeout 5000; Content];
     caught := [] |}.

Definition after_embedded (url : string)
    (storage_state_path : option string) (headless_debug : bool)
    (env : browser) : run_state :=
  fst (strategy1 (page_content env)
         (loaded url storage_state_path headless_debug env)).

Definition after_interaction (url : string)
    (storage_state_path : option string) (headless_debug : bool)
    (env : browser) : run_state :=
  fst (scroll env
         (fst (refresh env
                 (after_embedded url storage_state_path headless_debug
                    env)))).

Definition after_intercepted (url : string)
    (storage_state_path : option string) (headless_debug : bool)
    (env : browser) : run_state :=
  fst (try_except Navigation
         (strategy2 (intercepted_api_responses env))
         (after_interaction url storage_state_path headless_debug env)).

(** The records yielded by the time strategy 1 is over. *)
Definition embedded_stream (url : string)
    (storage_state_path : option string) (headless_debug : bool)
    (env : browser) : list video :=
  match goto_outcome env with
  | None =>
      emitted (after_embedded url storage_state_path headless_debug env)
  | Some _ => []
  end.

(** The stream a run yields. *)
Definition stream (url : string) (storage_state_path : option string)
    (headless_debug : bool) (env : browser) : list video :=
  emitted (run url storage_state_path headless_debug env).

(** The number of scroll-to-bottom calls among the browser calls. *)
Definition is_scroll_to (a : action) : bool :=
  match a with
  | EvaluateScrollTo => true
  | _ => false
  end.

Definition scrolls_performed (acts : list action) : nat :=
  List.length (filter is_scroll_to acts).

(** The value [scroll_count] has when the loop of line 163 is left, for
    the heights measured. *)
Fixpoint final_scroll_count (heights : nat -> Z) (remaining : nat)
    (previous_height : Z) (scroll_count : nat) : nat :=
  match remaining with
  | O => scroll_count
  | S remaining' =>
      if heights scroll_count =? previous_height
      then scroll_count
      else final_scroll_count heights remaining' (heights scroll_count)
             (S scroll_count)
  end.

(** The height a measurement is compared with: [-1] for the first one,
    the measurement before it for the others. *)
Definition compared_with (heights : nat -> Z) (k : nat) : Z :=
  match k with
  | O => -1
  | S k' => heights k'
  end.

(** Pairwise different under Python's [==]. *)
Fixpoint distinct (ids : list json) : Prop :=
  match ids with
  | [] => True
  | v :: rest => Py.mem v rest = false /\ distinct rest
  end.

(** [records] are built, in order, from some of the [items], in the
    order of the [items]. *)
Inductive drawn_from {A : Type} (normalize : A -> nat -> result video)
  : list video -> list A -> Prop :=
| drawn_nil : drawn_from normalize [] []
| drawn_skip item records items :
    drawn_from normalize records items ->
    drawn_from normalize records (item :: items)
| drawn_take item n r records items :
    normalize item n = Ok r ->
    drawn_from normalize records items ->
    drawn_from normalize (r :: records) (item :: items).

(** The two sources of a run, and the items in the order in which the
    run reaches them: those of the embedded document, then those of
    the responses. *)
Inductive source : Type :=
| Embedded
| Intercepted.

Definition normalize_from (tagged : source * json) (n : nat)
  : result video :=
  match fst tagged with
  | Embedded => html_normalize (snd tagged) n
  | Intercepted => api_normalize (snd tagged) n
  end.

Definition processing_order (env : browser) : list (source * json) :=
  map (pair Embedded) (embedded_items (page_content env))
  ++ map (pair Intercepted)
       (intercepted_items (intercepted_api_responses env)).

(** The state after [yield r] and [seen_ids.add(video_id)]. *)
Definition yielded (st : run_state) (r : video) (video_id : json)
  : run_state :=
  {| seen_ids := seen_ids st ++ [video_id];
     emitted := emitted st ++ [r];
     actions := actions st;
     caught := caught st |}.

(** Lines 107 and 190: [item.get('author', {}).get('uniqueId')]. *)
Definition author_unique_id_of (item : json) : result json :=
  Res.bind (Py.get item "author" (JDict []))
    (fun author => Py.get author "uniqueId" JNull).

(** What one turn of an item loop does to the state: it leaves it as
    it is (the item is passed over, is a duplicate, or raises), or it
    yields the record of a new identifier and adds that identifier to
    [seen_ids]. *)
Inductive item_step {A : Type} (normalize : A -> nat -> result video)
    (item : A) (st : run_state) : run_state * result unit -> Prop :=
| step_same r : item_step normalize item st (st, r)
| step_emit r :
    Py.hashable (ID r) = true ->
    Py.mem (ID r) (seen_ids st) = false ->
    normalize item (List.length (emitted st)) = Ok r ->
    item_step normalize item st
      ({| seen_ids := seen_ids st ++ [ID r];
          emitted := emitted st ++ [r];
          actions := actions st;
          caught := caught st |}, Ok tt).

(** From [st] to [st'] the run has yielded records drawn from
    [items], each under an identifier that was new when it was
    yielded, and has kept what it had caught. *)
Definition advance (items : list (source * json)) (st st' : run_state)
  : Prop :=
  exists records,
    emitted st' = emitted st ++ records /\
    seen_ids st' = seen_ids st ++ map ID records /\
    drawn_from normalize_from records items /\
    Forall (fun r => Py.hashable (ID r) = true) records /\
    (distinct (seen_ids st) -> distinct (seen_ids st')) /\
    incl (caught st) (caught st').

Definition advances {A} (items : list (source * json)) (m : gen A) : Prop :=
  forall st, advance items st (fst (m st)).

(** [m] makes no browser call. *)
Definition same_actions {A} (m : gen A) : Prop :=
  forall st, actions (fst (m st)) = actions st.

(** The identifier under which an item is looked up in [seen_ids],
    for the items that have one: the embedded items that are
    dictionaries with an ['aweme_id'], and the response items that are
    dictionaries, with their ['id'] or the default ['N/A']. *)
Definition item_id (tagged : source * json) : option json :=
  match tagged with
  | (Embedded, JDict d) => Py.lookup "aweme_id" d
  | (Intercepted, JDict d) =>
      Some (match Py.lookup "id" d with
            | Some v => v
            | None => JStr "N/A"
            end)
  | _ => None
  end.

(** [o[k1][k2]...] *)
Fixpoint path (o : json) (keys : list string) : result json :=
  match keys with
  | [] => Ok o
  | k :: keys' => Res.bind (Py.index o k) (fun o' => path o' keys')
  end.

Definition is_ok {A} (r : result A) : bool :=
  match r with
  | Ok _ => true
  | Raise _ => false
  end.

(** The fields a record is built from by subscripting: they have to be
    there.  [variant] is the key read in ['zoomCover']. *)
Definition has_required_fields (variant : string) (item : json) : bool :=
  is_ok (path item ["statsV2"; "playCount"])
  && is_ok (path item ["statsV2"; "collectCount"])
  && is_ok (path item ["statsV2"; "repostCount"])
  && is_ok (path item ["author"; "avatarThumb"])
  && is_ok (path item ["video"; "zoomCover"; variant])
  && is_ok (path item ["video"; "duration"]).

(** The fields read with [.get]: the dictionary of counts (under [key])
    is a dictionary when it is there, and ['createTime'], when it is
    there and not [None], is accepted by [pd.to_datetime]. *)
Definition optional_fields_fit (key : string) (item : json) : bool :=
  match Py.get item key (JDict []) with
  | Ok counts => Py.is_dict counts
  | Raise _ => false
  end
  && match Py.get item "createTime" JNull with
     | Ok create_time =>
         Py.is_none create_time || is_ok (to_datetime create_time)
     | Raise _ => false
     end.

(** How many of [ids] are equal to [v] under Python's [==]. *)
Definition count_id (v : json) (ids : list json) : nat :=
  List.length (filter (Py.eqb v) ids).

(** No exception has reached the handler of the embedded data or the
    handler of the run. *)
Definition no_extraction_error (st : run_state) : Prop :=
  forall h e, In (h, e) (caught st) -> h = RefreshButton.

(** When [m] returns and no extraction error has been caught, the
    identifiers of [items] are all in [seen_ids]. *)
Definition complete {A} (items : list (source * json)) (m : gen A) : Prop :=
  forall st,
    no_extraction_error (fst (m st)) ->
    (exists a, snd (m st) = Ok a) ->
    forall tagged v,
      In tagged items -> item_id tagged = Some v ->
      Py.mem v (seen_ids (fst (m st))) = true.

End Specification.

(** ** The route handler (lines 57-74) *)

(** One call of [handle_route]: the URL of the routed request and what
    becomes of it, [None] when [route.request.response()] gives no
    response, else what [response.json()] makes of the body. *)
Record routed : Type := {
  request_url : string;
  response : option (result json)
}.

(** What the handler acts on: the accumulated list
    [intercepted_api_responses] and the URLs of the requests it has let
    go on with [route.continue_()], each oldest first. *)
Record interception : Type := {
  accumulated : list json;
  continued : list string
}.

Definition handle_route (r : routed) (st : interception) : interception :=
  if Py.is_substring "api/post/item_list/" (request_url r)
  then
    match response r with
    | Some (Ok json_data) =>
        {| accumulated := accumulated st ++ [json_data];
           continued := continued st ++ [request_url r] |}
    | Some (Raise _) =>
        {| accumulated := accumulated st;
           continued := continued st ++ [request_url r] |}
    | None =>
        {| accumulated := accumulated st;
           continued := continued st ++ [request_url r] |}
    end
  else
    {| accumulated := accumulated st;
       continued := continued st ++ [request_url r] |}.

(** The handler called for the requests [rs], one call after the other
    (calls that overlap are not modelled; [route.continue_()] and
    [route.request.response()] are taken not to raise). *)
Definition route_all (rs : list routed) (st : interception) : interception :=
  fold_left (fun st r => handle_route r st) rs st.

(** The body a routed request adds to the list, if it adds one. *)
Definition captured (r : routed) : list json :=
  if Py.is_substring "api/post/item_list/" (request_url r)
  then match response r with
       | Some (Ok json_data) => [json_data]
       | _ => []
       end
  else [].

(** ** Derived notions for the browser calls and the data of a run *)

Section Calls.

Context `{Libraries}.

(** The calls of lines 148-152, by what the selector wait and the load
    wait answer. *)
Definition refresh_calls (env : browser) : list action :=
  WaitForSelector 3000
  :: match selector_outcome env with
     | Some _ => []
     | None =>
         Click :: WaitForLoadState 60000
         :: match load_state_outcome env with
            | Some _ => []
            | None => [WaitForTimeout 5000]
            end
     end.

(** The calls of the loop of line 163, for the heights measured. *)
Fixpoint scroll_calls (heights : nat -> Z) (remaining : nat)
    (previous_height : Z) (scroll_count : nat) : list action :=
  match remaining with
  | O => []
  | S remaining' =>
      EvaluateScrollHeight
      :: if heights scroll_count =? previous_height
         then []
         else EvaluateScrollTo :: WaitForTimeout 2000
              :: scroll_calls heights remaining' (heights scroll_count)
                   (S scroll_count)
  end.

(** The calls between the navigation and the saving of the state. *)
Definition interaction_calls (env : browser) : list action :=
  match goto_outcome env with
  | None =>
      [WaitForTimeout 5000; Content] ++ refresh_calls env
      ++ scroll_calls (scroll_height env) max_scrolls (-1) 0
  | Some _ => []
  end.

(** The calls that read the page or act on it, as opposed to those that
    open or close the session. *)
Definition on_page (a : action) : bool :=
  match a with
  | WaitForTimeout _ | Content | WaitForSelector _ | Click
  | WaitForLoadState _ | EvaluateScrollHeight | EvaluateScrollTo => true
  | _ => false
  end.

(** The time a call may take at most, in milliseconds, for the calls
    that wait: the bound passed to it. *)
Definition waits_at_most (a : action) : Z :=
  match a with
  | Goto _ timeout_ms => timeout_ms
  | WaitForTimeout ms => ms
  | WaitForSelector timeout_ms => timeout_ms
  | WaitForLoadState timeout_ms => timeout_ms
  | _ => 0
  end.

Definition total_wait (acts : list action) : Z :=
  fold_right (fun a t => waits_at_most a + t) 0 acts.


(** Two states with the same [seen_ids] and the same records. *)
Definition same_data (st st' : run_state) : Prop :=
  seen_ids st = seen_ids st' /\ emitted st = emitted st'.



Definition api_candidate (item : json) : bool := Py.is_dict item.

(** [m] catches nothing. *)
Definition same_caught {A} (m : gen A) : Prop :=
  forall st, caught (fst (m st)) = caught st.

(** Nothing, or one exception caught by [h]. *)
Definition at_most_one (h : handler) (c : list (handler * exn)) : Prop :=
  c = [] \/ exists e, c = [(h, e)].

(** Every identifier of [s] is in [s']. *)
Definition seen_within (s s' : list json) : Prop :=
  forall v, Py.mem v s = true -> Py.mem v s' = true.

End Calls.

(** ** The scrape button of the application (lines 298-425) *)

(** What the effect of the button takes from Python and from pandas:
    [int] on a string, [isinstance(_, datetime)] and [strftime] on what
    [pd.to_datetime] gave, the building of the displayed frame (lines
    378-390) and the writing of the output file (lines 413-414).  The
    progress bar, the reactive values and [asyncio.sleep] are taken not
    to fail. *)
Class Builtins `{Libraries} : Type := {
  int_of_str : string -> option Z;
  is_datetime : timestamp -> bool;
  strftime : timestamp -> result string;
  table : Type;
  data_frame : list video -> result table;
  json_dump : list (video * option string) -> option exn
}.

(** The texts of [_status_message_rv], with the number they show. *)
Inductive status : Type :=
| Prompt                 (* "Enter a TikTok URL and click ..." *)
| InProgress             (* "Scraping in progress..." *)
| PleaseEnter            (* "Please enter a TikTok URL." *)
| Started                (* "Scraping in progress... This may take a moment." *)
| SoFar (n : nat)        (* "Scraped n videos so far..." *)
| Succeeded (n : nat)    (* "Successfully scraped and displayed n video posts." *)
| NoData                 (* "No video data found or an error occurred ..." *)
| Failed (e : exn).      (* "An error occurred: e" *)

Section Application.

Context `{Builtins}.

(** The list and the reactive values of one session. *)
Record app_state : Type := {
  current_scraped_items : list video;
  status_message : status;
  scraped_video_df : option table;          (* None: the empty frame *)
  likes_for_sparkline : list (timestamp * Z);
  total_likes : Z;
  total_videos_count : nat
}.

(** What one press of the button leaves: the state, the values given to
    the progress bar, and the entries of the output file when
    [json.dump] has written them all ([None] when the file was not
    opened or the dump did not come to its end). *)
Record outcome : Type := {
  final : app_state;
  shown_progress : list Z;
  written : option (list (video * option string))
}.

(** Lines 300-318. *)
Definition session_start : app_state :=
  {| current_scraped_items := [];
     status_message := InProgress;
     scraped_video_df := None;
     likes_for_sparkline := [];
     total_likes := 0;
     total_videos_count := 0 |}.

Definition set_status (s : status) (a : app_state) : app_state :=
  {| current_scraped_items := current_scraped_items a;
     status_message := s;
     scraped_video_df := scraped_video_df a;
     likes_for_sparkline := likes_for_sparkline a;
     total_likes := total_likes a;
     total_videos_count := total_videos_count a |}.

(** [os.path.join(a, b)] on a POSIX system. *)
Definition ends_with_slash (a : string) : bool :=
  match rev (list_ascii_of_string a) with
  | c :: _ => Ascii.eqb c "/"%char
  | [] => false
  end.

Definition path_join (a b : string) : string :=
  match b with
  | String c _ =>
      if Ascii.eqb c "/"%char then b
      else if String.eqb a "" || ends_with_slash a then a ++ b
      else a ++ "/" ++ b
  | EmptyString =>
      if String.eqb a "" || ends_with_slash a then a else a ++ "/"
  end%string.

(** Line 342. *)
Definition storage_file_path (current_dir : string) : string :=
  path_join current_dir "tiktok_session_state.json".

(** [int(v)] *)
Definition py_int (v : json) : result Z :=
  match v with
  | JInt n => Ok n
  | JBool b => Ok (if b then 1 else 0)
  | JStr s =>
      match int_of_str s with
      | Some n => Ok n
      | None => Raise ValueError
      end
  | _ => Raise TypeError
  end.

(** Lines 356-372: the likes of an item enter the sparkline data and
    the total when they convert to an integer and the item has a
    date. *)
Definition account (video_item : video) (a : app_state)
  : app_state * option exn :=
  match py_int (Likes video_item) with
  | Ok numeric_likes =>
      match creation_date video_item with
      | Some t =>
          if is_datetime t
          then
            ({| current_scraped_items := current_scraped_items a;
                status_message := status_message a;
                scraped_video_df := scraped_video_df a;
                likes_for_sparkline :=
                  likes_for_sparkline a ++ [(t, numeric_likes)];
                total_likes := total_likes a + numeric_likes;
                total_videos_count := total_videos_count a |}, None)
          else (a, None)
      | None => (a, None)
      end
  | Raise ValueError => (a, None)
  | Raise TypeError => (a, None)
  | Raise e => (a, Some e)
  end.

(** Lines 353-399: the body of the [async for]. *)
Definition on_item (video_item : video) (st : app_state * list Z)
  : app_state * list Z * option exn :=
  let (a, shown) := st in
  let a1 :=
    {| current_scraped_items := current_scraped_items a ++ [video_item];
       status_message := status_message a;
       scraped_video_df := scraped_video_df a;
       likes_for_sparkline := likes_for_sparkline a;
       total_likes := total_likes a;
       total_videos_count := total_videos_count a |} in
  match account video_item a1 with
  | (a2, Some e) => (a2, shown, Some e)
  | (a2, None) =>
      let n := List.length (current_scraped_items a2) in
      let a3 :=
        {| current_scraped_items := current_scraped_items a2;
           status_message := status_message a2;
           scraped_video_df := scraped_video_df a2;
           likes_for_sparkline := likes_for_sparkline a2;
           total_likes := total_likes a2;
           total_videos_count := n |} in
      match data_frame (current_scraped_items a3) with
      | Raise e => (a3, shown, Some e)
      | Ok df =>
          ({| current_scraped_items := current_scraped_items a3;
              status_message := SoFar n;
              scraped_video_df := Some df;
              likes_for_sparkline := likes_for_sparkline a3;
              total_likes := total_likes a3;
              total_videos_count := total_videos_count a3 |},
           shown ++ [50 + Z.of_nat n mod 50], None)
      end
  end.

(** The [async for] over the records the generator yields; an
    exception in the body leaves the loop, and the generator where it
    is. *)
Fixpoint consume (items : list video) (st : app_state * list Z)
  : app_state * list Z * option exn :=
  match items with
  | [] => (st, None)
  | video_item :: rest =>
      match on_item video_item st with
      | (st', None) => consume rest st'
      | (st', Some e) => (st', Some e)
      end
  end.

(** Lines 408-411. *)
Definition serializable (item : video) : result (video * option string) :=
  match creation_date item with
  | Some t =>
      if is_datetime t
      then Res.bind (strftime t) (fun s => Ok (item, Some s))
      else Ok (item, None)
  | None => Ok (item, None)
  end.

Fixpoint serializable_items (items : list video)
  : result (list (video * option string)) :=
  match items with
  | [] => Ok []
  | item :: rest =>
      Res.bind (serializable item) (fun x =>
      Res.bind (serializable_items rest) (fun xs => Ok (x :: xs)))
  end.

(** Lines 401-419. *)
Definition after_loop (a : app_state)
  : app_state * option (list (video * option string)) * option exn :=
  match current_scraped_items a with
  | [] => (set_status NoData a, None, None)
  | _ :: _ =>
      let a1 :=
        set_status (Succeeded (List.length (current_scraped_items a))) a in
      match serializable_items (current_scraped_items a) with
      | Raise e => (a1, None, Some e)
      | Ok out =>
          match json_dump out with
          | Some e => (a1, None, Some e)
          | None => (a1, Some out, None)
          end
      end
  end.

(** Lines 323-425: one press of the button, for the URL and the
    checkbox of the form, the directory of the application and the
    answers of the browser. *)
Definition on_scrape_button (tiktok_url : string) (headless_mode : bool)
    (current_dir : string) (env : browser) (a : app_state) : outcome :=
  if String.eqb tiktok_url ""
  then {| final := set_status PleaseEnter a;
          shown_progress := [];
          written := None |}
  else
    let cleared :=
      {| current_scraped_items := [];
         status_message := Started;
         scraped_video_df := None;
         likes_for_sparkline := [];
         total_likes := 0;
         total_videos_count := 0 |} in
    match consume
            (stream tiktok_url (Some (storage_file_path current_dir))
               headless_mode env)
            (cleared, [10; 30]) with
    | (a1, shown, Some e) =>
        {| final := set_status (Failed e) a1;
           shown_progress := shown ++ [100];
           written := None |}
    | (a1, shown, None) =>
        match after_loop a1 with
        | (a2, _, Some e) =>
            {| final := set_status (Failed e) a2;
               shown_progress := shown ++ [100];
               written := None |}
        | (a2, w, None) =>
            {| final := a2; shown_progress := shown ++ [100]; written := w |}
        end
    end.

(** The entry an item adds to the sparkline data, if it adds one. *)
Definition charted (video_item : video) : list (timestamp * Z) :=
  match py_int (Likes video_item), creation_date video_item with
  | Ok numeric_likes, Some t =>
      if is_datetime t then [(t, numeric_likes)] else []
  | _, _ => []
  end.

Definition sum_likes (points : list (timestamp * Z)) : Z :=
  fold_right (fun p t => snd p + t) 0 points.

End Application.

(** ** Calls that fail *)

(** The record [browser] lists three calls that can raise.  Every
    other call on the Playwright objects can raise as well: [faults]
    gives what each of them answers, [None] when it returns and the
    exception when it raises, the calls of the scroll loop by the turn
    of the loop.  The four calls of lines 47-74 and the two of lines
    224-229 are outside every [try]. *)
Record faults : Type := {
  launch_outcome : option exn;             (* p.chromium.launch, line 47 *)
  new_context_outcome : option exn;        (* browser.new_context, line 54 *)
  new_page_outcome : option exn;           (* context.new_page, line 55 *)
  route_outcome : option exn;              (* page.route, line 74 *)
  settle_outcome : option exn;             (* page.wait_for_timeout, line 80 *)
  content_outcome : option exn;            (* page.content, line 84 *)
  click_outcome : option exn;              (* page.click, line 150 *)
  settle_again_outcome : option exn;       (* page.wait_for_timeout, line 152 *)
  height_outcome : nat -> option exn;      (* page.evaluate, line 164 *)
  scroll_to_outcome : nat -> option exn;   (* page.evaluate, line 169 *)
  pause_outcome : nat -> option exn;       (* page.wait_for_timeout, line 171 *)
  storage_state_outcome : option exn;      (* context.storage_state, line 226 *)
  close_outcome : option exn               (* browser.close, line 229 *)
}.

(** Every call returns. *)
Definition no_faults : faults :=
  {| launch_outcome := None;
     new_context_outcome := None;
     new_page_outcome := None;
     route_outcome := None;
     settle_outcome := None;
     content_outcome := None;
     click_outcome := None;
     settle_again_outcome := None;
     height_outcome := fun _ => None;
     scroll_to_outcome := fun _ => None;
     pause_outcome := fun _ => None;
     storage_state_outcome := None;
     close_outcome := None |}.

(** The first of the calls before the [try] of line 77 that raises. *)
Definition setup_outcome (f : faults) : option exn :=
  match launch_outcome f with
  | Some e => Some e
  | None =>
      match new_context_outcome f with
      | Some e => Some e
      | None =>
          match new_page_outcome f with
          | Some e => Some e
          | None => route_outcome f
          end
      end
  end.

(** The first of the calls after the [try] that raises: the saving of
    the storage state is only made for a non-empty path. *)
Definition teardown_outcome (f : faults) (storage_state_path : option string)
  : option exn :=
  if path_given storage_state_path
  then match storage_state_outcome f with
       | Some e => Some e
       | None => close_outcome f
       end
  else close_outcome f.

Section Faults.

Context `{Libraries}.

Local Notation "x <- m ;; k" := (bind m (fun x => k))
  (at level 61, m at next level, right associativity) : gen_scope.
Local Notation "m ;; k" := (bind m (fun _ => k))
  (at level 61, right associativity) : gen_scope.

(** Lines 145-156, when the click and the second wait may raise. *)
Definition refresh_with (f : faults) (env : browser) : gen unit :=
  try_except RefreshButton
    (call_outcome (WaitForSelector 3000) (selector_outcome env) ;;
     call_outcome Click (click_outcome f) ;;
     call_outcome (WaitForLoadState 60000) (load_state_outcome env) ;;
     call_outcome (WaitForTimeout 5000) (settle_again_outcome f))%gen.

(** Lines 160-173, when the calls of a turn may raise. *)
Fixpoint scroll_loop_with (f : faults) (env : browser) (remaining : nat)
    (previous_height : Z) (scroll_count : nat) : gen nat :=
  match remaining with
  | O => ret scroll_count
  | S remaining' =>
      (call_outcome EvaluateScrollHeight (height_outcome f scroll_count) ;;
       let current_height := scroll_height env scroll_count in
       if current_height =? previous_height
       then ret scroll_count
       else
         call_outcome EvaluateScrollTo (scroll_to_outcome f scroll_count) ;;
         call_outcome (WaitForTimeout 2000) (pause_outcome f scroll_count) ;;
         scroll_loop_with f env remaining' current_height (S scroll_count))%gen
  end.

(** Lines 43-230, when every call may raise: the function of which
    [scrape_tiktok_profile] is the case [no_faults]. *)
Definition scrape_tiktok_profile_with (f : faults) (url : string)
    (storage_state_path : option string) (headless_debug : bool)
    (env : browser) : gen unit :=
  (call_outcome (Launch headless_debug) (launch_outcome f) ;;
   call_outcome
     (NewContext
        (if path_given storage_state_path && path_exists env
         then storage_state_path else None))
     (new_context_outcome f) ;;
   call_outcome NewPage (new_page_outcome f) ;;
   call_outcome Route (route_outcome f) ;;
   try_except Navigation
     (call_outcome (Goto url navigation_timeout) (goto_outcome env) ;;
      call_outcome (WaitForTimeout 5000) (settle_outcome f) ;;
      call_outcome Content (content_outcome f) ;;
      strategy1 (page_content env) ;;
      refresh_with f env ;;
      _ <- scroll_loop_with f env max_scrolls (-1) 0 ;;
      strategy2 (intercepted_api_responses env)) ;;
   match storage_state_path with
   | Some p =>
       if path_given storage_state_path
       then call_outcome (StorageState p) (storage_state_outcome f)
       else ret tt
   | None => ret tt
   end ;;
   call_outcome Close (close_outcome f))%gen.

(** The calls made after the [try]: the browser is closed when the
    saving of the storage state, if it is made, returns. *)
Definition closing_with (f : faults) (storage_state_path : option string)
  : list action :=
  match storage_state_path with
  | Some p =>
      if path_given storage_state_path
      then StorageState p
           :: match storage_state_outcome f with
              | None => [Close]
              | Some _ => []
              end
      else [Close]
  | None => [Close]
  end.

(** [m] makes no calls but calls that read the page or act on it. *)
Definition page_calls_only {A} (m : gen A) : Prop :=
  forall st,
    exists calls,
      actions (fst (m st)) = actions st ++ calls /\
      forallb on_page calls = true.

(** [c] holds, in the order of [hs], at most one exception for each
    handler of [hs]. *)
Fixpoint fits (hs : list handler) (c : list (handler * exn)) : Prop :=
  match hs with
  | [] => c = []
  | h :: hs' =>
      fits hs' c \/ exists e c', c = (h, e) :: c' /\ fits hs' c'
  end.

(** What [m] catches is caught by the handlers [hs], in that order and
    at most once each. *)
Definition catches {A} (hs : list handler) (m : gen A) : Prop :=
  forall st,
    exists c, caught (fst (m st)) = caught st ++ c /\ fits hs c.

End Faults.

Section Press.

Context `{Builtins}.

(** Lines 323-425 again, when the generator may raise: its exception
    reaches the [async for] once the records yielded before it have
    been consumed, and is caught at line 421. *)
Definition on_scrape_button_with (f : faults) (tiktok_url : string)
    (headless_mode : bool) (current_dir : string) (env : browser)
    (a : app_state) : outcome :=
  if String.eqb tiktok_url ""
  then {| final := set_status PleaseEnter a;
          shown_progress := [];
          written := None |}
  else
    let cleared :=
      {| current_scraped_items := [];
         status_message := Started;
         scraped_video_df := None;
         likes_for_sparkline := [];
         total_likes := 0;
         total_videos_count := 0 |} in
    let generated :=
      scrape_tiktok_profile_with f tiktok_url
        (Some (storage_file_path current_dir)) headless_mode env initial in
    match consume (emitted (fst generated)) (cleared, [10; 30]) with
    | (a1, shown, Some e) =>
        {| final := set_status (Failed e) a1;
           shown_progress := shown ++ [100];
           written := None |}
    | (a1, shown, None) =>
        match snd generated with
        | Raise e =>
            {| final := set_status (Failed e) a1;
               shown_progress := shown ++ [100];
               written := None |}
        | Ok _ =>
            match after_loop a1 with
            | (a2, _, Some e) =>
                {| final := set_status (Failed e) a2;
                   shown_progress := shown ++ [100];
                   written := None |}
            | (a2, w, None) =>
                {| final := a2;
                   shown_progress := shown ++ [100];
                   written := w |}
            end
        end
    end.

End Press.

(** ** Fixtures *)

(** A concrete choice of the library functions, under which runs can be
    evaluated: epoch seconds are kept as they are and the clock reads a
    fixed instant. *)
Definition fixture_libraries : Libraries := {|
  timestamp := Z;
  to_datetime v := match v with JInt n => Ok n | _ => Raise ValueError end;
  now _ := "2025-01-01 00:00:00"
|}.

(** Decimal numerals: an optional sign, then digits. *)
Fixpoint digits_value (acc : Z) (s : string) : option Z :=
  match s with
  | EmptyString => Some acc
  | String c rest =>
      let n := Z.of_nat (nat_of_ascii c) in
      if (48 <=? n) && (n <=? 57)
      then digits_value (10 * acc + (n - 48)) rest
      else None
  end.

Definition decimal (s : string) : option Z :=
  match s with
  | EmptyString => None
  | String "-"%char (String c rest) =>
      option_map Z.opp (digits_value 0 (String c rest))
  | String "+"%char (String c rest) => digits_value 0 (String c rest)
  | _ => digits_value 0 s
  end.

(** The date of a day counted from 1970-01-01, in the proleptic
    Gregorian calendar. *)
Definition civil_from_days (days : Z) : Z * Z * Z :=
  let z := days + 719468 in
  let era := z / 146097 in
  let doe := z - era * 146097 in
  let yoe := (doe - doe / 1460 + doe / 36524 - doe / 146096) / 365 in
  let doy := doe - (365 * yoe + yoe / 4 - yoe / 100) in
  let mp := (5 * doy + 2) / 153 in
  let d := doy - (153 * mp + 2) / 5 + 1 in
  let m := if mp <? 10 then mp + 3 else mp - 9 in
  let y := yoe + era * 400 in
  (if m <=? 2 then y + 1 else y, m, d).

Definition two_digits (n : Z) : string :=
  String (ascii_of_nat (48 + Z.to_nat (n / 10 mod 10)))
    (String (ascii_of_nat (48 + Z.to_nat (n mod 10))) "").

(** ['%Y-%m-%d %H:%M:%S'] of epoch seconds, the year by its last four
    digits. *)
Definition format_epoch (t : Z) : string :=
  let '(y, m, d) := civil_from_days (t / 86400) in
  let secs := t mod 86400 in
  (two_digits (y / 100) ++ two_digits y ++ "-" ++ two_digits m ++ "-"
   ++ two_digits d ++ " " ++ two_digits (secs / 3600) ++ ":"
   ++ two_digits (secs / 60 mod 60) ++ ":" ++ two_digits (secs mod 60))%string.

(** A concrete choice of what the button takes from Python and pandas:
    every timestamp is a date, the frame is the list of the records
    with their dates as the table shows them, and the output file can
    always be written. *)
Definition fixture_builtins : @Builtins fixture_libraries :=
  @Build_Builtins fixture_libraries
    decimal
    (fun _ : Z => true)
    (fun t : Z => Ok (format_epoch t))
    (list (@video fixture_libraries * string))
    (fun l : list (@video fixture_libraries) =>
       Ok (map (fun r =>
                  (r, match @creation_date fixture_libraries r with
                      | Some t => format_epoch t
                      | None => "N/A"
                      end)) l))
    (fun _ => None).

Module Fixture.

Definition statsV2 : json :=
  JDict [("playCount", JStr "100"); ("collectCount", JStr "7");
         ("repostCount", JStr "2")].

Definition author : json :=
  JDict [("uniqueId", JStr "alice"); ("avatarThumb", JStr "avatar.jpg")].

Definition zoom_cover : json :=
  JDict [("240", JStr "cover240.jpg"); ("480", JStr "cover480.jpg");
         ("720", JStr "cover720.jpg")].

Definition video_ : json :=
  JDict [("zoomCover", zoom_cover); ("duration", JInt 15)].

(** A complete item of the embedded document. *)
Definition html_item (id : string) : json :=
  JDict [("aweme_id", JStr id); ("desc", JStr "a video");
         ("statsV2", statsV2);
         ("statistics",
          JDict [("digg_count", JInt 5); ("comment_count", JInt 3);
                 ("share_count", JInt 1)]);
         ("author", author); ("video", video_)].

(** A complete item of an intercepted response. *)
Definition api_item (id : string) : json :=
  JDict [("id", JStr id); ("desc", JStr "a video");
         ("statsV2", statsV2);
         ("stats",
          JDict [("diggCount", JInt 5); ("commentCount", JInt 3);
                 ("shareCount", JInt 1)]);
         ("author", author); ("video", video_)].

(** Items that lack one field. *)
Definition html_no_cover_fields (id : string) : list (string * json) :=
  [("aweme_id", JStr id); ("desc", JStr "a video");
   ("statsV2", statsV2);
   ("author", author);
   ("video", JDict [("duration", JInt 15)])].

Definition html_item_no_cover (id : string) : json :=
  JDict (html_no_cover_fields id).

Definition api_item_no_cover (id : string) : json :=
  JDict [("id", JStr id); ("desc", JStr "a video");
         ("statsV2", statsV2);
         ("author", author);
         ("video", JDict [("duration", JInt 15)])].

Definition api_item_no_stats (id : string) : json :=
  JDict [("id", JStr id); ("desc", JStr "a video");
         ("statsV2", statsV2);
         ("author", author); ("video", video_)].

Definition api_item_no_statsV2 (id : string) : json :=
  JDict [("id", JStr id); ("desc", JStr "a video");
         ("stats",
          JDict [("diggCount", JInt 5); ("commentCount", JInt 3);
                 ("shareCount", JInt 1)]);
         ("author", author); ("video", video_)].

Definition html_item_no_statsV2 (id : string) : json :=
  JDict [("aweme_id", JStr id); ("desc", JStr "a video");
         ("statistics",
          JDict [("digg_count", JInt 5); ("comment_count", JInt 3);
                 ("share_count", JInt 1)]);
         ("author", author); ("video", video_)].

Definition no_id_fields : list (string * json) :=
  [("desc", JStr "a video");
   ("statsV2", statsV2);
   ("author", author); ("video", video_)].

Definition api_item_no_id : json := JDict no_id_fields.

(** The embedded document whose first path leads to [items]. *)
Definition document (items : list json) : rehydration :=
  ScriptText
    (Ok
       (JDict
          [("__DEFAULT_SCOPE__",
            JDict
              [("webapp.user-detail",
                JDict
                  [("userInfo",
                    JDict
                      [("user", JDict [("awemeList", JList items)])])])])])).

Definition response (items : list json) : json :=
  JDict [("itemList", JList items); ("hasMore", JBool true)].

(** A page that loads, shows no refresh button and grows by 1000
    pixels at each scroll. *)
Definition site (page : rehydration) (responses : list json) : browser :=
  {| path_exists := false;
     goto_outcome := None;
     page_content := page;
     selector_outcome := Some TimeoutError;
     load_state_outcome := None;
     scroll_height := fun k => 1000 * (1 + Z.of_nat k);
     intercepted_api_responses := responses |}.

(** The same page when its height never changes, and when it shrinks
    at each scroll. *)
Definition still (page : rehydration) (responses : list json) : browser :=
  {| path_exists := false;
     goto_outcome := None;
     page_content := page;
     selector_outcome := Some TimeoutError;
     load_state_outcome := None;
     scroll_height := fun _ => 1000;
     intercepted_api_responses := responses |}.

Definition shrinking (page : rehydration) (responses : list json)
  : browser :=
  {| path_exists := false;
     goto_outcome := None;
     page_content := page;
     selector_outcome := Some TimeoutError;
     load_state_outcome := None;
     scroll_height := fun k => 3000 - 1000 * Z.of_nat k;
     intercepted_api_responses := responses |}.

(** A site whose navigation never reaches network idle. *)
Definition unreachable : browser :=
  {| path_exists := true;
     goto_outcome := Some TimeoutError;
     page_content := NoScriptTag;
     selector_outcome := Some TimeoutError;
     load_state_outcome := None;
     scroll_height := fun _ => 0;
     intercepted_api_responses := [] |}.

Definition url : string := "https://www.tiktok.com/@alice".

(** Video 2 is in the embedded document and in a response. *)
Definition both_sources : browser :=
  site (document [html_item "1"; html_item "2"])
    [response [api_item "2"; api_item "3"]].

(** The second embedded item has no cover. *)
Definition faulty_embedded : browser :=
  site (document [html_item "1"; html_item_no_cover "2"; html_item "3"]) [].

(** The second item of each source has no cover. *)
Definition faulty_sources : browser :=
  site (document [html_item "1"; html_item_no_cover "2"; html_item "3"])
    [response [api_item "4"; api_item_no_cover "5"; api_item "6"];
     response [api_item "7"]].

(** Video 2 is complete in both sources; the embedded item before it
    has no cover. *)
Definition faulty_before_shared : browser :=
  site (document [html_item_no_cover "1"; html_item "2"])
    [response [api_item "2"]].

(** The only item of a response has everything but ['statsV2']. *)
Definition without_statsV2 : browser :=
  site NoScriptTag [response [api_item_no_statsV2 "1"]].

(** A complete item of a response with its time of creation. *)
Definition api_item_dated (id : string) (create_time : Z) : json :=
  JDict [("id", JStr id); ("desc", JStr "a video");
         ("createTime", JInt create_time);
         ("statsV2", statsV2);
         ("stats",
          JDict [("diggCount", JInt 5); ("commentCount", JInt 3);
                 ("shareCount", JInt 1)]);
         ("author", author); ("video", video_)].

(** The fields of a dated item without ['stats']. *)
Definition dated_no_stats_fields (id : string) (create_time : Z)
  : list (string * json) :=
  [("id", JStr id); ("desc", JStr "a video");
   ("createTime", JInt create_time);
   ("statsV2", statsV2);
   ("author", author); ("video", video_)].

(** Video 1 has likes and a date, video 2 a date and no likes, video 3
    likes and no date. *)
Definition dated : browser :=
  site NoScriptTag
    [response [api_item_dated "1" 1700000000;
               JDict (dated_no_stats_fields "2" 1700086400);
               api_item "3"]].


(** The directory of the application. *)
Definition current_dir : string := "/srv/app".


(** The page cannot be read and the storage state cannot be saved. *)
Definition page_lost : faults :=
  {| launch_outcome := None;
     new_context_outcome := None;
     new_page_outcome := None;
     route_outcome := None;
     settle_outcome := None;
     content_outcome := Some OtherError;
     click_outcome := None;
     settle_again_outcome := None;
     height_outcome := fun _ => None;
     scroll_to_outcome := fun _ => None;
     pause_outcome := fun _ => None;
     storage_state_outcome := Some OtherError;
     close_outcome := None |}.

End Fixture.

(** ** Properties *)

Section Properties.

Context `{Libraries}.

(** *** Python equality on identifiers *)

Lemma eqb_refl v : Py.hashable v = true -> Py.eqb v v = true.
Proof.
  destruct v as [|b|n|s|l|d]; cbn; try discriminate; intros _.
  - reflexivity.
  - destruct b; reflexivity.
  - apply Z.eqb_refl.
  - apply String.eqb_refl.
Qed.

Lemma eqb_sym a b : Py.eqb a b = Py.eqb b a.
Proof.
  destruct a as [|x|x|x|x|x], b as [|y|y|y|y|y]; cbn;
    try reflexivity; try apply Z.eqb_sym; try apply String.eqb_sym.
Qed.

Lemma eqb_trans a b c :
  Py.eqb a b = true -> Py.eqb b c = true -> Py.eqb a c = true.
Proof.
  destruct a as [|x|x|x|x|x], b as [|y|y|y|y|y], c as [|z|z|z|z|z];
    cbn; try discriminate; try reflexivity;
    rewrite ?Z.eqb_eq, ?String.eqb_eq; intros; congruence.
Qed.

Lemma mem_app v s t : Py.mem v (s ++ t) = Py.mem v s || Py.mem v t.
Proof. apply existsb_app. Qed.

Lemma mem_eqb v w s :
  Py.eqb v w = true -> Py.mem v s = Py.mem w s.
Proof.
  intros E. unfold Py.mem. induction s as [|x s IH]; cbn; [reflexivity|].
  rewrite IH. f_equal.
  destruct (Py.eqb v x) eqn:Evx, (Py.eqb w x) eqn:Ewx; try reflexivity.
  - rewrite eqb_sym in E. rewrite (eqb_trans _ _ _ E Evx) in Ewx.
    discriminate.
  - rewrite (eqb_trans _ _ _ E Ewx) in Evx. discriminate.
Qed.

Lemma mem_In v s : Py.hashable v = true -> In v s -> Py.mem v s = true.
Proof.
  intros Hv Hin. apply existsb_exists. exists v. split; [assumption|].
  now apply eqb_refl.
Qed.

Lemma distinct_snoc s v :
  distinct s -> Py.mem v s = false -> distinct (s ++ [v]).
Proof.
  induction s as [|x s IH]; cbn; intros D M.
  - auto.
  - destruct D as [Dx Ds].
    apply orb_false_iff in M. destruct M as [Mx Ms].
    split; [|now apply IH].
    rewrite mem_app, Dx. cbn. now rewrite eqb_sym, Mx.
Qed.

Lemma distinct_NoDup s :
  Forall (fun v => Py.hashable v = true) s -> distinct s -> NoDup s.
Proof.
  induction 1 as [|v s Hv Hs IH]; cbn; intros D; constructor.
  - destruct D as [M _]. intros Hin.
    rewrite (mem_In _ _ Hv Hin) in M. discriminate.
  - apply IH, D.
Qed.

(** *** One turn of the item loops *)

Lemma html_record_ID item video_id create_time author_unique_id n r :
  html_record item video_id create_time author_unique_id n = Ok r ->
  ID r = video_id.
Proof.
  unfold html_record, Res.bind. intros E.
  repeat match type of E with
         | match ?x with _ => _ end = _ => destruct x; try discriminate
         end.
  injection E as <-. reflexivity.
Qed.

Lemma api_record_ID item video_id create_time author_unique_id n r :
  api_record item video_id create_time author_unique_id n = Ok r ->
  ID r = video_id.
Proof.
  unfold api_record, Res.bind. intros E.
  repeat match type of E with
         | match ?x with _ => _ end = _ => destruct x; try discriminate
         end.
  injection E as <-. reflexivity.
Qed.

Ltac run_gen :=
  cbv beta iota zeta delta [bind lift ret not_in_seen yielded_count
                            yield_ seen_add fst snd].

Lemma html_item_step item st :
  item_step normalize_from (Embedded, item) st (html_item item st).
Proof.
  unfold html_item.
  destruct (Py.is_dict item); [|constructor]. run_gen.
  destruct (Py.contains item "aweme_id") as [[|]|e]; try constructor.
  destruct (Py.get item "aweme_id" (JStr "N/A")) as [video_id|e] eqn:E1;
    [|constructor].
  destruct (Py.get item "createTime" JNull) as [create_time|e] eqn:E2;
    [|constructor].
  destruct (Py.get item "author" (JDict [])) as [author|e] eqn:E3;
    [|constructor].
  destruct (Py.get author "uniqueId" JNull) as [uid|e] eqn:E4;
    [|constructor].
  unfold Py.set_contains.
  destruct (Py.hashable video_id) eqn:Hh; [|constructor]. cbn [Res.bind].
  destruct (Py.mem video_id (seen_ids st)) eqn:Hm; cbn [negb];
    [constructor|].
  destruct (html_record item video_id create_time uid
              (List.length (emitted st))) as [r|e] eqn:E5; [|constructor].
  pose proof (html_record_ID _ _ _ _ _ _ E5) as HID.
  cbn [seen_ids emitted actions caught]. unfold Py.set_add. rewrite Hm.
  rewrite <- HID. apply step_emit.
  - now rewrite HID.
  - now rewrite HID.
  - unfold normalize_from, html_normalize. cbn [fst snd].
    rewrite E1, E2, E3. cbn [Res.bind].
    rewrite E4. cbn [Res.bind]. exact E5.
Qed.

Lemma api_item_step item st :
  item_step normalize_from (Intercepted, item) st (api_item item st).
Proof.
  unfold api_item.
  destruct (Py.is_dict item); [|constructor]. run_gen.
  destruct (Py.get item "id" (JStr "N/A")) as [video_id|e] eqn:E1;
    [|constructor].
  destruct (Py.get item "createTime" JNull) as [create_time|e] eqn:E2;
    [|constructor].
  destruct (Py.get item "author" (JDict [])) as [author|e] eqn:E3;
    [|constructor].
  destruct (Py.get author "uniqueId" JNull) as [uid|e] eqn:E4;
    [|constructor].
  unfold Py.set_contains.
  destruct (Py.hashable video_id) eqn:Hh; [|constructor]. cbn [Res.bind].
  destruct (Py.mem video_id (seen_ids st)) eqn:Hm; cbn [negb];
    [constructor|].
  destruct (api_record item video_id create_time uid
              (List.length (emitted st))) as [r|e] eqn:E5; [|constructor].
  pose proof (api_record_ID _ _ _ _ _ _ E5) as HID.
  cbn [seen_ids emitted actions caught]. unfold Py.set_add. rewrite Hm.
  rewrite <- HID. apply step_emit.
  - now rewrite HID.
  - now rewrite HID.
  - unfold normalize_from, api_normalize. cbn [fst snd].
    rewrite E1, E2, E3. cbn [Res.bind].
    rewrite E4. cbn [Res.bind]. exact E5.
Qed.

(** *** The fields of a record *)

Ltac invert_record E :=
  unfold html_normalize, api_normalize, html_record, api_record, Res.bind
    in E;
  repeat match type of E with
         | match ?x with _ => _ end = _ =>
             let Hx := fresh "Hx" in
             destruct x eqn:Hx; try discriminate
         end;
  injection E as <-;
  cbn [ID Likes Comments Shares playCount bookmarks repostCount
       video_cover creator_image video_duration Description path];
  unfold Res.bind;
  repeat match goal with
         | Hx : _ = Ok _ |- _ => rewrite Hx; clear Hx
         end;
  try reflexivity.

Lemma html_normalize_ID item n r :
  html_normalize item n = Ok r ->
  Py.get item "aweme_id" (JStr "N/A") = Ok (ID r).
Proof. intros E. invert_record E. Qed.

Lemma api_normalize_ID item n r :
  api_normalize item n = Ok r ->
  Py.get item "id" (JStr "N/A") = Ok (ID r).
Proof. intros E. invert_record E. Qed.

Lemma html_normalize_cover item n r :
  html_normalize item n = Ok r ->
  path item ["video"; "zoomCover"; "720"] = Ok (video_cover r).
Proof. intros E. invert_record E. Qed.

Lemma api_normalize_cover item n r :
  api_normalize item n = Ok r ->
  path item ["video"; "zoomCover"; "480"] = Ok (video_cover r).
Proof. intros E. invert_record E. Qed.

Lemma html_normalize_likes item n r :
  html_normalize item n = Ok r ->
  Res.bind (Py.get item "statistics" (JDict []))
    (fun statistics => Py.get statistics "digg_count" (JStr "N/A"))
  = Ok (Likes r).
Proof. intros E. invert_record E. Qed.

Lemma api_normalize_likes item n r :
  api_normalize item n = Ok r ->
  Res.bind (Py.get item "stats" (JDict []))
    (fun stats => Py.get stats "diggCount" (JStr "N/A"))
  = Ok (Likes r).
Proof. intros E. invert_record E. Qed.

Lemma api_normalize_total item n :
  has_required_fields "480" item = true ->
  optional_fields_fit "stats" item = true ->
  exists r, api_normalize item n = Ok r.
Proof.
  unfold has_required_fields, optional_fields_fit.
  rewrite !andb_true_iff.
  intros (((((R1 & R2) & R3) & R4) & R5) & R6) (O1 & O2).
  destruct item as [| | | | |d]; try discriminate.
  unfold api_normalize, api_record.
  cbn [path Py.index Py.get Res.bind] in *.
  destruct (Py.lookup "statsV2" d) as [statsV2|]; [|discriminate].
  destruct (Py.lookup "author" d) as [author|]; [|discriminate].
  destruct (Py.lookup "video" d) as [video_|]; [|discriminate].
  cbn [Res.bind] in *.
  destruct (Py.index statsV2 "playCount") as [play|]; [|discriminate].
  destruct (Py.index statsV2 "collectCount") as [collect|]; [|discriminate].
  destruct (Py.index statsV2 "repostCount") as [repost|]; [|discriminate].
  destruct author as [| | | | |da]; try discriminate.
  destruct (Py.index (JDict da) "avatarThumb") as [avatar|]; [|discriminate].
  destruct (Py.index video_ "zoomCover") as [zoom_cover|]; [|discriminate].
  destruct (Py.index video_ "duration") as [duration|]; [|discriminate].
  cbn [Res.bind] in *.
  destruct (Py.index zoom_cover "480") as [cover|]; [|discriminate].
  assert (Hcounts : exists counts,
             match Py.lookup "stats" d with
             | Some v => Ok v
             | None => Ok (JDict [])
             end = Ok (JDict counts)).
  { destruct (Py.lookup "stats" d) as [[| | | | |c]|]; try discriminate;
      eauto. }
  destruct Hcounts as [counts ->].
  cbn [Py.get Res.bind].
  destruct (Py.lookup "id" d), (Py.lookup "desc" d),
    (Py.lookup "createTime" d) as [create_time|],
    (Py.lookup "uniqueId" da), (Py.lookup "diggCount" counts),
    (Py.lookup "commentCount" counts), (Py.lookup "shareCount" counts);
    cbn [Res.bind Py.is_none] in *;
    try (destruct (Py.is_none create_time); cbn [orb] in O2;
         [|destruct (to_datetime create_time); [|discriminate]]);
    cbn [Res.bind]; eauto.
Qed.

Lemma html_normalize_total item n :
  has_required_fields "720" item = true ->
  optional_fields_fit "statistics" item = true ->
  exists r, html_normalize item n = Ok r.
Proof.
  unfold has_required_fields, optional_fields_fit.
  rewrite !andb_true_iff.
  intros (((((R1 & R2) & R3) & R4) & R5) & R6) (O1 & O2).
  destruct item as [| | | | |d]; try discriminate.
  unfold html_normalize, html_record.
  cbn [path Py.index Py.get Res.bind] in *.
  destruct (Py.lookup "statsV2" d) as [statsV2|]; [|discriminate].
  destruct (Py.lookup "author" d) as [author|]; [|discriminate].
  destruct (Py.lookup "video" d) as [video_|]; [|discriminate].
  cbn [Res.bind] in *.
  destruct (Py.index statsV2 "playCount") as [play|]; [|discriminate].
  destruct (Py.index statsV2 "collectCount") as [collect|]; [|discriminate].
  destruct (Py.index statsV2 "repostCount") as [repost|]; [|discriminate].
  destruct author as [| | | | |da]; try discriminate.
  destruct (Py.index (JDict da) "avatarThumb") as [avatar|]; [|discriminate].
  destruct (Py.index video_ "zoomCover") as [zoom_cover|]; [|discriminate].
  destruct (Py.index video_ "duration") as [duration|]; [|discriminate].
  cbn [Res.bind] in *.
  destruct (Py.index zoom_cover "720") as [cover|]; [|discriminate].
  assert (Hcounts : exists counts,
             match Py.lookup "statistics" d with
             | Some v => Ok v
             | None => Ok (JDict [])
             end = Ok (JDict counts)).
  { destruct (Py.lookup "statistics" d) as [[| | | | |c]|];
      try discriminate; eauto. }
  destruct Hcounts as [counts ->].
  cbn [Py.get Res.bind].
  destruct (Py.lookup "aweme_id" d), (Py.lookup "desc" d),
    (Py.lookup "createTime" d) as [create_time|],
    (Py.lookup "uniqueId" da), (Py.lookup "digg_count" counts),
    (Py.lookup "comment_count" counts), (Py.lookup "share_count" counts);
    cbn [Res.bind Py.is_none] in *;
    try (destruct (Py.is_none create_time); cbn [orb] in O2;
         [|destruct (to_datetime create_time); [|discriminate]]);
    cbn [Res.bind]; eauto.
Qed.

(** *** One turn of the item loops, case by case *)

Lemma mem_hashable v s : Py.mem v s = true -> Py.hashable v = true.
Proof.
  unfold Py.mem. intros M. apply existsb_exists in M.
  destruct M as (x & _ & E). now destruct v.
Qed.

Lemma html_item_new d v st :
  Py.lookup "aweme_id" d = Some v ->
  Py.hashable v = true ->
  Py.mem v (seen_ids st) = false ->
  html_item (JDict d) st
  = match html_normalize (JDict d) (List.length (emitted st)) with
    | Ok r => (yielded st r v, Ok tt)
    | Raise e => (st, Raise e)
    end.
Proof.
  intros Hid Hh Hm. unfold html_item, html_normalize.
  cbn [Py.is_dict Py.contains Py.get]. rewrite Hid. run_gen.
  destruct (Py.lookup "createTime" d) as [create_time|];
    (destruct (Py.lookup "author" d) as [author|];
     cbn [Res.bind];
     [destruct (Py.get author "uniqueId" JNull) as [uid|e];
      [|reflexivity] | cbn [Py.get Py.lookup]]);
    cbn [Res.bind];
    unfold Py.set_contains; rewrite Hh; cbn [Res.bind]; rewrite Hm;
    cbn [negb];
    match goal with
    | |- context [html_record ?i ?x ?c ?u ?n] =>
        destruct (html_record i x c u n) as [r|e]; [|reflexivity]
    end;
    cbn [seen_ids emitted actions caught]; unfold Py.set_add, yielded;
    rewrite Hm; reflexivity.
Qed.

Lemma api_item_new d v st :
  item_id (Intercepted, JDict d) = Some v ->
  Py.hashable v = true ->
  Py.mem v (seen_ids st) = false ->
  api_item (JDict d) st
  = match api_normalize (JDict d) (List.length (emitted st)) with
    | Ok r => (yielded st r v, Ok tt)
    | Raise e => (st, Raise e)
    end.
Proof.
  intros Hid Hh Hm. cbn [item_id] in Hid. injection Hid as Hid.
  unfold api_item, api_normalize. cbn [Py.is_dict Py.get].
  assert (Hget : match Py.lookup "id" d with
                 | Some v0 => Ok v0
                 | None => Ok (JStr "N/A")
                 end = Ok v) by (now destruct (Py.lookup "id" d); subst).
  rewrite Hget. clear Hget. run_gen.
  destruct (Py.lookup "createTime" d) as [create_time|];
    (destruct (Py.lookup "author" d) as [author|];
     cbn [Res.bind];
     [destruct (Py.get author "uniqueId" JNull) as [uid|e];
      [|reflexivity] | cbn [Py.get Py.lookup]]);
    cbn [Res.bind];
    unfold Py.set_contains; rewrite Hh; cbn [Res.bind]; rewrite Hm;
    cbn [negb];
    match goal with
    | |- context [api_record ?i ?x ?c ?u ?n] =>
        destruct (api_record i x c u n) as [r|e]; [|reflexivity]
    end;
    cbn [seen_ids emitted actions caught]; unfold Py.set_add, yielded;
    rewrite Hm; reflexivity.
Qed.

Lemma api_item_seen d v st :
  item_id (Intercepted, JDict d) = Some v ->
  Py.mem v (seen_ids st) = true ->
  api_item (JDict d) st
  = match author_unique_id_of (JDict d) with
    | Ok _ => (st, Ok tt)
    | Raise e => (st, Raise e)
    end.
Proof.
  intros Hid Hm. pose proof (mem_hashable _ _ Hm) as Hh.
  cbn [item_id] in Hid. injection Hid as Hid.
  unfold api_item, author_unique_id_of. cbn [Py.is_dict Py.get].
  assert (Hget : match Py.lookup "id" d with
                 | Some v0 => Ok v0
                 | None => Ok (JStr "N/A")
                 end = Ok v) by (now destruct (Py.lookup "id" d); subst).
  rewrite Hget. clear Hget. run_gen.
  destruct (Py.lookup "createTime" d) as [create_time|];
    (destruct (Py.lookup "author" d) as [author|];
     cbn [Res.bind];
     [destruct (Py.get author "uniqueId" JNull) as [uid|e];
      [|reflexivity] | cbn [Py.get Py.lookup]]);
    cbn [Res.bind];
    unfold Py.set_contains; rewrite Hh; cbn [Res.bind]; rewrite Hm;
    reflexivity.
Qed.

(** A loop is left at the first turn that raises. *)
Lemma for_each_raises {A} (body : A -> gen unit) before x after st e :
  snd (for_each body before st) = Ok tt ->
  snd (body x (fst (for_each body before st))) = Raise e ->
  for_each body (before ++ x :: after) st
  = (fst (body x (fst (for_each body before st))), Raise e).
Proof.
  revert st. induction before as [|y before IH]; intros st; cbn [for_each app].
  - unfold ret, bind. cbn [fst snd]. intros _ Hx.
    destruct (body x st) as [st' r]. cbn in *. now subst.
  - unfold bind. destruct (body y st) as [st1 [[]|e1]]; cbn [fst snd].
    + apply IH.
    + discriminate.
Qed.

(** *** Records drawn from items *)

Lemma drawn_none {A} (normalize : A -> nat -> result video) items :
  drawn_from normalize [] items.
Proof. induction items; constructor; assumption. Qed.

Lemma drawn_app {A} (normalize : A -> nat -> result video)
    records1 items1 records2 items2 :
  drawn_from normalize records1 items1 ->
  drawn_from normalize records2 items2 ->
  drawn_from normalize (records1 ++ records2) (items1 ++ items2).
Proof.
  induction 1; intros D2; cbn.
  - assumption.
  - apply drawn_skip. auto.
  - eapply drawn_take; eauto.
Qed.

Lemma drawn_split {A} (normalize : A -> nat -> result video)
    items1 items2 :
  forall records,
    drawn_from normalize records (items1 ++ items2) ->
    exists records1 records2,
      records = records1 ++ records2 /\
      drawn_from normalize records1 items1 /\
      drawn_from normalize records2 items2.
Proof.
  induction items1 as [|item items1 IH]; cbn; intros records D.
  - exists [], records. repeat split; [constructor | assumption].
  - inversion D as [| item' records' items' D' | item' n r records' items' E D'];
      subst.
    + destruct (IH _ D') as (r1 & r2 & -> & D1 & D2).
      exists r1, r2. repeat split; [apply drawn_skip|]; assumption.
    + destruct (IH _ D') as (r1 & r2 & -> & D1 & D2).
      exists (r :: r1), r2.
      repeat split; [eapply drawn_take; eauto | assumption].
Qed.

Lemma drawn_map {A B} (f : A -> B) (normalize : B -> nat -> result video)
    records items :
  drawn_from normalize records (map f items) ->
  drawn_from (fun a => normalize (f a)) records items.
Proof.
  revert records. induction items as [|item items IH]; cbn;
    intros records D; inversion D; subst.
  - constructor.
  - apply drawn_skip. auto.
  - eapply drawn_take; eauto.
Qed.

Lemma drawn_In {A} (normalize : A -> nat -> result video) records items :
  drawn_from normalize records items ->
  forall r, In r records ->
    exists item n, In item items /\ normalize item n = Ok r.
Proof.
  induction 1 as [| item records items D IH | item n r0 records items E D IH];
    intros r Hin.
  - destruct Hin.
  - destruct (IH r Hin) as (it & k & Hit & Ek).
    exists it, k. split; [now right | assumption].
  - destruct Hin as [<- | Hin].
    + exists item, n. split; [now left | assumption].
    + destruct (IH r Hin) as (it & k & Hit & Ek).
      exists it, k. split; [now right | assumption].
Qed.

(** *** Progress of the run through its sources *)

Lemma advance_same items st st' :
  seen_ids st' = seen_ids st -> emitted st' = emitted st ->
  incl (caught st) (caught st') ->
  advance items st st'.
Proof.
  intros Hs He Hc. exists []. cbn. rewrite !app_nil_r, Hs.
  repeat split; auto using drawn_none.
Qed.

Lemma advance_trans items1 items2 st st1 st2 :
  advance items1 st st1 -> advance items2 st1 st2 ->
  advance (items1 ++ items2) st st2.
Proof.
  intros (r1 & E1 & S1 & D1 & F1 & N1 & C1) (r2 & E2 & S2 & D2 & F2 & N2 & C2).
  exists (r1 ++ r2). split; [|split; [|split; [|split; [|split]]]].
  - now rewrite E2, E1, app_assoc.
  - now rewrite S2, S1, map_app, app_assoc.
  - now apply drawn_app.
  - apply Forall_app. now split.
  - auto.
  - eapply incl_tran; eassumption.
Qed.

Lemma advance_step item st out :
  item_step normalize_from item st out -> advance [item] st (fst out).
Proof.
  intros [r | r Hh Hm En]; cbn [fst].
  - apply advance_same; auto using incl_refl.
  - exists [r]. cbn [seen_ids emitted caught map].
    split; [|split; [|split; [|split; [|split]]]]; try reflexivity.
    + eapply drawn_take; [exact En | constructor].
    + now constructor.
    + intros D. now apply distinct_snoc.
    + apply incl_refl.
Qed.

Lemma advances_ret {A} (a : A) : advances [] (ret a).
Proof. intros st. apply advance_same; auto using incl_refl. Qed.

Lemma advances_lift {A} (r : result A) : advances [] (lift r).
Proof. intros st. apply advance_same; auto using incl_refl. Qed.

Lemma advances_call a : advances [] (call a).
Proof. intros st. apply advance_same; auto using incl_refl. Qed.

Lemma advances_call_outcome a o : advances [] (call_outcome a o).
Proof. intros st. apply advance_same; auto using incl_refl. Qed.

Lemma advances_bind {A B} items1 items2 (m : gen A) (k : A -> gen B) :
  advances items1 m -> (forall a, advances items2 (k a)) ->
  advances (items1 ++ items2) (bind m k).
Proof.
  intros Hm Hk st. unfold bind. specialize (Hm st).
  destruct (m st) as [st1 [a|e]]; cbn [fst] in *.
  - eapply advance_trans; [exact Hm | apply Hk].
  - eapply advance_trans; [exact Hm |].
    apply advance_same; auto using incl_refl.
Qed.

Lemma advances_then {A B} items (m : gen A) (k : A -> gen B) :
  advances [] m -> (forall a, advances items (k a)) ->
  advances items (bind m k).
Proof. intros Hm Hk. now apply (advances_bind [] items). Qed.

Lemma advances_before {A B} items (m : gen A) (k : A -> gen B) :
  advances items m -> (forall a, advances [] (k a)) ->
  advances items (bind m k).
Proof.
  intros Hm Hk. rewrite <- (app_nil_r items). now apply advances_bind.
Qed.

Lemma advances_try_except items h m :
  advances items m -> advances items (try_except h m).
Proof.
  intros Hm st. specialize (Hm st). unfold try_except.
  destruct (m st) as [st' [[]|e]]; cbn [fst] in *; [exact Hm|].
  destruct Hm as (r & E & S & D & F & N & C).
  exists r. cbn [seen_ids emitted caught].
  repeat split; try assumption.
  intros x Hx. apply in_or_app. left. now apply C.
Qed.

Lemma advances_for_each {A} (f : A -> list (source * json))
    (body : A -> gen unit) xs :
  (forall x, advances (f x) (body x)) ->
  advances (flat_map f xs) (for_each body xs).
Proof.
  intros Hbody. induction xs as [|x xs IH]; cbn [for_each flat_map].
  - apply advances_ret.
  - apply advances_bind; auto.
Qed.

Lemma flat_map_singleton {A B} (f : A -> B) xs :
  flat_map (fun x => [f x]) xs = map f xs.
Proof. induction xs; cbn; congruence. Qed.

Lemma map_flat_map {A B C} (f : B -> C) (g : A -> list B) xs :
  flat_map (fun x => map f (g x)) xs = map f (flat_map g xs).
Proof.
  induction xs as [|x xs IH]; cbn; [reflexivity|].
  now rewrite map_app, IH.
Qed.

Lemma advances_html_items items :
  advances (map (pair Embedded) items) (for_each html_item items).
Proof.
  rewrite <- flat_map_singleton. apply advances_for_each.
  intros item st. apply advance_step, html_item_step.
Qed.

Lemma advances_api_items items :
  advances (map (pair Intercepted) items) (for_each api_item items).
Proof.
  rewrite <- flat_map_singleton. apply advances_for_each.
  intros item st. apply advance_step, api_item_step.
Qed.

Lemma advances_nothing {A} items (m : gen A) :
  advances [] m -> advances items m.
Proof.
  intros Hm st. destruct (Hm st) as (r & E & S & D & F & N & C).
  inversion D; subst. exists []. repeat split; auto using drawn_none.
Qed.

Lemma advances_lift_bind {A B} items (r : result A) (k : A -> gen B) :
  (forall a, r = Ok a -> advances items (k a)) ->
  advances items (bind (lift r) k).
Proof.
  intros Hk st. unfold bind, lift. destruct r as [a|e].
  - now apply Hk.
  - apply advance_same; auto using incl_refl.
Qed.

Lemma advances_strategy1 page :
  advances (map (pair Embedded) (embedded_items page)) (strategy1 page).
Proof.
  destruct page as [|loaded]; cbn [strategy1]; [apply advances_ret|].
  apply advances_try_except. unfold strategy1_body, embedded_items.
  apply advances_lift_bind. intros universal_data ->.
  apply advances_lift_bind. intros aweme_list ->.
  destruct (Py.truthy aweme_list); [|apply advances_ret].
  apply advances_lift_bind. intros _ _.
  apply advances_lift_bind. intros items ->.
  apply advances_html_items.
Qed.

Lemma advances_api_response response_data :
  advances (map (pair Intercepted) (response_items response_data))
    (api_response response_data).
Proof.
  unfold api_response, response_items.
  apply advances_lift_bind. intros [|] _; [|apply advances_nothing, advances_ret].
  apply advances_lift_bind. intros item_list ->.
  destruct (Py.truthy item_list); [|apply advances_nothing, advances_ret].
  apply advances_lift_bind. intros _ _.
  apply advances_lift_bind. intros items ->.
  apply advances_api_items.
Qed.

Lemma advances_strategy2 responses :
  advances (map (pair Intercepted) (intercepted_items responses))
    (strategy2 responses).
Proof.
  unfold strategy2, intercepted_items. rewrite <- map_flat_map.
  apply advances_for_each. intros response_data.
  apply advances_api_response.
Qed.

Lemma advances_refresh env : advances [] (refresh env).
Proof.
  unfold refresh. apply advances_try_except.
  repeat (apply (advances_bind [] []);
          [first [apply advances_call_outcome | apply advances_call]
          | intros _]).
  apply advances_call.
Qed.

Lemma advances_scroll_loop env remaining :
  forall previous_height scroll_count,
    advances [] (scroll_loop env remaining previous_height scroll_count).
Proof.
  induction remaining as [|remaining IH]; intros previous_height scroll_count;
    cbn [scroll_loop].
  - apply advances_ret.
  - apply (advances_bind [] []); [apply advances_call | intros _].
    destruct (_ =? _); [apply advances_ret|].
    apply (advances_bind [] []); [apply advances_call | intros _].
    apply (advances_bind [] []); [apply advances_call | intros _].
    apply IH.
Qed.

Lemma advances_scrape url storage_state_path headless_debug env :
  advances (processing_order env)
    (scrape_tiktok_profile url storage_state_path headless_debug env).
Proof.
  unfold scrape_tiktok_profile, processing_order.
  do 4 (apply advances_then; [apply advances_call | intros _]).
  apply advances_before.
  - apply advances_try_except.
    apply advances_then; [apply advances_call_outcome | intros _].
    do 2 (apply advances_then; [apply advances_call | intros _]).
    apply advances_bind; [apply advances_strategy1 | intros _].
    apply advances_then; [apply advances_refresh | intros _].
    apply advances_then; [apply advances_scroll_loop | intros _].
    apply advances_strategy2.
  - intros _. apply (advances_bind [] []); [|intros _; apply advances_call].
    destruct storage_state_path as [p|]; [|apply advances_ret].
    destruct (path_given (Some p)); [apply advances_call | apply advances_ret].
Qed.

Lemma run_advance url storage_state_path headless_debug env :
  exists records,
    stream url storage_state_path headless_debug env = records /\
    seen_ids (run url storage_state_path headless_debug env)
    = map ID records /\
    drawn_from normalize_from records (processing_order env) /\
    Forall (fun r => Py.hashable (ID r) = true) records /\
    distinct (map ID records).
Proof.
  destruct (advances_scrape url storage_state_path headless_debug env
              initial) as (records & E & S & D & F & N & _).
  exists records. unfold stream, run. cbn in E, S, N.
  repeat split; try assumption.
  rewrite <- S. now apply N.
Qed.

(** *** The phases of a run *)

Lemma strategy1_returns page st : snd (strategy1 page st) = Ok tt.
Proof.
  destruct page as [|loaded_]; cbn [strategy1]; [reflexivity|].
  unfold try_except. now destruct (strategy1_body loaded_ st) as [? [[]|?]].
Qed.

Lemma refresh_returns env st : snd (refresh env st) = Ok tt.
Proof.
  unfold refresh, try_except.
  match goal with |- context [match ?m with _ => _ end] =>
    now destruct m as [? [[]|?]] end.
Qed.

Lemma scroll_loop_returns env remaining :
  forall previous_height scroll_count st,
    exists n,
      snd (scroll_loop env remaining previous_height scroll_count st) = Ok n.
Proof.
  induction remaining as [|remaining IH]; intros previous_height scroll_count st;
    cbn [scroll_loop].
  - now exists scroll_count.
  - unfold bind at 1. cbn [call]. destruct (_ =? _).
    + now exists scroll_count.
    + unfold bind at 1. cbn [call]. unfold bind at 1. cbn [call].
      apply IH.
Qed.

Lemma fst_bind_ok {A B} (m : gen A) (k : A -> gen B) st a :
  snd (m st) = Ok a -> fst (bind m k st) = fst (k a (fst (m st))).
Proof.
  unfold bind. destruct (m st) as [st' r]. cbn. now intros ->.
Qed.

Lemma try_except_returns h m st : snd (try_except h m st) = Ok tt.
Proof. unfold try_except. now destruct (m st) as [? [[]|?]]. Qed.

Lemma try_except_bind {A} h (m : gen A) (k : A -> gen unit) st a :
  snd (m st) = Ok a ->
  try_except h (bind m k) st = try_except h (k a) (fst (m st)).
Proof.
  unfold try_except, bind. destruct (m st) as [st' r]. cbn. now intros ->.
Qed.

Lemma run_phases url storage_state_path headless_debug env :
  goto_outcome env = None ->
  let st := after_intercepted url storage_state_path headless_debug env in
  run url storage_state_path headless_debug env
  = {| seen_ids := seen_ids st;
       emitted := emitted st;
       actions := actions st ++ closing storage_state_path;
       caught := caught st |}.
Proof.
  intros Hgoto st. subst st.
  unfold after_intercepted, after_interaction, after_embedded, loaded.
  unfold run, scrape_tiktok_profile.
  do 4 (rewrite fst_bind_ok with (a := tt) by reflexivity; cbn [call fst]).
  rewrite fst_bind_ok with (a := tt) by apply try_except_returns.
  unfold call_outcome. rewrite Hgoto.
  rewrite try_except_bind with (a := tt) by reflexivity. cbn [call fst].
  do 2 (rewrite try_except_bind with (a := tt) by reflexivity; cbn [call fst]).
  rewrite try_except_bind with (a := tt) by apply strategy1_returns.
  rewrite try_except_bind with (a := tt) by apply refresh_returns.
  unfold scroll.
  match goal with
  | |- context [scroll_loop env max_scrolls (-1) 0 ?s] =>
      destruct (scroll_loop_returns env max_scrolls (-1) 0 s) as [n Hn]
  end.
  rewrite try_except_bind with (a := n) by exact Hn.
  cbn [initial seen_ids emitted actions caught app opening].
  match goal with
  | |- context [fst (try_except Navigation ?m ?s)] =>
      generalize (fst (try_except Navigation m s))
  end.
  intros st. unfold closing, bind, call, ret.
  destruct storage_state_path as [p|]; [destruct (path_given (Some p))|];
    cbn [fst seen_ids emitted actions caught app];
    rewrite <- ?app_assoc; reflexivity.
Qed.


(** *** Every identifier reached is recorded *)

Lemma count_id_absent v ids : Py.mem v ids = false -> count_id v ids = 0%nat.
Proof.
  unfold count_id, Py.mem.
  induction ids as [|x ids IH]; cbn; [reflexivity|].
  intros M. apply orb_false_iff in M. destruct M as [-> M]. auto.
Qed.

Lemma distinct_count_le v ids : distinct ids -> (count_id v ids <= 1)%nat.
Proof.
  induction ids as [|x ids IH]; cbn [distinct]; intros D.
  - cbn. lia.
  - destruct D as [Mx D]. unfold count_id in *. cbn [filter].
    destruct (Py.eqb v x) eqn:E; [|auto].
    cbn [List.length].
    rewrite <- (mem_eqb _ _ _ E) in Mx.
    apply count_id_absent in Mx. unfold count_id in Mx. lia.
Qed.

Lemma distinct_count v ids :
  distinct ids -> Py.mem v ids = true -> count_id v ids = 1%nat.
Proof.
  induction ids as [|x ids IH]; cbn [distinct]; intros D M.
  - discriminate.
  - destruct D as [Mx D]. unfold count_id in *. cbn [filter].
    cbn in M. destruct (Py.eqb v x) eqn:E.
    + cbn [List.length].
      rewrite <- (mem_eqb _ _ _ E) in Mx.
      apply count_id_absent in Mx. unfold count_id in Mx. lia.
    + auto.
Qed.

Lemma no_extraction_error_incl st st' :
  incl (caught st) (caught st') ->
  no_extraction_error st' -> no_extraction_error st.
Proof. intros Hincl Herr h e Hin. eapply Herr, Hincl, Hin. Qed.

Lemma complete_nil {A} (m : gen A) : complete [] m.
Proof. intros st _ _ tagged v []. Qed.

Lemma complete_bind {A B} items1 items2 items2'
    (m : gen A) (k : A -> gen B) :
  complete items1 m ->
  (forall a, complete items2 (k a)) ->
  (forall a, advances items2' (k a)) ->
  complete (items1 ++ items2) (bind m k).
Proof.
  intros Hm Hk Ak st. specialize (Hm st). unfold bind.
  destruct (m st) as [st1 [a|e]]; cbn [fst snd] in *.
  - intros Herr Hok tagged v Hin Hid.
    destruct (Ak a st1) as (r & _ & S & _ & _ & _ & C).
    apply in_app_or in Hin. destruct Hin as [Hin|Hin].
    + rewrite S, mem_app.
      rewrite (Hm (no_extraction_error_incl _ _ C Herr)
                 (ex_intro _ a eq_refl) tagged v Hin Hid).
      reflexivity.
    + now apply (Hk a st1 Herr Hok tagged v).
  - intros _ [b Hb]. discriminate.
Qed.

Lemma complete_lift_bind {A B} items (r : result A) (k : A -> gen B) :
  (forall a, r = Ok a -> complete items (k a)) ->
  complete items (bind (lift r) k).
Proof.
  intros Hk st. unfold bind, lift. destruct r as [a|e].
  - now apply Hk.
  - intros _ [b Hb]. discriminate.
Qed.

Lemma complete_try_except items h m :
  h <> RefreshButton -> complete items m -> complete items (try_except h m).
Proof.
  intros Hh Hm st. specialize (Hm st). unfold try_except.
  destruct (m st) as [st' [[]|e]]; cbn [fst snd] in *.
  - intros Herr _. apply Hm; [assumption | now exists tt].
  - intros Herr _. exfalso. apply Hh, (Herr h e).
    cbn [caught]. apply in_or_app. right. now left.
Qed.

Lemma complete_for_each {A} (f : A -> list (source * json))
    (body : A -> gen unit) xs :
  (forall x, complete (f x) (body x)) ->
  (forall x, advances (f x) (body x)) ->
  complete (flat_map f xs) (for_each body xs).
Proof.
  intros Hbody Abody. induction xs as [|x xs IH]; cbn [for_each flat_map].
  - apply complete_nil.
  - apply (complete_bind _ _ (flat_map f xs)); auto.
    intros _. now apply advances_for_each.
Qed.

Lemma mem_snoc v s : Py.hashable v = true -> Py.mem v (s ++ [v]) = true.
Proof.
  intros Hv. rewrite mem_app. cbn. rewrite (eqb_refl _ Hv).
  now rewrite orb_true_r.
Qed.

Lemma complete_html_item item :
  complete [(Embedded, item)] (html_item item).
Proof.
  intros st _ [a Hok] tagged v [<-|[]] Hid.
  destruct item as [| | | | |d]; try discriminate. cbn [item_id] in Hid.
  revert Hok. unfold html_item. cbn [Py.is_dict Py.contains Py.get].
  rewrite Hid. run_gen.
  destruct (Py.lookup "createTime" d) as [create_time|];
    (destruct (Py.lookup "author" d) as [author|];
     [destruct (Py.get author "uniqueId" JNull) as [uid|e];
      [|discriminate] | cbn [Py.get Py.lookup]]);
    unfold Py.set_contains;
    (destruct (Py.hashable v) eqn:Hh; [|discriminate]); cbn [Res.bind];
    (destruct (Py.mem v (seen_ids st)) eqn:Hm; cbn [negb];
     [intros _; exact Hm|]);
    match goal with
    | |- context [html_record ?i ?x ?c ?u ?n] =>
        destruct (html_record i x c u n) as [r|e]; [|discriminate]
    end;
    intros _; cbn [fst seen_ids]; unfold Py.set_add; rewrite Hm;
    now apply mem_snoc.
Qed.

Lemma complete_api_item item :
  complete [(Intercepted, item)] (api_item item).
Proof.
  intros st _ [a Hok] tagged v [<-|[]] Hid.
  destruct item as [| | | | |d]; try discriminate. cbn [item_id] in Hid.
  injection Hid as Hid.
  revert Hok. unfold api_item. cbn [Py.is_dict Py.get].
  assert (Hget : match Py.lookup "id" d with
                 | Some v0 => Ok v0
                 | None => Ok (JStr "N/A")
                 end = Ok v) by (now destruct (Py.lookup "id" d); subst).
  rewrite Hget. clear Hget. run_gen.
  destruct (Py.lookup "createTime" d) as [create_time|];
    (destruct (Py.lookup "author" d) as [author|];
     [destruct (Py.get author "uniqueId" JNull) as [uid|e];
      [|discriminate] | cbn [Py.get Py.lookup]]);
    unfold Py.set_contains;
    (destruct (Py.hashable v) eqn:Hh; [|discriminate]); cbn [Res.bind];
    (destruct (Py.mem v (seen_ids st)) eqn:Hm; cbn [negb];
     [intros _; exact Hm|]);
    match goal with
    | |- context [api_record ?i ?x ?c ?u ?n] =>
        destruct (api_record i x c u n) as [r|e]; [|discriminate]
    end;
    intros _; cbn [fst seen_ids]; unfold Py.set_add; rewrite Hm;
    now apply mem_snoc.
Qed.

Lemma complete_html_items items :
  complete (map (pair Embedded) items) (for_each html_item items).
Proof.
  rewrite <- flat_map_singleton. apply complete_for_each.
  - apply complete_html_item.
  - intros item st. apply advance_step, html_item_step.
Qed.

Lemma complete_api_items items :
  complete (map (pair Intercepted) items) (for_each api_item items).
Proof.
  rewrite <- flat_map_singleton. apply complete_for_each.
  - apply complete_api_item.
  - intros item st. apply advance_step, api_item_step.
Qed.

Lemma complete_strategy1 page :
  complete (map (pair Embedded) (embedded_items page)) (strategy1 page).
Proof.
  destruct page as [|loaded_]; cbn [strategy1]; [apply complete_nil|].
  apply complete_try_except; [discriminate|].
  unfold strategy1_body, embedded_items.
  apply complete_lift_bind. intros universal_data ->.
  apply complete_lift_bind. intros aweme_list ->.
  destruct (Py.truthy aweme_list); [|apply complete_nil].
  apply complete_lift_bind. intros _ _.
  apply complete_lift_bind. intros items ->.
  apply complete_html_items.
Qed.

Lemma iter_falsy v items :
  Py.truthy v = false -> Py.iter v = Ok items -> items = [].
Proof.
  destruct v as [|b|n|s|l|d]; cbn; try discriminate.
  - destruct s; [|discriminate]. intros _ E. now injection E as <-.
  - destruct l; [|discriminate]. intros _ E. now injection E as <-.
  - destruct d; [|discriminate]. intros _ E. now injection E as <-.
Qed.

Lemma contains_index o k : Py.contains o k = Ok false ->
  exists e, Py.index o k = Raise e.
Proof.
  destruct o as [|b|n|s|l|d]; cbn; try discriminate; eauto.
  destruct (Py.lookup k d); [discriminate | eauto].
Qed.

Lemma complete_api_response response_data :
  complete (map (pair Intercepted) (response_items response_data))
    (api_response response_data).
Proof.
  unfold api_response, response_items.
  apply complete_lift_bind. intros [|] Hc.
  - apply complete_lift_bind. intros item_list ->.
    destruct (Py.truthy item_list) eqn:Ht.
    + apply complete_lift_bind. intros _ _.
      apply complete_lift_bind. intros items ->.
      apply complete_api_items.
    + destruct (Py.iter item_list) as [items|e] eqn:Hi;
        [|apply complete_nil].
      rewrite (iter_falsy _ _ Ht Hi). apply complete_nil.
  - destruct (contains_index _ _ Hc) as [e ->]. apply complete_nil.
Qed.

Lemma complete_strategy2 responses :
  complete (map (pair Intercepted) (intercepted_items responses))
    (strategy2 responses).
Proof.
  unfold strategy2, intercepted_items. rewrite <- map_flat_map.
  apply complete_for_each.
  - apply complete_api_response.
  - apply advances_api_response.
Qed.

(** *** Browser calls *)

Lemma same_actions_ret {A} (a : A) : same_actions (ret a).
Proof. now intros st. Qed.

Lemma same_actions_lift_bind {A B} (r : result A) (k : A -> gen B) :
  (forall a, same_actions (k a)) -> same_actions (bind (lift r) k).
Proof.
  intros Hk st. unfold bind, lift. destruct r as [a|e]; [apply Hk | reflexivity].
Qed.

Lemma same_actions_bind {A B} (m : gen A) (k : A -> gen B) :
  same_actions m -> (forall a, same_actions (k a)) -> same_actions (bind m k).
Proof.
  intros Hm Hk st. unfold bind. specialize (Hm st).
  destruct (m st) as [st1 [a|e]]; cbn [fst] in *; [|assumption].
  now rewrite Hk.
Qed.

Lemma same_actions_try_except h m :
  same_actions m -> same_actions (try_except h m).
Proof.
  intros Hm st. specialize (Hm st). unfold try_except.
  destruct (m st) as [st' [[]|e]]; exact Hm.
Qed.

Lemma same_actions_for_each {A} (body : A -> gen unit) xs :
  (forall x, same_actions (body x)) -> same_actions (for_each body xs).
Proof.
  intros Hbody. induction xs as [|x xs IH]; cbn [for_each].
  - apply same_actions_ret.
  - apply same_actions_bind; auto.
Qed.

Lemma same_actions_step {A} (normalize : A -> nat -> result video)
    item st out :
  item_step normalize item st out -> actions (fst out) = actions st.
Proof. now intros [r | r Hh Hm En]. Qed.

Lemma same_actions_strategy1 page : same_actions (strategy1 page).
Proof.
  destruct page as [|loaded_]; cbn [strategy1]; [apply same_actions_ret|].
  apply same_actions_try_except. unfold strategy1_body.
  apply same_actions_lift_bind. intros universal_data.
  apply same_actions_lift_bind. intros aweme_list.
  destruct (Py.truthy aweme_list); [|apply same_actions_ret].
  apply same_actions_lift_bind. intros _.
  apply same_actions_lift_bind. intros items.
  apply same_actions_for_each. intros item st.
  exact (same_actions_step _ _ _ _ (html_item_step item st)).
Qed.

Lemma same_actions_strategy2 responses : same_actions (strategy2 responses).
Proof.
  apply same_actions_for_each. intros response_data. unfold api_response.
  apply same_actions_lift_bind. intros [|]; [|apply same_actions_ret].
  apply same_actions_lift_bind. intros item_list.
  destruct (Py.truthy item_list); [|apply same_actions_ret].
  apply same_actions_lift_bind. intros _.
  apply same_actions_lift_bind. intros items.
  apply same_actions_for_each. intros item st.
  exact (same_actions_step _ _ _ _ (api_item_step item st)).
Qed.

Lemma scrolls_performed_app acts1 acts2 :
  scrolls_performed (acts1 ++ acts2)
  = (scrolls_performed acts1 + scrolls_performed acts2)%nat.
Proof. unfold scrolls_performed. now rewrite filter_app, length_app. Qed.

Lemma refresh_scrolls env st :
  scrolls_performed (actions (fst (refresh env st)))
  = scrolls_performed (actions st).
Proof.
  unfold refresh, try_except, bind, call_outcome, call.
  destruct (selector_outcome env), (load_state_outcome env);
    cbn [fst snd actions]; rewrite ?scrolls_performed_app; cbn; lia.
Qed.

Lemma scroll_loop_spec env remaining :
  forall previous_height scroll_count st,
    let out := scroll_loop env remaining previous_height scroll_count st in
    let n := final_scroll_count (scroll_height env) remaining previous_height
               scroll_count in
    snd out = Ok n /\
    (scrolls_performed (actions (fst out)) + scroll_count
     = scrolls_performed (actions st) + n)%nat /\
    seen_ids (fst out) = seen_ids st /\
    emitted (fst out) = emitted st /\
    caught (fst out) = caught st.
Proof.
  induction remaining as [|remaining IH]; intros previous_height scroll_count st;
    cbv zeta; cbn [scroll_loop final_scroll_count].
  - cbn. repeat split; lia.
  - unfold bind, call, ret. cbn [fst snd].
    destruct (scroll_height env scroll_count =? previous_height).
    + cbn [fst snd actions seen_ids emitted caught].
      rewrite scrolls_performed_app. cbn. repeat split; lia.
    + match goal with
      | |- context [scroll_loop env remaining ?p ?c ?s] =>
          destruct (IH p c s) as (R & C & S1 & S2 & S3);
          destruct (scroll_loop env remaining p c s) as [st' r]
      end.
      cbn [fst snd actions seen_ids emitted caught] in *. subst r.
      repeat split; try assumption.
      rewrite !scrolls_performed_app in C. cbn in C. lia.
Qed.


Lemma run_not_loaded url storage_state_path headless_debug env e :
  goto_outcome env = Some e ->
  run url storage_state_path headless_debug env
  = {| seen_ids := [];
       emitted := [];
       actions := opening url storage_state_path headless_debug env
                  ++ closing storage_state_path;
       caught := [(Navigation, e)] |}.
Proof.
  intros Hgoto. unfold run, scrape_tiktok_profile.
  do 4 (rewrite fst_bind_ok with (a := tt) by reflexivity; cbn [call fst]).
  rewrite fst_bind_ok with (a := tt) by apply try_except_returns.
  unfold call_outcome. rewrite Hgoto.
  unfold try_except at 1. unfold bind at 2. cbn [call fst snd].
  cbn [initial seen_ids emitted actions caught app].
  unfold closing, opening, bind, call, ret.
  destruct storage_state_path as [p|]; [destruct (path_given (Some p))|];
    reflexivity.
Qed.

Lemma closing_scrolls storage_state_path :
  scrolls_performed (closing storage_state_path) = 0%nat.
Proof.
  unfold closing.
  destruct storage_state_path as [p|]; [destruct (path_given (Some p))|];
    reflexivity.
Qed.

Lemma run_scrolls url storage_state_path headless_debug env :
  scrolls_performed (actions (run url storage_state_path headless_debug env))
  = match goto_outcome env with
    | None => final_scroll_count (scroll_height env) max_scrolls (-1) 0
    | Some _ => 0%nat
    end.
Proof.
  destruct (goto_outcome env) as [e|] eqn:Hgoto.
  - rewrite (run_not_loaded _ _ _ _ _ Hgoto). cbn [actions].
    rewrite scrolls_performed_app, closing_scrolls. reflexivity.
  - rewrite (run_phases _ _ _ _ Hgoto). cbn [actions].
    rewrite scrolls_performed_app, closing_scrolls.
    unfold after_intercepted.
    rewrite (same_actions_try_except Navigation _
               (same_actions_strategy2 _)).
    unfold after_interaction, scroll.
    match goal with
    | |- context [scroll_loop env max_scrolls (-1) 0 ?s] =>
        destruct (scroll_loop_spec env max_scrolls (-1) 0 s) as (_ & C & _)
    end.
    rewrite refresh_scrolls in C. unfold after_embedded in *.
    rewrite same_actions_strategy1 in C.
    change (scrolls_performed
              (actions (loaded url storage_state_path headless_debug env)))
      with 0%nat in C.
    lia.
Qed.



(** *** The scroll loop *)

Lemma final_scroll_count_bounds heights remaining :
  forall previous_height scroll_count,
    (scroll_count
     <= final_scroll_count heights remaining previous_height scroll_count
     <= scroll_count + remaining)%nat.
Proof.
  induction remaining as [|remaining IH]; intros previous_height scroll_count;
    cbn [final_scroll_count].
  - lia.
  - destruct (_ =? _); [lia|].
    specialize (IH (heights scroll_count) (S scroll_count)). lia.
Qed.

Lemma final_scroll_count_stops heights remaining :
  forall previous_height scroll_count k,
    (scroll_count <= k)%nat ->
    heights k = (if (k =? scroll_count)%nat then previous_height
                 else heights (pred k)) ->
    (final_scroll_count heights remaining previous_height scroll_count
     <= k)%nat.
Proof.
  induction remaining as [|remaining IH];
    intros previous_height scroll_count k Hk Heq; cbn [final_scroll_count].
  - assumption.
  - destruct (heights scroll_count =? previous_height) eqn:E; [assumption|].
    destruct (Nat.eqb_spec k scroll_count) as [->|Hne].
    + rewrite Heq, Z.eqb_refl in E. discriminate.
    + apply IH; [lia|].
      destruct (Nat.eqb_spec k (S scroll_count)) as [->|Hne'].
      * exact Heq.
      * exact Heq.
Qed.

Lemma final_scroll_count_reason heights remaining :
  forall previous_height scroll_count,
    let n := final_scroll_count heights remaining previous_height
               scroll_count in
    (n < scroll_count + remaining)%nat ->
    heights n = (if (n =? scroll_count)%nat then previous_height
                 else heights (pred n)).
Proof.
  induction remaining as [|remaining IH]; intros previous_height scroll_count;
    cbn [final_scroll_count]; cbv zeta.
  - lia.
  - destruct (heights scroll_count =? previous_height) eqn:E.
    + intros _. rewrite Nat.eqb_refl. now apply Z.eqb_eq.
    + intros Hlt. specialize (IH (heights scroll_count) (S scroll_count)).
      cbv zeta in IH.
      pose proof (final_scroll_count_bounds heights remaining
                    (heights scroll_count) (S scroll_count)) as B.
      set (n := final_scroll_count heights remaining (heights scroll_count)
                  (S scroll_count)) in *.
      destruct (Nat.eqb_spec n scroll_count) as [Hn|Hn]; [lia|].
      rewrite IH by lia.
      destruct (Nat.eqb_spec n (S scroll_count)) as [Hn'|Hn'];
        [rewrite Hn'|]; reflexivity.
Qed.

Lemma compared_with_eq heights k :
  compared_with heights k
  = if (k =? 0)%nat then -1 else heights (pred k).
Proof. now destruct k. Qed.

(** *** The stream of a run, phase by phase *)

Lemma advance_nil st st' :
  advance [] st st' ->
  emitted st' = emitted st /\ seen_ids st' = seen_ids st.
Proof.
  intros (r & E & S & D & _). inversion D; subst.
  cbn in *. now rewrite app_nil_r in *.
Qed.

Lemma interaction_keeps url storage_state_path headless_debug env :
  let st1 := after_embedded url storage_state_path headless_debug env in
  let st2 := after_interaction url storage_state_path headless_debug env in
  emitted st2 = emitted st1 /\ seen_ids st2 = seen_ids st1 /\
  incl (caught st1) (caught st2).
Proof.
  cbv zeta. unfold after_interaction, scroll.
  match goal with
  | |- context [scroll_loop env max_scrolls (-1) 0 ?s] =>
      destruct (scroll_loop_spec env max_scrolls (-1) 0 s)
        as (_ & _ & S & E & C)
  end.
  rewrite S, E, C.
  pose proof (advances_refresh env
                (after_embedded url storage_state_path headless_debug env))
    as A.
  destruct (advance_nil _ _ A) as [E' S'].
  destruct A as (_ & _ & _ & _ & _ & _ & C').
  auto.
Qed.

Lemma run_split url storage_state_path headless_debug env :
  goto_outcome env = None ->
  exists from_embedded from_intercepted,
    emitted (after_embedded url storage_state_path headless_debug env)
    = from_embedded /\
    seen_ids (after_embedded url storage_state_path headless_debug env)
    = map ID from_embedded /\
    stream url storage_state_path headless_debug env
    = from_embedded ++ from_intercepted /\
    seen_ids (run url storage_state_path headless_debug env)
    = map ID (from_embedded ++ from_intercepted) /\
    drawn_from normalize_from from_embedded
      (map (pair Embedded) (embedded_items (page_content env))) /\
    drawn_from normalize_from from_intercepted
      (map (pair Intercepted)
         (intercepted_items (intercepted_api_responses env))) /\
    Forall (fun r => Py.hashable (ID r) = true)
      (from_embedded ++ from_intercepted) /\
    distinct (map ID (from_embedded ++ from_intercepted)).
Proof.
  intros Hgoto. unfold stream. rewrite (run_phases _ _ _ _ Hgoto).
  cbn [emitted seen_ids].
  destruct (interaction_keeps url storage_state_path headless_debug env)
    as (E12 & S12 & _).
  destruct (advances_strategy1 (page_content env)
              (loaded url storage_state_path headless_debug env))
    as (r1 & E1 & S1 & D1 & F1 & N1 & _).
  fold (after_embedded url storage_state_path headless_debug env) in *.
  destruct (advances_try_except _ Navigation _
              (advances_strategy2 (intercepted_api_responses env))
              (after_interaction url storage_state_path headless_debug env))
    as (r2 & E2 & S2 & D2 & F2 & N2 & _).
  fold (after_intercepted url storage_state_path headless_debug env) in *.
  cbn [loaded emitted seen_ids app] in E1, S1, N1.
  exists r1, r2.
  rewrite E2, S2, E12, S12, E1, S1, map_app.
  repeat split; try assumption.
  - apply Forall_app. now split.
  - rewrite <- S1, <- S12, <- S2. apply N2. rewrite S12. now apply N1.
Qed.

Lemma drawn_from_source {records} src items :
  drawn_from normalize_from records (map (pair src) items) ->
  drawn_from (fun item => normalize_from (src, item)) records items.
Proof. apply drawn_map. Qed.

Lemma run_complete url storage_state_path headless_debug env :
  goto_outcome env = None ->
  no_extraction_error (run url storage_state_path headless_debug env) ->
  forall tagged v,
    In tagged (processing_order env) -> item_id tagged = Some v ->
    Py.mem v (seen_ids (run url storage_state_path headless_debug env))
    = true /\
    (fst tagged = Embedded ->
     Py.mem v
       (seen_ids (after_embedded url storage_state_path headless_debug env))
     = true).
Proof.
  intros Hgoto Herr tagged v Hin Hid.
  rewrite (run_phases _ _ _ _ Hgoto) in *. cbn [seen_ids].
  assert (Herr3 : no_extraction_error
                    (after_intercepted url storage_state_path headless_debug
                       env)) by exact Herr.
  clear Herr.
  destruct (interaction_keeps url storage_state_path headless_debug env)
    as (E12 & S12 & C12).
  destruct (advances_try_except _ Navigation _
              (advances_strategy2 (intercepted_api_responses env))
              (after_interaction url storage_state_path headless_debug env))
    as (r2 & E2 & S2 & _ & _ & _ & C2).
  fold (after_intercepted url storage_state_path headless_debug env) in *.
  assert (Herr1 : no_extraction_error
                    (after_embedded url storage_state_path headless_debug
                       env)).
  { eapply no_extraction_error_incl; [|exact Herr3].
    eapply incl_tran; eassumption. }
  assert (H1 : In tagged (map (pair Embedded)
                            (embedded_items (page_content env))) ->
               Py.mem v
                 (seen_ids (after_embedded url storage_state_path
                              headless_debug env)) = true).
  { intros Hin1.
    apply (complete_strategy1 (page_content env)
             (loaded url storage_state_path headless_debug env) Herr1
             (ex_intro _ tt (strategy1_returns _ _)) tagged v Hin1 Hid). }
  unfold processing_order in Hin. apply in_app_or in Hin.
  destruct Hin as [Hin|Hin].
  - split; [|auto]. rewrite S2, S12, mem_app, (H1 Hin). reflexivity.
  - split.
    + apply (complete_try_except _ Navigation _ ltac:(discriminate)
               (complete_strategy2 (intercepted_api_responses env))
               (after_interaction url storage_state_path headless_debug env)
               Herr3 (ex_intro _ tt (try_except_returns _ _ _))
               tagged v Hin Hid).
    + intros Hsrc. apply in_map_iff in Hin.
      destruct Hin as (item & <- & _). discriminate.
Qed.

(** C1, as the code has it.  In the stream of any run no two records have
    the same [ID], nor two [ID]s that Python's [==] identifies: an
    identifier occurs at most once, however many sources and items carry
    it.  When no extraction error has been caught, the identifier of
    every item reached occurs exactly once, and if an item of the
    embedded document carries it, that occurrence is yielded by
    strategy 1, the source processed first. *)
Theorem dedup_invariant url storage_state_path headless_debug env :
  let ids := map ID (stream url storage_state_path headless_debug env) in
  NoDup ids /\
  distinct ids /\
  (forall v, (count_id v ids <= 1)%nat) /\
  (no_extraction_error (run url storage_state_path headless_debug env) ->
   forall tagged v,
     In tagged (processing_order env) -> item_id tagged = Some v ->
     count_id v ids = 1%nat /\
     (fst tagged = Embedded ->
      count_id v
        (map ID (embedded_stream url storage_state_path headless_debug env))
      = 1%nat)).
Proof.
  cbv zeta.
  destruct (run_advance url storage_state_path headless_debug env)
    as (records & -> & S & _ & F & D).
  split; [|split; [|split]].
  - apply distinct_NoDup; [|assumption].
    apply Forall_map. exact F.
  - assumption.
  - intros v. now apply distinct_count_le.
  - intros Herr tagged v Hin Hid.
    destruct (goto_outcome env) as [e|] eqn:Hgoto.
    { exfalso. rewrite (run_not_loaded _ _ _ _ _ Hgoto) in Herr.
      specialize (Herr Navigation e (or_introl eq_refl)). discriminate. }
    destruct (run_complete _ _ _ _ Hgoto Herr tagged v Hin Hid) as [M M1].
    rewrite S in M. split; [now apply distinct_count|].
    intros Hsrc. specialize (M1 Hsrc).
    destruct (run_split url storage_state_path headless_debug env Hgoto)
      as (r1 & r2 & E1 & S1 & E & _ & _ & _ & _ & D12).
    unfold embedded_stream. rewrite Hgoto, E1. rewrite S1 in M1.
    apply distinct_count; [|assumption].
    rewrite map_app in D12. clear - D12.
    induction (map ID r1) as [|x xs IH]; cbn in *; [exact I|].
    destruct D12 as [Mx D]. split; [|auto].
    unfold Py.mem in *. rewrite existsb_app in Mx.
    now apply orb_false_iff in Mx.
Qed.

(** C4 (streaming order).  The stream is the records yielded by
    strategy 1 followed by records of the intercepted responses: the
    first are built from items of the embedded list, in the order of
    that list; the second from items of the responses, in the order in
    which the responses were accumulated and, within a response, in the
    order of its item list. *)
Theorem streaming_order url storage_state_path headless_debug env :
  exists from_intercepted,
    stream url storage_state_path headless_debug env
    = embedded_stream url storage_state_path headless_debug env
      ++ from_intercepted /\
    drawn_from html_normalize
      (embedded_stream url storage_state_path headless_debug env)
      (embedded_items (page_content env)) /\
    drawn_from api_normalize from_intercepted
      (intercepted_items (intercepted_api_responses env)).
Proof.
  unfold embedded_stream.
  destruct (goto_outcome env) as [e|] eqn:Hgoto.
  - exists []. unfold stream. rewrite (run_not_loaded _ _ _ _ _ Hgoto).
    repeat split; apply drawn_none.
  - destruct (run_split url storage_state_path headless_debug env Hgoto)
      as (r1 & r2 & -> & _ & -> & _ & D1 & D2 & _).
    exists r2. repeat split.
    + exact (drawn_from_source Embedded _ D1).
    + exact (drawn_from_source Intercepted _ D2).
Qed.


Lemma path_get o k1 k2 v default1 default2 :
  path o [k1; k2] = Ok v ->
  Res.bind (Py.get o k1 default1) (fun o' => Py.get o' k2 default2) = Ok v.
Proof.
  cbn [path]. unfold Res.bind, Py.index, Py.get.
  destruct o as [| | | | |d]; try discriminate.
  destruct (Py.lookup k1 d) as [[| | | | |d']|]; try discriminate.
  destruct (Py.lookup k2 d'); [trivial | discriminate].
Qed.

(** C6 (schema tolerance).  An item of an intercepted response whose
    likes are under [stats.diggCount] and an item of the embedded
    document whose likes are under [statistics.digg_count], each with
    the fields its record needs, are both yielded as a record when
    their loop reaches them under an identifier that is hashable and
    not yet in [seen_ids] (for the embedded item, its ['aweme_id']; for
    the response item, its ['id'] or ['N/A']); in both records [Likes]
    is that count, and the identifier enters [seen_ids]. *)
Theorem schema_tolerance count st :
  (forall item v,
     path item ["stats"; "diggCount"] = Ok count ->
     has_required_fields "480" item = true ->
     optional_fields_fit "stats" item = true ->
     item_id (Intercepted, item) = Some v ->
     Py.hashable v = true ->
     Py.mem v (seen_ids st) = false ->
     exists r,
       api_item item st = (yielded st r v, Ok tt) /\
       ID r = v /\ Likes r = count) /\
  (forall item v,
     path item ["statistics"; "digg_count"] = Ok count ->
     has_required_fields "720" item = true ->
     optional_fields_fit "statistics" item = true ->
     item_id (Embedded, item) = Some v ->
     Py.hashable v = true ->
     Py.mem v (seen_ids st) = false ->
     exists r,
       html_item item st = (yielded st r v, Ok tt) /\
       ID r = v /\ Likes r = count).
Proof.
  split; intros item v Hcount Hreq Hopt Hid Hh Hm;
    (destruct item as [| | | | |d]; try discriminate Hid).
  - destruct (api_normalize_total (JDict d) (List.length (emitted st))
                Hreq Hopt) as [r Hr].
    exists r. split; [|split].
    + rewrite (api_item_new d v st Hid Hh Hm), Hr. reflexivity.
    + pose proof (api_normalize_ID _ _ _ Hr) as E.
      cbn [item_id] in Hid. injection Hid as Hid. cbn [Py.get] in E.
      destruct (Py.lookup "id" d); injection E as E; congruence.
    + pose proof (api_normalize_likes _ _ _ Hr) as L.
      rewrite (path_get _ _ _ _ _ _ Hcount) in L. now injection L.
  - cbn [item_id] in Hid.
    destruct (html_normalize_total (JDict d) (List.length (emitted st))
                Hreq Hopt) as [r Hr].
    exists r. split; [|split].
    + rewrite (html_item_new d v st Hid Hh Hm), Hr. reflexivity.
    + pose proof (html_normalize_ID _ _ _ Hr) as E. cbn [Py.get] in E.
      rewrite Hid in E. now injection E.
    + pose proof (html_normalize_likes _ _ _ Hr) as L.
      rewrite (path_get _ _ _ _ _ _ Hcount) in L. now injection L.
Qed.

(** C9 (missing identifier).  A dictionary of an intercepted response
    that has no ['id'] is looked up under ['N/A'].  If ['N/A'] is not in
    [seen_ids] and the item has the fields its record needs, its record
    is yielded with [ID] ['N/A'] and ['N/A'] enters [seen_ids]; if
    ['N/A'] is in [seen_ids], the item, like an item whose ['id'] is
    ['N/A'], is passed over without an error and without a change of
    state.  So a stream has at most one record with [ID] ['N/A']. *)
Theorem missing_id_sentinel d st :
  Py.lookup "id" d = None ->
  item_id (Intercepted, JDict d) = Some (JStr "N/A") /\
  (Py.mem (JStr "N/A") (seen_ids st) = false ->
   has_required_fields "480" (JDict d) = true ->
   optional_fields_fit "stats" (JDict d) = true ->
   exists r,
     ID r = JStr "N/A" /\
     api_item (JDict d) st = (yielded st r (JStr "N/A"), Ok tt)) /\
  (Py.mem (JStr "N/A") (seen_ids st) = true ->
   is_ok (author_unique_id_of (JDict d)) = true ->
   api_item (JDict d) st = (st, Ok tt)) /\
  (forall d',
     Py.lookup "id" d' = Some (JStr "N/A") ->
     Py.mem (JStr "N/A") (seen_ids st) = true ->
     is_ok (author_unique_id_of (JDict d')) = true ->
     api_item (JDict d') st = (st, Ok tt)) /\
  (forall url storage_state_path headless_debug env,
     (count_id (JStr "N/A")
        (map ID (stream url storage_state_path headless_debug env))
      <= 1)%nat).
Proof.
  intros Hid.
  assert (Hitem : item_id (Intercepted, JDict d) = Some (JStr "N/A"))
    by (cbn; now rewrite Hid).
  split; [assumption|]. split; [|split; [|split]].
  - intros Hm Hreq Hopt.
    destruct (api_normalize_total (JDict d) (List.length (emitted st))
                Hreq Hopt) as [r Hr].
    exists r. split.
    + pose proof (api_normalize_ID _ _ _ Hr) as E. cbn in E.
      rewrite Hid in E. now injection E.
    + rewrite (api_item_new d _ st Hitem eq_refl Hm), Hr. reflexivity.
  - intros Hm Hau. rewrite (api_item_seen d _ st Hitem Hm).
    now destruct (author_unique_id_of (JDict d)).
  - intros d' Hid' Hm Hau.
    assert (Hitem' : item_id (Intercepted, JDict d') = Some (JStr "N/A"))
      by (cbn; now rewrite Hid').
    rewrite (api_item_seen d' _ st Hitem' Hm).
    now destruct (author_unique_id_of (JDict d')).
  - intros url storage_state_path headless_debug env.
    destruct (run_advance url storage_state_path headless_debug env)
      as (records & -> & _ & _ & _ & D).
    now apply distinct_count_le.
Qed.


(** *** A record that cannot be built *)

Lemma iter_len v items : Py.iter v = Ok items -> exists n, Py.len v = Ok n.
Proof. destruct v; cbn; try discriminate; eauto. Qed.

Lemma iter_truthy v x xs : Py.iter v = Ok (x :: xs) -> Py.truthy v = true.
Proof.
  intros Hi. destruct (Py.truthy v) eqn:Ht; [reflexivity|].
  pose proof (iter_falsy _ _ Ht Hi). discriminate.
Qed.

Lemma index_contains o k v : Py.index o k = Ok v -> Py.contains o k = Ok true.
Proof.
  destruct o as [| | | | |d]; cbn; try discriminate.
  now destruct (Py.lookup k d).
Qed.

Lemma strategy1_items page items st :
  embedded_items page = items -> items <> [] ->
  strategy1 page st = try_except EmbeddedData (for_each html_item items) st.
Proof.
  destruct page as [|[universal_data|e]]; try (now intros <-).
  cbn [embedded_items strategy1].
  destruct (aweme_list_from_html universal_data) as [aweme_list|e] eqn:Hl;
    [|now intros <-].
  destruct (Py.truthy aweme_list) eqn:Ht; [|now intros <-].
  destruct (Py.iter aweme_list) as [items'|e] eqn:Hi; [|now intros <-].
  intros -> _. destruct (iter_len _ _ Hi) as [n Hn].
  unfold try_except, strategy1_body, bind, lift.
  now rewrite Hl, Ht, Hn, Hi.
Qed.

Lemma api_response_items response_data items st :
  response_items response_data = items -> items <> [] ->
  api_response response_data st = for_each api_item items st.
Proof.
  unfold response_items.
  destruct (Py.index response_data "itemList") as [item_list|e] eqn:Hx;
    [|now intros <-].
  destruct (Py.iter item_list) as [items'|e] eqn:Hi; [|now intros <-].
  intros -> Hne. destruct (iter_len _ _ Hi) as [n Hn].
  destruct items as [|x xs]; [contradiction|].
  unfold api_response, bind, lift.
  now rewrite (index_contains _ _ _ Hx), Hx, (iter_truthy _ _ _ Hi), Hn, Hi.
Qed.

Lemma html_normalize_no_cover item n e :
  path item ["video"; "zoomCover"; "720"] = Raise e ->
  exists e', html_normalize item n = Raise e'.
Proof.
  intros Hp. destruct (html_normalize item n) as [r|e'] eqn:E; [|eauto].
  rewrite (html_normalize_cover _ _ _ E) in Hp. discriminate.
Qed.

Lemma api_normalize_no_cover item n e :
  path item ["video"; "zoomCover"; "480"] = Raise e ->
  exists e', api_normalize item n = Raise e'.
Proof.
  intros Hp. destruct (api_normalize item n) as [r|e'] eqn:E; [|eauto].
  rewrite (api_normalize_cover _ _ _ E) in Hp. discriminate.
Qed.

Lemma run_closes url storage_state_path headless_debug env :
  exists calls,
    actions (run url storage_state_path headless_debug env)
    = calls ++ closing storage_state_path.
Proof.
  destruct (goto_outcome env) as [e|] eqn:Hgoto.
  - rewrite (run_not_loaded _ _ _ _ _ Hgoto). cbn [actions]. eauto.
  - rewrite (run_phases _ _ _ _ Hgoto). cbn [actions]. eauto.
Qed.

(** C2, as the code has it.  When the loop of a source reaches an item
    that lacks its cover under an identifier not yet seen, building the
    record raises, and the exception leaves the loops of that source:
    the stream of the embedded document is what the items before that
    one yielded, and for a response the stream of the run is what had
    been yielded up to that item; the items after it, and the responses
    after its response, are not read.  The exception is caught: the
    stream of the run is the one strategy 2 leaves when it starts,
    after the interaction, from what strategy 1 yielded, and every run
    ends by saving the storage state, when a path was given, and
    closing the browser. *)
Theorem fail_soft_by_source url storage_state_path headless_debug env :
  goto_outcome env = None ->
  (forall before d v after e,
     embedded_items (page_content env) = before ++ JDict d :: after ->
     Py.lookup "aweme_id" d = Some v ->
     Py.hashable v = true ->
     path (JDict d) ["video"; "zoomCover"; "720"] = Raise e ->
     let out :=
       for_each html_item before
         (loaded url storage_state_path headless_debug env) in
     snd out = Ok tt ->
     Py.mem v (seen_ids (fst out)) = false ->
     embedded_stream url storage_state_path headless_debug env
     = emitted (fst out) /\
     exists e',
       In (EmbeddedData, e')
         (caught (run url storage_state_path headless_debug env))) /\
  (forall responses_before response_data responses_after
          before d v after e,
     intercepted_api_responses env
     = responses_before ++ response_data :: responses_after ->
     response_items response_data = before ++ JDict d :: after ->
     item_id (Intercepted, JDict d) = Some v ->
     Py.hashable v = true ->
     path (JDict d) ["video"; "zoomCover"; "480"] = Raise e ->
     let out1 :=
       strategy2 responses_before
         (after_interaction url storage_state_path headless_debug env) in
     snd out1 = Ok tt ->
     let out2 := for_each api_item before (fst out1) in
     snd out2 = Ok tt ->
     Py.mem v (seen_ids (fst out2)) = false ->
     stream url storage_state_path headless_debug env = emitted (fst out2) /\
     exists e',
       In (Navigation, e')
         (caught (run url storage_state_path headless_debug env))) /\
  stream url storage_state_path headless_debug env
  = emitted
      (fst (strategy2 (intercepted_api_responses env)
              (after_interaction url storage_state_path headless_debug
                 env))) /\
  emitted (after_interaction url storage_state_path headless_debug env)
  = embedded_stream url storage_state_path headless_debug env /\
  (exists calls,
     actions (run url storage_state_path headless_debug env)
     = calls ++ closing storage_state_path).
Proof.
  intros Hgoto. split; [|split; [|split; [|split]]].
  - intros before d v after e Hitems Hid Hh Hcover out Hok Hm. subst out.
    set (st0 := loaded url storage_state_path headless_debug env) in *.
    set (st1 := fst (for_each html_item before st0)) in *.
    destruct (html_normalize_no_cover (JDict d) (List.length (emitted st1))
                e Hcover) as [e' He'].
    assert (Hbad : html_item (JDict d) st1 = (st1, Raise e'))
      by (rewrite (html_item_new d v st1 Hid Hh Hm), He'; reflexivity).
    assert (Hloop : for_each html_item (before ++ JDict d :: after) st0
                    = (st1, Raise e')).
    { rewrite (for_each_raises html_item before (JDict d) after st0 e' Hok);
        fold st1; now rewrite Hbad. }
    assert (Hafter : after_embedded url storage_state_path headless_debug env
                     = {| seen_ids := seen_ids st1;
                          emitted := emitted st1;
                          actions := actions st1;
                          caught := caught st1 ++ [(EmbeddedData, e')] |}).
    { unfold after_embedded. fold st0.
      rewrite (strategy1_items _ _ st0 Hitems)
        by (now destruct before).
      unfold try_except. now rewrite Hloop. }
    split.
    + unfold embedded_stream. now rewrite Hgoto, Hafter.
    + exists e'. rewrite (run_phases _ _ _ _ Hgoto). cbn [caught].
      destruct (interaction_keeps url storage_state_path headless_debug env)
        as (_ & _ & C12).
      destruct (advances_try_except _ Navigation _
                  (advances_strategy2 (intercepted_api_responses env))
                  (after_interaction url storage_state_path headless_debug
                     env))
        as (_ & _ & _ & _ & _ & _ & C23).
      apply C23, C12. rewrite Hafter. cbn [caught].
      apply in_or_app. right. now left.
  - intros responses_before response_data responses_after before d v after e
      Hresponses Hitems Hid Hh Hcover out1 Hok1 out2 Hok2 Hm.
    subst out1 out2.
    set (st2 := after_interaction url storage_state_path headless_debug env)
      in *.
    set (st3 := fst (strategy2 responses_before st2)) in *.
    set (st4 := fst (for_each api_item before st3)) in *.
    destruct (api_normalize_no_cover (JDict d) (List.length (emitted st4))
                e Hcover) as [e' He'].
    assert (Hbad : api_item (JDict d) st4 = (st4, Raise e'))
      by (rewrite (api_item_new d v st4 Hid Hh Hm), He'; reflexivity).
    assert (Hloop : api_response response_data st3 = (st4, Raise e')).
    { rewrite (api_response_items _ _ st3 Hitems)
        by (now destruct before).
      rewrite (for_each_raises api_item before (JDict d) after st3 e' Hok2);
        fold st4; now rewrite Hbad. }
    assert (Hall : strategy2 (intercepted_api_responses env) st2
                   = (st4, Raise e')).
    { rewrite Hresponses. unfold strategy2 in *.
      rewrite (for_each_raises api_response responses_before response_data
                 responses_after st2 e' Hok1);
        fold st3; now rewrite Hloop. }
    unfold stream. rewrite (run_phases _ _ _ _ Hgoto). cbn [emitted caught].
    unfold after_intercepted, try_except. fold st2. rewrite Hall.
    cbn [fst emitted caught]. split; [reflexivity|].
    exists e'. apply in_or_app. right. now left.
  - unfold stream. rewrite (run_phases _ _ _ _ Hgoto). cbn [emitted].
    unfold after_intercepted, try_except.
    now destruct (strategy2 _ _) as [st' [[]|e]].
  - unfold embedded_stream. rewrite Hgoto.
    apply (interaction_keeps url storage_state_path headless_debug env).
  - apply run_closes.
Qed.

(** C7 (pagination bound).  If every measurement of the document height
    gives the same value, the run makes at most one scroll-to-bottom
    call: it does not use its three attempts. *)
Theorem pagination_bound url storage_state_path headless_debug env h :
  (forall k, scroll_height env k = h) ->
  (scrolls_performed
     (actions (run url storage_state_path headless_debug env)) <= 1)%nat.
Proof.
  intros Hsame. rewrite run_scrolls.
  destruct (goto_outcome env); [lia|].
  apply final_scroll_count_stops; [lia|].
  cbn. now rewrite !Hsame.
Qed.

(** C8, as the code has it.  The run makes at most 3 scroll-to-bottom
    calls; it stops scrolling as soon as a measured height is equal to
    the height it is compared with (the preceding measurement, [-1] for
    the first), so that a measurement equal to its predecessor after [k]
    scrolls leaves at most [k] scrolls; and when the page has loaded it
    stops before the third scroll for that reason only. *)
Theorem scroll_loop_exit url storage_state_path headless_debug env :
  let n := scrolls_performed
             (actions (run url storage_state_path headless_debug env)) in
  (n <= 3)%nat /\
  (forall k,
     scroll_height env k = compared_with (scroll_height env) k ->
     (n <= k)%nat) /\
  (goto_outcome env = None -> (n < 3)%nat ->
   scroll_height env n = compared_with (scroll_height env) n).
Proof.
  cbv zeta. rewrite run_scrolls.
  pose proof (final_scroll_count_bounds (scroll_height env) max_scrolls
                (-1) 0) as B.
  change max_scrolls with 3%nat in *.
  split; [|split].
  - destruct (goto_outcome env); lia.
  - intros k Hk. destruct (goto_outcome env); [lia|].
    apply final_scroll_count_stops; [lia|].
    now rewrite <- compared_with_eq.
  - intros -> Hlt. rewrite compared_with_eq.
    apply (final_scroll_count_reason (scroll_height env) 3 (-1) 0). lia.
Qed.

(** C5 (timeout resilience).  When [page.goto], called with its bound
    of 60000 ms, raises [TimeoutError], the run ends, having yielded
    nothing: the exception is caught by the handler of the run, and the
    only calls made after the navigation are the saving of the storage
    state, made whenever a non-empty path was given, and, last, the
    closing of the browser. *)
Theorem timeout_resilience url storage_state_path headless_debug env :
  goto_outcome env = Some TimeoutError ->
  let st := run url storage_state_path headless_debug env in
  emitted st = [] /\
  caught st = [(Navigation, TimeoutError)] /\
  actions st
  = [Launch headless_debug;
     NewContext (if path_given storage_state_path && path_exists env
                 then storage_state_path else None);
     NewPage; Route; Goto url 60000]
    ++ closing storage_state_path /\
  (forall p, storage_state_path = Some p -> p <> "" ->
     closing storage_state_path = [StorageState p; Close]) /\
  (storage_state_path = None -> closing storage_state_path = [Close]).
Proof.
  intros Hgoto. cbv zeta. rewrite (run_not_loaded _ _ _ _ _ Hgoto).
  cbn [emitted caught actions]. repeat split.
  - intros p -> Hp. unfold closing, path_given.
    destruct (String.eqb_spec p ""); [contradiction | reflexivity].
  - intros ->. reflexivity.
Qed.

(** ** Further properties of the run *)

(** *** The calls of a run *)

Lemma refresh_actions env st :
  actions (fst (refresh env st)) = actions st ++ refresh_calls env.
Proof.
  unfold refresh, refresh_calls, try_except, bind, call_outcome, call.
  destruct (selector_outcome env), (load_state_outcome env);
    cbn [fst snd actions]; rewrite <- ?app_assoc; reflexivity.
Qed.

Lemma scroll_loop_actions env remaining :
  forall previous_height scroll_count st,
    actions (fst (scroll_loop env remaining previous_height scroll_count st))
    = actions st
      ++ scroll_calls (scroll_height env) remaining previous_height
           scroll_count.
Proof.
  induction remaining as [|remaining IH]; intros previous_height scroll_count st;
    cbn [scroll_loop scroll_calls].
  - cbn. now rewrite app_nil_r.
  - unfold bind, call, ret. cbn [fst snd].
    destruct (scroll_height env scroll_count =? previous_height).
    + reflexivity.
    + match goal with
      | |- context [scroll_loop env remaining ?p ?c ?s] =>
          specialize (IH p c s);
          destruct (scroll_loop env remaining p c s) as [st' r]
      end.
      cbn [fst snd actions] in *. rewrite IH, <- !app_assoc. reflexivity.
Qed.

Lemma run_actions url storage_state_path headless_debug env :
  actions (run url storage_state_path headless_debug env)
  = opening url storage_state_path headless_debug env
    ++ interaction_calls env ++ closing storage_state_path.
Proof.
  unfold interaction_calls.
  destruct (goto_outcome env) as [e|] eqn:Hgoto.
  - now rewrite (run_not_loaded _ _ _ _ _ Hgoto).
  - rewrite (run_phases _ _ _ _ Hgoto). cbn [actions].
    unfold after_intercepted.
    rewrite (same_actions_try_except Navigation _
               (same_actions_strategy2 _)).
    unfold after_interaction, scroll.
    rewrite scroll_loop_actions, refresh_actions.
    unfold after_embedded. rewrite same_actions_strategy1.
    cbn [loaded actions]. rewrite <- !app_assoc. reflexivity.
Qed.

Lemma scroll_calls_on_page heights remaining :
  forall previous_height scroll_count,
    forallb on_page
      (scroll_calls heights remaining previous_height scroll_count) = true.
Proof.
  induction remaining as [|remaining IH]; intros previous_height scroll_count;
    cbn [scroll_calls forallb on_page]; [reflexivity|].
  destruct (_ =? _); cbn [forallb on_page andb]; auto.
Qed.

Lemma interaction_calls_on_page env :
  forallb on_page (interaction_calls env) = true.
Proof.
  unfold interaction_calls, refresh_calls.
  destruct (goto_outcome env); [reflexivity|].
  rewrite !forallb_app, scroll_calls_on_page.
  destruct (selector_outcome env), (load_state_outcome env); reflexivity.
Qed.

Lemma total_wait_app acts1 acts2 :
  total_wait (acts1 ++ acts2) = total_wait acts1 + total_wait acts2.
Proof.
  unfold total_wait. induction acts1 as [|a acts1 IH]; cbn; [reflexivity|].
  fold (total_wait (acts1 ++ acts2)) in *. cbn in IH. rewrite IH. lia.
Qed.

Lemma scroll_calls_wait heights remaining :
  forall previous_height scroll_count,
    0 <= total_wait
           (scroll_calls heights remaining previous_height scroll_count)
      <= 2000 * Z.of_nat remaining.
Proof.
  induction remaining as [|remaining IH]; intros previous_height scroll_count;
    cbn [scroll_calls].
  - cbn. lia.
  - destruct (_ =? _).
    + cbn. lia.
    + specialize (IH (heights scroll_count) (S scroll_count)).
      unfold total_wait in *. cbn [fold_right waits_at_most]. lia.
Qed.

(** X2 (time budget).  The bounds of the waits of a run add up to at
    most 139000 ms: 60000 for the navigation, 5000 to settle, 3000 for
    the refresh button, 60000 and 5000 after a click on it, and 2000
    after each of at most 3 scrolls.  A run whose navigation fails
    waits for the navigation only. *)
Theorem wait_budget url storage_state_path headless_debug env :
  0 <= total_wait (actions (run url storage_state_path headless_debug env))
    <= 139000 /\
  (goto_outcome env <> None ->
   total_wait (actions (run url storage_state_path headless_debug env))
   = 60000).
Proof.
  rewrite run_actions, !total_wait_app.
  assert (Hopen : total_wait
                    (opening url storage_state_path headless_debug env)
                  = 60000) by reflexivity.
  assert (Hclose : total_wait (closing storage_state_path) = 0).
  { unfold closing. destruct storage_state_path as [p|]; [|reflexivity].
    now destruct (path_given (Some p)). }
  rewrite Hopen, Hclose. unfold interaction_calls.
  destruct (goto_outcome env) as [e|].
  - cbn. split; [lia | reflexivity].
  - split; [|congruence].
    rewrite !total_wait_app.
    pose proof (scroll_calls_wait (scroll_height env) max_scrolls (-1) 0)
      as Hs.
    change (Z.of_nat max_scrolls) with 3 in Hs.
    set (w := total_wait
                (scroll_calls (scroll_height env) max_scrolls (-1) 0)) in *.
    clearbody w. unfold refresh_calls, total_wait.
    destruct (selector_outcome env), (load_state_outcome env);
      cbn [fold_right waits_at_most]; lia.
Qed.



(** *** The data of a run *)

Lemma same_data_refl st : same_data st st.
Proof. now split. Qed.


















Lemma snd_bind_ok {A B} (m : gen A) (k : A -> gen B) st a :
  snd (m st) = Ok a -> snd (bind m k st) = snd (k a (fst (m st))).
Proof.
  unfold bind. destruct (m st) as [st' r]. cbn. now intros ->.
Qed.

Lemma same_caught_ret {A} (a : A) : same_caught (ret a).
Proof. now intros st. Qed.

Lemma same_caught_lift_bind {A B} (r : result A) (k : A -> gen B) :
  (forall a, same_caught (k a)) -> same_caught (bind (lift r) k).
Proof.
  intros Hk st. unfold bind, lift. destruct r as [a|e]; [apply Hk | reflexivity].
Qed.

Lemma same_caught_bind {A B} (m : gen A) (k : A -> gen B) :
  same_caught m -> (forall a, same_caught (k a)) -> same_caught (bind m k).
Proof.
  intros Hm Hk st. unfold bind. specialize (Hm st).
  destruct (m st) as [st1 [a|e]]; cbn [fst] in *; [|assumption].
  now rewrite Hk.
Qed.

Lemma same_caught_for_each {A} (body : A -> gen unit) xs :
  (forall x, same_caught (body x)) -> same_caught (for_each body xs).
Proof.
  intros Hbody. induction xs as [|x xs IH]; cbn [for_each].
  - apply same_caught_ret.
  - apply same_caught_bind; auto.
Qed.

Lemma same_caught_step {A} (normalize : A -> nat -> result video)
    item st out :
  item_step normalize item st out -> caught (fst out) = caught st.
Proof. now intros [r | r Hh Hm En]. Qed.

Lemma same_caught_strategy1_body loaded_ :
  same_caught (strategy1_body loaded_).
Proof.
  unfold strategy1_body.
  apply same_caught_lift_bind. intros universal_data.
  apply same_caught_lift_bind. intros aweme_list.
  destruct (Py.truthy aweme_list); [|apply same_caught_ret].
  apply same_caught_lift_bind. intros _.
  apply same_caught_lift_bind. intros items.
  apply same_caught_for_each. intros item st.
  exact (same_caught_step _ _ _ _ (html_item_step item st)).
Qed.

Lemma same_caught_strategy2 responses : same_caught (strategy2 responses).
Proof.
  apply same_caught_for_each. intros response_data. unfold api_response.
  apply same_caught_lift_bind. intros [|]; [|apply same_caught_ret].
  apply same_caught_lift_bind. intros item_list.
  destruct (Py.truthy item_list); [|apply same_caught_ret].
  apply same_caught_lift_bind. intros _.
  apply same_caught_lift_bind. intros items.
  apply same_caught_for_each. intros item st.
  exact (same_caught_step _ _ _ _ (api_item_step item st)).
Qed.

Lemma try_except_caught h m st :
  same_caught m ->
  exists c, caught (fst (try_except h m st)) = caught st ++ c /\
            at_most_one h c.
Proof.
  intros Hm. specialize (Hm st). unfold try_except.
  destruct (m st) as [st' [[]|e]]; cbn [fst caught] in *.
  - exists []. rewrite app_nil_r. split; [assumption | now left].
  - exists [(h, e)]. rewrite Hm. split; [reflexivity | right; eauto].
Qed.

Lemma refresh_caught env st :
  exists c, caught (fst (refresh env st)) = caught st ++ c /\
            at_most_one RefreshButton c.
Proof.
  unfold refresh. apply try_except_caught.
  intros st'. unfold bind, call_outcome, call.
  destruct (selector_outcome env), (load_state_outcome env); reflexivity.
Qed.

(** X6 (identity set).  When a run ends, the identifiers in [seen_ids]
    are those of the records of the stream: for a hashable value,
    [v in seen_ids] is true exactly when [v] equals, under Python's
    [==], the [ID] of a record of the stream.  The [ID] of every
    record is a hashable value: [None], a boolean, a number or a
    string. *)
Theorem seen_ids_are_stream_ids url storage_state_path headless_debug env :
  (forall v,
     Py.hashable v = true ->
     Py.set_contains
       (seen_ids (run url storage_state_path headless_debug env)) v
     = Ok (existsb (fun r => Py.eqb v (ID r))
             (stream url storage_state_path headless_debug env))) /\
  Forall (fun r => Py.hashable (ID r) = true)
    (stream url storage_state_path headless_debug env).
Proof.
  destruct (run_advance url storage_state_path headless_debug env)
    as (records & -> & S & _ & F & _).
  split; [|exact F].
  intros v Hh. unfold Py.set_contains. rewrite Hh, S. f_equal.
  unfold Py.mem. clear.
  induction records as [|r rs IH]; cbn [map existsb];
    [reflexivity | now rewrite IH].
Qed.

Lemma drawn_length {A} (normalize : A -> nat -> result video) records items :
  drawn_from normalize records items ->
  (List.length records <= List.length items)%nat.
Proof. induction 1; cbn; lia. Qed.

(** X7 (size of the stream).  A run yields at most one record per item
    of the embedded list and of the item lists of the responses; with
    no item in either source it yields nothing. *)
Theorem stream_length url storage_state_path headless_debug env :
  (List.length (stream url storage_state_path headless_debug env)
   <= List.length (embedded_items (page_content env))
      + List.length (intercepted_items (intercepted_api_responses env)))%nat.
Proof.
  destruct (run_advance url storage_state_path headless_debug env)
    as (records & -> & _ & D & _).
  apply drawn_length in D. unfold processing_order in D.
  now rewrite length_app, !length_map in D.
Qed.

(** *** Items that are passed over *)


Lemma api_item_passed item st :
  api_candidate item = false -> api_item item st = (st, Ok tt).
Proof.
  unfold api_candidate, api_item. now destruct item.
Qed.



(** *** Responses seen twice *)

Lemma seen_within_refl s : seen_within s s.
Proof. now intros v. Qed.

Lemma seen_within_trans s1 s2 s3 :
  seen_within s1 s2 -> seen_within s2 s3 -> seen_within s1 s3.
Proof. intros H12 H23 v Hv. auto. Qed.

Lemma advance_seen_within items st st' :
  advance items st st' -> seen_within (seen_ids st) (seen_ids st').
Proof.
  intros (r & _ & S & _) v Hv. rewrite S, mem_app, Hv. reflexivity.
Qed.

Lemma api_normalize_author item n r :
  api_normalize item n = Ok r -> is_ok (author_unique_id_of item) = true.
Proof.
  unfold api_normalize, author_unique_id_of, Res.bind.
  destruct (Py.get item "id" (JStr "N/A")); [|discriminate].
  destruct (Py.get item "createTime" JNull); [|discriminate].
  destruct (Py.get item "author" (JDict [])) as [author|]; [|discriminate].
  now destruct (Py.get author "uniqueId" JNull).
Qed.

Lemma api_item_unhashable d v st :
  item_id (Intercepted, JDict d) = Some v ->
  Py.hashable v = false ->
  snd (api_item (JDict d) st) <> Ok tt.
Proof.
  intros Hid Hh. cbn [item_id] in Hid. injection Hid as Hid.
  unfold api_item. cbn [Py.is_dict Py.get].
  assert (Hget : match Py.lookup "id" d with
                 | Some v0 => Ok v0
                 | None => Ok (JStr "N/A")
                 end = Ok v) by (now destruct (Py.lookup "id" d); subst).
  rewrite Hget. clear Hget. run_gen.
  destruct (Py.lookup "createTime" d) as [create_time|];
    (destruct (Py.lookup "author" d) as [author|];
     cbn [Res.bind];
     [destruct (Py.get author "uniqueId" JNull) as [uid|e];
      [|discriminate] | cbn [Py.get Py.lookup]]);
    cbn [Res.bind];
    unfold Py.set_contains; rewrite Hh; discriminate.
Qed.

Lemma api_item_again item st st2 :
  snd (api_item item st) = Ok tt ->
  seen_within (seen_ids (fst (api_item item st))) (seen_ids st2) ->
  api_item item st2 = (st2, Ok tt).
Proof.
  destruct (api_candidate item) eqn:Hc;
    [|intros _ _; now apply api_item_passed].
  destruct item as [| | | | |d]; try discriminate.
  destruct (item_id (Intercepted, JDict d)) as [v|] eqn:Hid;
    [|discriminate].
  destruct (Py.mem v (seen_ids st)) eqn:Hm.
  - rewrite (api_item_seen d v st Hid Hm).
    destruct (author_unique_id_of (JDict d)) as [uid|e] eqn:Ha;
      cbn [fst snd]; [|discriminate].
    intros _ Hin. rewrite (api_item_seen d v st2 Hid (Hin v Hm)), Ha.
    reflexivity.
  - destruct (Py.hashable v) eqn:Hh.
    + rewrite (api_item_new d v st Hid Hh Hm).
      destruct (api_normalize (JDict d) (List.length (emitted st)))
        as [r|e] eqn:Hn; cbn [fst snd]; [|discriminate].
      intros _ Hin.
      assert (Hm2 : Py.mem v (seen_ids st2) = true)
        by (apply Hin; cbn [yielded seen_ids]; now apply mem_snoc).
      rewrite (api_item_seen d v st2 Hid Hm2).
      pose proof (api_normalize_author _ _ _ Hn) as Ha.
      now destruct (author_unique_id_of (JDict d)).
    + intros Hok. now apply api_item_unhashable with (st := st) in Hid.
Qed.

Lemma api_items_again items :
  forall st st2,
    snd (for_each api_item items st) = Ok tt ->
    seen_within (seen_ids (fst (for_each api_item items st))) (seen_ids st2) ->
    for_each api_item items st2 = (st2, Ok tt).
Proof.
  induction items as [|item items IH]; intros st st2; cbn [for_each];
    [reflexivity|].
  unfold bind at 1 2.
  destruct (api_item item st) as [st1 [[]|e]] eqn:E1; cbn [fst snd];
    [|discriminate].
  intros Hok Hin.
  assert (H1 : api_item item st2 = (st2, Ok tt)).
  { apply (api_item_again item st st2); rewrite E1; [reflexivity|].
    cbn [fst]. eapply seen_within_trans; [|exact Hin].
    eapply advance_seen_within. apply (advances_api_items items st1). }
  unfold bind. rewrite H1. now apply (IH st1 st2).
Qed.

Lemma api_response_again response_data st st2 :
  snd (api_response response_data st) = Ok tt ->
  seen_within (seen_ids (fst (api_response response_data st)))
    (seen_ids st2) ->
  api_response response_data st2 = (st2, Ok tt).
Proof.
  unfold api_response, bind, lift.
  destruct (Py.contains response_data "itemList") as [[|]|e];
    try discriminate; [|reflexivity].
  destruct (Py.index response_data "itemList") as [item_list|e];
    [|discriminate].
  destruct (Py.truthy item_list); [|reflexivity].
  destruct (Py.len item_list); [|discriminate].
  destruct (Py.iter item_list) as [items|e]; [|discriminate].
  apply api_items_again.
Qed.

Lemma strategy2_again responses :
  forall st st2,
    snd (strategy2 responses st) = Ok tt ->
    seen_within (seen_ids (fst (strategy2 responses st))) (seen_ids st2) ->
    strategy2 responses st2 = (st2, Ok tt).
Proof.
  unfold strategy2.
  induction responses as [|response_data responses IH]; intros st st2;
    cbn [for_each]; [reflexivity|].
  unfold bind at 1 2.
  destruct (api_response response_data st) as [st1 [[]|e]] eqn:E1;
    cbn [fst snd]; [|discriminate].
  intros Hok Hin.
  assert (H1 : api_response response_data st2 = (st2, Ok tt)).
  { apply (api_response_again response_data st st2); rewrite E1;
      [reflexivity|].
    cbn [fst]. eapply seen_within_trans; [|exact Hin].
    eapply advance_seen_within. apply (advances_strategy2 responses st1). }
  unfold bind. rewrite H1. now apply (IH st1 st2).
Qed.

(** X9 (responses seen twice).  Once a list of responses has been
    processed without an exception, processing it again yields nothing
    and changes nothing; so a list of responses that comes twice gives
    the stream it gives when it comes once. *)
Theorem repeated_responses responses st :
  snd (strategy2 responses st) = Ok tt ->
  strategy2 responses (fst (strategy2 responses st))
  = (fst (strategy2 responses st), Ok tt) /\
  strategy2 (responses ++ responses) st = strategy2 responses st.
Proof.
  intros Hok.
  assert (Hagain : strategy2 responses (fst (strategy2 responses st))
                   = (fst (strategy2 responses st), Ok tt))
    by (apply (strategy2_again responses st); [assumption|];
        apply seen_within_refl).
  split; [assumption|].
  unfold strategy2 in *.
  assert (Happ : forall xs ys st0,
             snd (for_each api_response xs st0) = Ok tt ->
             for_each api_response (xs ++ ys) st0
             = for_each api_response ys
                 (fst (for_each api_response xs st0))).
  { induction xs as [|x xs IHx]; intros ys st0; cbn [for_each app];
      [reflexivity|].
    unfold bind.
    destruct (api_response x st0) as [st1 [[]|e]]; cbn [fst snd];
      [apply IHx | discriminate]. }
  rewrite (Happ responses responses st Hok), Hagain.
  destruct (for_each api_response responses st) as [st' r].
  cbn [fst snd] in *. now subst.
Qed.

(** *** The embedded item list *)

Lemma index_get o k v default : Py.index o k = Ok v -> Py.get o k default = Ok v.
Proof.
  unfold Py.index, Py.get. destruct o as [| | | | |d]; try discriminate.
  now destruct (Py.lookup k d).
Qed.

(** X10 (where the embedded items are looked for).  The item list of a
    document is the list under
    [__DEFAULT_SCOPE__], [webapp.user-detail], [userInfo], [user],
    [awemeList] when that one is there and not empty; when it is empty,
    or when there is no [userInfo], it is what is under [itemInfo],
    [itemStruct], and the empty list when [itemInfo] is missing too.  A
    dictionary without [__DEFAULT_SCOPE__] gives the empty list, not an
    error; a document that is not a dictionary raises
    [AttributeError]. *)
Theorem embedded_list_paths universal_data :
  (forall aweme_list,
     path universal_data
       ["__DEFAULT_SCOPE__"; "webapp.user-detail"; "userInfo"; "user";
        "awemeList"] = Ok aweme_list ->
     Py.truthy aweme_list = true ->
     aweme_list_from_html universal_data = Ok aweme_list) /\
  (forall aweme_list item_struct,
     path universal_data
       ["__DEFAULT_SCOPE__"; "webapp.user-detail"; "userInfo"; "user";
        "awemeList"] = Ok aweme_list ->
     Py.truthy aweme_list = false ->
     path universal_data
       ["__DEFAULT_SCOPE__"; "webapp.user-detail"; "itemInfo";
        "itemStruct"] = Ok item_struct ->
     aweme_list_from_html universal_data = Ok item_struct) /\
  (forall scope,
     path universal_data ["__DEFAULT_SCOPE__"; "webapp.user-detail"]
     = Ok (JDict scope) ->
     Py.lookup "userInfo" scope = None ->
     aweme_list_from_html universal_data
     = match Py.lookup "itemInfo" scope with
       | Some item_info => Py.get item_info "itemStruct" (JList [])
       | None => Ok (JList [])
       end) /\
  (forall d,
     universal_data = JDict d ->
     Py.lookup "__DEFAULT_SCOPE__" d = None ->
     aweme_list_from_html universal_data = Ok (JList [])) /\
  (Py.is_dict universal_data = false ->
   aweme_list_from_html universal_data = Raise AttributeError).
Proof.
  split; [|split; [|split; [|split]]].
  - intros aweme_list Hp Ht. cbn [path] in Hp. unfold Res.bind in Hp.
    unfold aweme_list_from_html, Res.bind.
    destruct (Py.index universal_data "__DEFAULT_SCOPE__") as [o1|] eqn:E1;
      [|discriminate].
    destruct (Py.index o1 "webapp.user-detail") as [o2|] eqn:E2;
      [|discriminate].
    destruct (Py.index o2 "userInfo") as [o3|] eqn:E3; [|discriminate].
    destruct (Py.index o3 "user") as [o4|] eqn:E4; [|discriminate].
    destruct (Py.index o4 "awemeList") as [o5|] eqn:E5; [|discriminate].
    injection Hp as ->.
    rewrite (index_get _ _ _ _ E1), (index_get _ _ _ _ E2),
      (index_get _ _ _ _ E3), (index_get _ _ _ _ E4),
      (index_get _ _ _ _ E5), Ht.
    reflexivity.
  - intros aweme_list item_struct Hp Ht Hq.
    cbn [path] in Hp, Hq. unfold Res.bind in Hp, Hq.
    unfold aweme_list_from_html, Res.bind.
    destruct (Py.index universal_data "__DEFAULT_SCOPE__") as [o1|] eqn:E1;
      [|discriminate].
    destruct (Py.index o1 "webapp.user-detail") as [o2|] eqn:E2;
      [|discriminate].
    destruct (Py.index o2 "userInfo") as [o3|] eqn:E3; [|discriminate].
    destruct (Py.index o3 "user") as [o4|] eqn:E4; [|discriminate].
    destruct (Py.index o4 "awemeList") as [o5|] eqn:E5; [|discriminate].
    destruct (Py.index o2 "itemInfo") as [o6|] eqn:E6; [|discriminate].
    destruct (Py.index o6 "itemStruct") as [o7|] eqn:E7; [|discriminate].
    injection Hp as ->. injection Hq as ->.
    rewrite (index_get _ _ _ _ E1), (index_get _ _ _ _ E2),
      (index_get _ _ _ _ E3), (index_get _ _ _ _ E4),
      (index_get _ _ _ _ E5), Ht.
    cbn [negb].
    now rewrite (index_get _ _ _ _ E6), (index_get _ _ _ _ E7).
  - intros scope Hp Hu. cbn [path] in Hp. unfold Res.bind in Hp.
    unfold aweme_list_from_html, Res.bind.
    destruct (Py.index universal_data "__DEFAULT_SCOPE__") as [o1|] eqn:E1;
      [|discriminate].
    destruct (Py.index o1 "webapp.user-detail") as [o2|] eqn:E2;
      [|discriminate].
    injection Hp as ->.
    rewrite (index_get _ _ _ _ E1), (index_get _ _ _ _ E2).
    cbn [Py.get]. rewrite Hu. cbn [Py.lookup Py.truthy negb].
    now destruct (Py.lookup "itemInfo" scope).
  - intros d -> Hd. unfold aweme_list_from_html, Res.bind.
    cbn [Py.get]. rewrite Hd. reflexivity.
  - intros Hd. unfold aweme_list_from_html, Res.bind.
    now destruct universal_data.
Qed.

(** *** Fields that are missing *)

(** X11 (defaults of a record).  In the record of a dictionary, of
    either source, a missing ['desc'] gives ['No description']; a
    missing dictionary of counts (['stats'] in a response,
    ['statistics'] in the embedded document) gives ['N/A'] for the
    likes, the comments and the shares; a ['createTime'] that is
    missing or [None] gives no creation date, and [pd.to_datetime] is
    what gives the date of any other ['createTime']. *)
Theorem record_defaults d n r :
  (api_normalize (JDict d) n = Ok r ->
   (Py.lookup "desc" d = None -> Description r = JStr "No description") /\
   (Py.lookup "stats" d = None ->
    Likes r = JStr "N/A" /\ Comments r = JStr "N/A"
    /\ Shares r = JStr "N/A") /\
   (Py.lookup "createTime" d = None \/ Py.lookup "createTime" d = Some JNull ->
    creation_date r = None) /\
   (forall create_time,
      Py.lookup "createTime" d = Some create_time ->
      Py.is_none create_time = false ->
      exists t, to_datetime create_time = Ok t /\ creation_date r = Some t)) /\
  (html_normalize (JDict d) n = Ok r ->
   (Py.lookup "desc" d = None -> Description r = JStr "No description") /\
   (Py.lookup "statistics" d = None ->
    Likes r = JStr "N/A" /\ Comments r = JStr "N/A"
    /\ Shares r = JStr "N/A") /\
   (Py.lookup "createTime" d = None \/ Py.lookup "createTime" d = Some JNull ->
    creation_date r = None) /\
   (forall create_time,
      Py.lookup "createTime" d = Some create_time ->
      Py.is_none create_time = false ->
      exists t, to_datetime create_time = Ok t /\ creation_date r = Some t)).
Proof.
  split; intros E;
    unfold api_normalize, html_normalize, api_record, html_record in E;
    cbn [Py.get] in E; (split; [|split; [|split]]).
  - intros Hd. rewrite Hd in E. unfold Res.bind in E.
    repeat match type of E with
           | match ?x with _ => _ end = _ => destruct x; try discriminate
           end.
    now injection E as <-.
  - intros Hd. rewrite Hd in E. unfold Res.bind in E. cbn [Py.get Py.lookup] in E.
    repeat match type of E with
           | match ?x with _ => _ end = _ => destruct x; try discriminate
           end.
    now injection E as <-.
  - intros Hd. unfold Res.bind in E.
    destruct Hd as [Hd|Hd]; rewrite Hd in E; cbn [Py.is_none] in E;
      repeat match type of E with
             | match ?x with _ => _ end = _ => destruct x; try discriminate
             end;
      now injection E as <-.
  - intros create_time Hd Hn. rewrite Hd in E. unfold Res.bind in E.
    rewrite Hn in E.
    destruct (to_datetime create_time) as [t|e] eqn:Ht.
    + exists t. split; [reflexivity|].
      repeat match type of E with
             | match ?x with _ => _ end = _ => destruct x; try discriminate
             end;
      now injection E as <-.
    + repeat match type of E with
             | match ?x with _ => _ end = _ => destruct x; try discriminate
             end.
  - intros Hd. rewrite Hd in E. unfold Res.bind in E.
    repeat match type of E with
           | match ?x with _ => _ end = _ => destruct x; try discriminate
           end.
    now injection E as <-.
  - intros Hd. rewrite Hd in E. unfold Res.bind in E. cbn [Py.get Py.lookup] in E.
    repeat match type of E with
           | match ?x with _ => _ end = _ => destruct x; try discriminate
           end.
    now injection E as <-.
  - intros Hd. unfold Res.bind in E.
    destruct Hd as [Hd|Hd]; rewrite Hd in E; cbn [Py.is_none] in E;
      repeat match type of E with
             | match ?x with _ => _ end = _ => destruct x; try discriminate
             end;
      now injection E as <-.
  - intros create_time Hd Hn. rewrite Hd in E. unfold Res.bind in E.
    rewrite Hn in E.
    destruct (to_datetime create_time) as [t|e] eqn:Ht.
    + exists t. split; [reflexivity|].
      repeat match type of E with
             | match ?x with _ => _ end = _ => destruct x; try discriminate
             end;
      now injection E as <-.
    + repeat match type of E with
             | match ?x with _ => _ end = _ => destruct x; try discriminate
             end.
Qed.

(** *** The link of a record *)

Lemma normalize_permalink tagged n r :
  normalize_from tagged n = Ok r ->
  exists a,
    author_unique_id_of (snd tagged) = Ok a /\
    video_url r
    = if Py.truthy a && negb (Py.eqb (ID r) (JStr "N/A"))
      then Link a (ID r) else NoLink.
Proof.
  destruct tagged as [[|] item]; unfold normalize_from; cbn [fst snd];
    intros E;
    unfold html_normalize, api_normalize, html_record, api_record,
      author_unique_id_of, Res.bind in *;
    repeat match type of E with
           | match ?x with _ => _ end = _ =>
               let Hx := fresh "Hx" in
               destruct x eqn:Hx; try discriminate
           end;
    injection E as <-; cbn [ID video_url]; eauto.
Qed.

(** X12 (links).  Every record of the stream of a run is the record of
    an item of the sources, and its link is made of the
    [author.uniqueId] of that item and of its own [ID] when that
    handle is truthy and the [ID] is not ['N/A']; otherwise the link
    is ['N/A'].  So a record whose [ID] is ['N/A'] has no link, and no
    record links to a handle its own item does not have. *)
Theorem stream_links url storage_state_path headless_debug env r :
  In r (stream url storage_state_path headless_debug env) ->
  exists tagged n a,
    In tagged (processing_order env) /\
    normalize_from tagged n = Ok r /\
    author_unique_id_of (snd tagged) = Ok a /\
    video_url r
    = (if Py.truthy a && negb (Py.eqb (ID r) (JStr "N/A"))
       then Link a (ID r) else NoLink).
Proof.
  intros Hr.
  destruct (run_advance url storage_state_path headless_debug env)
    as (records & <- & _ & D & _).
  destruct (drawn_In _ _ _ D r Hr) as (tagged & n & Hin & Hn).
  destruct (normalize_permalink _ _ _ Hn) as (a & Ha & Hurl).
  exists tagged, n, a. now repeat split.
Qed.

(** *** The route handler *)

(** X13 (interception).  Called for one request after the other, the
    handler lets every request go on, once, matching or not; and the
    intercepted list grows, in the order of the calls, by the bodies of the
    requests whose URL contains [api/post/item_list/], that got a
    response and whose body is JSON: a request without response, or
    with a body that does not parse, adds nothing and removes
    nothing. *)
Theorem route_all_accumulates rs st :
  accumulated (route_all rs st) = accumulated st ++ flat_map captured rs /\
  continued (route_all rs st) = continued st ++ map request_url rs.
Proof.
  unfold route_all. revert st.
  induction rs as [|r rs IH]; intros st; cbn [fold_left flat_map map].
  - now rewrite !app_nil_r.
  - destruct (IH (handle_route r st)) as [Ha Hc]. rewrite Ha, Hc.
    unfold handle_route, captured.
    destruct (Py.is_substring "api/post/item_list/" (request_url r));
      [destruct (response r) as [[json_data|e]|]|];
      cbn [accumulated continued app]; rewrite <- ?app_assoc; split;
      reflexivity.
Qed.

(** ** Properties of the calls that fail *)

Lemma bind_ext {A B} (m : gen A) (k k' : A -> gen B) st :
  (forall a st', k a st' = k' a st') -> bind m k st = bind m k' st.
Proof. intros Hk. unfold bind. destruct (m st) as [st' [a|e]]; auto. Qed.

Lemma try_except_ext h (m m' : gen unit) st :
  m st = m' st -> try_except h m st = try_except h m' st.
Proof. intros Hm. unfold try_except. now rewrite Hm. Qed.

Ltac calls_return :=
  repeat match goal with
         | |- context [call_outcome ?a None] =>
             change (call_outcome a None) with (call a)
         end.

Lemma scroll_loop_no_faults env remaining :
  forall previous_height scroll_count st,
    scroll_loop_with no_faults env remaining previous_height scroll_count st
    = scroll_loop env remaining previous_height scroll_count st.
Proof.
  induction remaining as [|remaining IH];
    intros previous_height scroll_count st; cbn [scroll_loop_with scroll_loop];
    [reflexivity|].
  cbn [height_outcome scroll_to_outcome pause_outcome no_faults].
  calls_return. apply bind_ext. intros _ st1.
  destruct (_ =? _); [reflexivity|].
  apply bind_ext. intros _ st2. apply bind_ext. intros _ st3. apply IH.
Qed.

(** With no fault the general function is
    [scrape_tiktok_profile]. *)
Lemma scrape_no_faults url storage_state_path headless_debug env st :
  scrape_tiktok_profile_with no_faults url storage_state_path headless_debug
    env st
  = scrape_tiktok_profile url storage_state_path headless_debug env st.
Proof.
  unfold scrape_tiktok_profile_with, scrape_tiktok_profile, refresh_with,
    refresh, scroll.
  cbn [launch_outcome new_context_outcome new_page_outcome route_outcome
       settle_outcome content_outcome click_outcome settle_again_outcome
       storage_state_outcome close_outcome no_faults].
  calls_return.
  do 4 (apply bind_ext; intros _ ?).
  unfold bind at 1. unfold bind at 7.
  rewrite try_except_ext with
    (m' := bind (call_outcome (Goto url navigation_timeout) (goto_outcome env))
             (fun _ =>
              bind (call (WaitForTimeout 5000))
                (fun _ =>
                 bind (call Content)
                   (fun _ =>
                    bind (strategy1 (page_content env))
                      (fun _ =>
                       bind
                         (try_except RefreshButton
                            (bind
                               (call_outcome (WaitForSelector 3000)
                                  (selector_outcome env))
                               (fun _ =>
                                bind (call Click)
                                  (fun _ =>
                                   bind
                                     (call_outcome (WaitForLoadState 60000)
                                        (load_state_outcome env))
                                     (fun _ => call (WaitForTimeout 5000))))))
                         (fun _ =>
                          bind (scroll_loop env max_scrolls (-1) 0)
                            (fun _ =>
                             strategy2 (intercepted_api_responses env))))))));
    [reflexivity|].
  do 5 (apply bind_ext; intros _ ?).
  unfold bind. rewrite scroll_loop_no_faults. reflexivity.
Qed.

Lemma bind_call_returns {B} a (k : unit -> gen B) st :
  bind (call_outcome a None) k st = k tt (fst (call a st)).
Proof. reflexivity. Qed.

Lemma bind_call_raises {B} a e (k : unit -> gen B) st :
  bind (call_outcome a (Some e)) k st = (fst (call a st), Raise e).
Proof. reflexivity. Qed.

Lemma page_calls_ret {A} (a : A) : page_calls_only (ret a).
Proof. intros st. exists []. now rewrite app_nil_r. Qed.

Lemma page_calls_call a o :
  on_page a = true -> page_calls_only (call_outcome a o).
Proof. intros Ha st. exists [a]. cbn. now rewrite Ha. Qed.

Lemma page_calls_same {A} (m : gen A) : same_actions m -> page_calls_only m.
Proof. intros Hm st. exists []. now rewrite app_nil_r, Hm. Qed.

Lemma page_calls_bind {A B} (m : gen A) (k : A -> gen B) :
  page_calls_only m -> (forall a, page_calls_only (k a)) ->
  page_calls_only (bind m k).
Proof.
  intros Hm Hk st. unfold bind. destruct (Hm st) as (l1 & E1 & P1).
  destruct (m st) as [st1 [a|e]]; cbn [fst snd] in *.
  - destruct (Hk a st1) as (l2 & E2 & P2). exists (l1 ++ l2).
    rewrite E2, E1, app_assoc, forallb_app, P1, P2. now split.
  - now exists l1.
Qed.

Lemma page_calls_try_except h m :
  page_calls_only m -> page_calls_only (try_except h m).
Proof.
  intros Hm st. unfold try_except. destruct (Hm st) as (l & E & P).
  destruct (m st) as [st1 [[]|e]]; cbn [fst actions] in *; now exists l.
Qed.

Lemma page_calls_refresh f env : page_calls_only (refresh_with f env).
Proof.
  unfold refresh_with. apply page_calls_try_except.
  repeat (apply page_calls_bind; [|intros _]);
    now apply page_calls_call.
Qed.

Lemma page_calls_scroll_loop f env remaining :
  forall previous_height scroll_count,
    page_calls_only
      (scroll_loop_with f env remaining previous_height scroll_count).
Proof.
  induction remaining as [|remaining IH];
    intros previous_height scroll_count; cbn [scroll_loop_with].
  - apply page_calls_ret.
  - apply page_calls_bind; [now apply page_calls_call|intros _].
    destruct (_ =? _); [apply page_calls_ret|].
    repeat (apply page_calls_bind; [now apply page_calls_call|intros _]).
    apply IH.
Qed.

(** What the [try] of line 77 leaves: the navigation, then calls on
    the page only; and it returns. *)
Lemma navigation_calls f url env st :
  exists middle,
    actions
      (fst (try_except Navigation
              (bind (call_outcome (Goto url navigation_timeout)
                       (goto_outcome env))
                 (fun _ =>
                  bind (call_outcome (WaitForTimeout 5000) (settle_outcome f))
                    (fun _ =>
                     bind (call_outcome Content (content_outcome f))
                       (fun _ =>
                        bind (strategy1 (page_content env))
                          (fun _ =>
                           bind (refresh_with f env)
                             (fun _ =>
                              bind (scroll_loop_with f env max_scrolls (-1) 0)
                                (fun _ =>
                                 strategy2
                                   (intercepted_api_responses env)))))))) st))
    = actions st ++ Goto url navigation_timeout :: middle /\
    forallb on_page middle = true.
Proof.
  match goal with
  | |- context [bind (call_outcome (Goto _ _) _) ?k] => set (rest := k)
  end.
  assert (Hrest : page_calls_only (rest tt)).
  { subst rest. cbv beta.
    apply page_calls_bind; [now apply page_calls_call|intros _].
    apply page_calls_bind; [now apply page_calls_call|intros _].
    apply page_calls_bind;
      [apply page_calls_same, same_actions_strategy1|intros _].
    apply page_calls_bind; [apply page_calls_refresh|intros _].
    apply page_calls_bind; [apply page_calls_scroll_loop|intros _].
    apply page_calls_same, same_actions_strategy2. }
  unfold try_except, bind.
  destruct (goto_outcome env) as [e|]; cbn [call_outcome call fst snd].
  - exists []. cbn [fst actions]. now split.
  - destruct (Hrest (fst (call (Goto url navigation_timeout) st)))
      as (middle & E & P).
    exists middle. cbn [call fst actions] in E.
    destruct (rest tt _) as [st1 [[]|e]]; cbn [fst actions] in *;
      rewrite E, <- app_assoc; now split.
Qed.

Lemma bind_try_except {B} h m (k : unit -> gen B) st :
  bind (try_except h m) k st = k tt (fst (try_except h m st)).
Proof.
  unfold bind. pose proof (try_except_returns h m st) as R.
  destruct (try_except h m st) as [st' r]. cbn [fst snd] in *.
  now subst r.
Qed.

(** What a run leaves and how it ends, by the calls outside the
    [try]. *)
Lemma scrape_with_cases f url storage_state_path headless_debug env :
  let out :=
    scrape_tiktok_profile_with f url storage_state_path headless_debug env
      initial in
  match setup_outcome f with
  | Some e =>
      snd out = Raise e /\
      emitted (fst out) = [] /\
      caught (fst out) = [] /\
      exists rest,
        [Launch headless_debug;
         NewContext (if path_given storage_state_path && path_exists env
                     then storage_state_path else None);
         NewPage; Route]
        = actions (fst out) ++ rest
  | None =>
      snd out
      = match teardown_outcome f storage_state_path with
        | Some e => Raise e
        | None => Ok tt
        end /\
      exists middle,
        actions (fst out)
        = opening url storage_state_path headless_debug env
          ++ middle ++ closing_with f storage_state_path /\
        forallb on_page middle = true
  end.
Proof.
  cbv zeta. unfold scrape_tiktok_profile_with, setup_outcome.
  destruct (launch_outcome f) as [e|];
    [rewrite bind_call_raises; cbn; repeat split; eauto|].
  rewrite bind_call_returns.
  destruct (new_context_outcome f) as [e|];
    [rewrite bind_call_raises; cbn; repeat split; eauto|].
  rewrite bind_call_returns.
  destruct (new_page_outcome f) as [e|];
    [rewrite bind_call_raises; cbn; repeat split; eauto|].
  rewrite bind_call_returns.
  destruct (route_outcome f) as [e|];
    [rewrite bind_call_raises; cbn; repeat split; eauto|].
  rewrite bind_call_returns.
  cbn [call fst initial actions seen_ids emitted caught app].
  rewrite bind_try_except.
  match goal with
  | |- context [try_except Navigation ?m ?s] =>
      destruct (navigation_calls f url env s) as (middle & E & P);
      set (st1 := fst (try_except Navigation m s)) in *
  end.
  clearbody st1. cbn [actions] in E.
  unfold teardown_outcome, closing_with, opening.
  destruct storage_state_path as [p|];
    [destruct (path_given (Some p)) eqn:Hp|].
  - destruct (storage_state_outcome f) as [e|].
    + rewrite bind_call_raises. cbn [fst snd call actions].
      split; [reflexivity|]. exists middle. rewrite E.
      split; [|assumption]. cbn [app]. rewrite <- ?app_assoc; reflexivity.
    + rewrite bind_call_returns.
      split; [now destruct (close_outcome f)|].
      exists middle. split; [|assumption].
      destruct (close_outcome f); cbn [call_outcome call fst actions];
        rewrite E; cbn [app]; rewrite <- ?app_assoc; reflexivity.
  - split; [now destruct (close_outcome f)|].
    exists middle. split; [|assumption].
    unfold bind, ret.
    destruct (close_outcome f); cbn [call_outcome call fst actions];
      rewrite E; cbn [app]; rewrite <- ?app_assoc; reflexivity.
  - split; [now destruct (close_outcome f)|].
    exists middle. split; [|assumption].
    unfold bind, ret.
    destruct (close_outcome f); cbn [call_outcome call fst actions];
      rewrite E; cbn [app]; rewrite <- ?app_assoc; reflexivity.
Qed.

Lemma on_page_not_close calls :
  forallb on_page calls = true -> ~ In Close calls.
Proof.
  intros P Hin. rewrite forallb_forall in P. specialize (P _ Hin).
  discriminate.
Qed.

(** X1 (order of the calls).  When launch, new context, new page and
    route return, a run makes its calls in this order: those four,
    the new context being given the stored state exactly when a
    non-empty path was passed and a file is there; the navigation;
    then only calls that read the page or act on it, whatever they
    answer; then the saving of the storage state, made exactly when a
    non-empty path was passed; and the closing of the browser, made
    when that saving returned or was not made.  When one of the four
    raises, the run goes no further than that call and yields nothing.
    So the browser is closed at most once, by the last call of the
    run, and it is closed exactly when the four calls and the saving
    of the state have returned: the calls of lines 47-74 and 224-229
    are outside every [try], and no [finally] closes the browser. *)
Theorem session_calls f url storage_state_path headless_debug env :
  let st :=
    fst (scrape_tiktok_profile_with f url storage_state_path headless_debug
           env initial) in
  (setup_outcome f = None ->
   exists middle,
     actions st
     = opening url storage_state_path headless_debug env
       ++ middle ++ closing_with f storage_state_path /\
     forallb on_page middle = true) /\
  (setup_outcome f <> None ->
   emitted st = [] /\
   exists rest,
     [Launch headless_debug;
      NewContext (if path_given storage_state_path && path_exists env
                  then storage_state_path else None);
      NewPage; Route]
     = actions st ++ rest) /\
  (In Close (actions st) <->
   setup_outcome f = None /\
   (path_given storage_state_path = true ->
    storage_state_outcome f = None)) /\
  (In Close (actions st) ->
   exists calls, actions st = calls ++ [Close] /\ ~ In Close calls).
Proof.
  cbv zeta.
  pose proof (scrape_with_cases f url storage_state_path headless_debug env)
    as C. cbv zeta in C.
  destruct (setup_outcome f) as [e|].
  - destruct C as (_ & Hemitted & _ & rest & Hcalls).
    assert (Hno : ~ In Close
                      (actions
                         (fst (scrape_tiktok_profile_with f url
                                 storage_state_path headless_debug env
                                 initial)))).
    { intros Hin.
      assert (Hin' : In Close
                       [Launch headless_debug;
                        NewContext
                          (if path_given storage_state_path
                              && path_exists env
                           then storage_state_path else None);
                        NewPage; Route])
        by (rewrite Hcalls; apply in_or_app; now left).
      cbn in Hin'. repeat destruct Hin' as [Hin'|Hin']; try discriminate.
      destruct Hin'. }
    split; [discriminate|]. split; [intros _; split; eauto|].
    split; [split; [contradiction | intros [? _]; discriminate]|].
    contradiction.
  - destruct C as (_ & middle & Hcalls & P).
    pose proof (on_page_not_close _ P) as Hmiddle.
    assert (Hopening : ~ In Close
                         (opening url storage_state_path headless_debug env
                          ++ middle)).
    { intros Hin. apply in_app_or in Hin. destruct Hin as [Hin|Hin];
        [|contradiction].
      cbn in Hin. repeat destruct Hin as [Hin|Hin]; try discriminate.
      destruct Hin. }
    split; [intros _; eauto|]. split; [congruence|].
    rewrite Hcalls, app_assoc. unfold closing_with.
    destruct storage_state_path as [p|];
      [destruct (path_given (Some p));
       [destruct (storage_state_outcome f) as [e|]|]|].
    + assert (Hno : ~ In Close
                        ((opening url (Some p) headless_debug env ++ middle)
                         ++ [StorageState p])).
      { intros Hin. apply in_app_or in Hin.
        destruct Hin as [Hin|[Hin|[]]]; [contradiction | discriminate]. }
      split; [|contradiction].
      split; [contradiction|]. intros [_ Hs]. now specialize (Hs eq_refl).
    + split.
      * split; [intros _; now split|].
        intros _. apply in_or_app. right. right. now left.
      * intros _.
        exists ((opening url (Some p) headless_debug env ++ middle)
                ++ [StorageState p]).
        split; [now rewrite <- !app_assoc|].
        intros Hin. apply in_app_or in Hin.
        destruct Hin as [Hin|[Hin|[]]]; [contradiction | discriminate].
    + split.
      * split; [intros _; split; [reflexivity | discriminate]|].
        intros _. apply in_or_app. right. now left.
      * intros _. eauto.
    + split.
      * split; [intros _; split; [reflexivity | discriminate]|].
        intros _. apply in_or_app. right. now left.
      * intros _. eauto.
Qed.

(** *** The exceptions a run catches *)

Lemma fits_nil hs : fits hs [].
Proof. induction hs as [|h hs IH]; cbn; [reflexivity | now left]. Qed.

Lemma fits_app hs1 hs2 c1 c2 :
  fits hs1 c1 -> fits hs2 c2 -> fits (hs1 ++ hs2) (c1 ++ c2).
Proof.
  revert c1. induction hs1 as [|h hs1 IH]; cbn; intros c1 F1 F2.
  - now subst c1.
  - destruct F1 as [F1|(e & c & -> & F1)]; [left; auto|].
    right. exists e, (c ++ c2). split; [reflexivity | auto].
Qed.

Lemma catches_same {A} hs (m : gen A) : same_caught m -> catches hs m.
Proof.
  intros Hm st. exists []. rewrite app_nil_r, Hm.
  split; [reflexivity | apply fits_nil].
Qed.

Lemma catches_bind {A B} hs1 hs2 (m : gen A) (k : A -> gen B) :
  catches hs1 m -> (forall a, catches hs2 (k a)) ->
  catches (hs1 ++ hs2) (bind m k).
Proof.
  intros Hm Hk st. unfold bind. destruct (Hm st) as (c1 & E1 & F1).
  destruct (m st) as [st1 [a|e]]; cbn [fst] in *.
  - destruct (Hk a st1) as (c2 & E2 & F2). exists (c1 ++ c2).
    rewrite E2, E1, app_assoc. split; [reflexivity | now apply fits_app].
  - exists c1. split; [assumption|].
    rewrite <- (app_nil_r c1). apply fits_app; [assumption | apply fits_nil].
Qed.

Lemma catches_try_except hs h m :
  catches hs m -> catches (hs ++ [h]) (try_except h m).
Proof.
  intros Hm st. unfold try_except. destruct (Hm st) as (c & E & F).
  destruct (m st) as [st1 [[]|e]]; cbn [fst caught] in *.
  - exists c. split; [assumption|].
    rewrite <- (app_nil_r c). apply fits_app; [assumption | apply fits_nil].
  - exists (c ++ [(h, e)]). rewrite E, app_assoc.
    split; [reflexivity|]. apply fits_app; [assumption|].
    cbn. right. eauto.
Qed.

Lemma same_caught_call a o : same_caught (call_outcome a o).
Proof. intros st. reflexivity. Qed.

Lemma same_caught_scroll_loop f env remaining :
  forall previous_height scroll_count,
    same_caught
      (scroll_loop_with f env remaining previous_height scroll_count).
Proof.
  induction remaining as [|remaining IH];
    intros previous_height scroll_count; cbn [scroll_loop_with].
  - apply same_caught_ret.
  - apply same_caught_bind; [apply same_caught_call|intros _].
    destruct (_ =? _); [apply same_caught_ret|].
    repeat (apply same_caught_bind; [apply same_caught_call|intros _]).
    apply IH.
Qed.

Lemma catches_strategy1 page : catches [EmbeddedData] (strategy1 page).
Proof.
  destruct page as [|loaded_]; cbn [strategy1].
  - apply catches_same, same_caught_ret.
  - apply (catches_try_except [] EmbeddedData).
    apply catches_same, same_caught_strategy1_body.
Qed.

Lemma catches_refresh f env : catches [RefreshButton] (refresh_with f env).
Proof.
  unfold refresh_with. apply (catches_try_except [] RefreshButton).
  apply catches_same.
  repeat (apply same_caught_bind; [apply same_caught_call|intros _]).
  apply same_caught_call.
Qed.

Lemma catches_scrape f url storage_state_path headless_debug env :
  catches [EmbeddedData; RefreshButton; Navigation]
    (scrape_tiktok_profile_with f url storage_state_path headless_debug env).
Proof.
  unfold scrape_tiktok_profile_with.
  do 4 (apply (catches_bind [] _);
        [apply catches_same, same_caught_call|intros _]).
  apply (catches_bind [EmbeddedData; RefreshButton; Navigation] []).
  - apply (catches_try_except [EmbeddedData; RefreshButton] Navigation).
    do 3 (apply (catches_bind [] _);
          [apply catches_same, same_caught_call|intros _]).
    apply (catches_bind [EmbeddedData] [RefreshButton]);
      [apply catches_strategy1|intros _].
    apply (catches_bind [RefreshButton] []);
      [apply catches_refresh|intros _].
    apply (catches_bind [] []);
      [apply catches_same, same_caught_scroll_loop|intros _].
    apply catches_same, same_caught_strategy2.
  - intros _. apply (catches_bind [] []).
    + apply catches_same.
      destruct storage_state_path as [p|];
        [destruct (path_given (Some p))|];
        first [apply same_caught_call | apply same_caught_ret].
    + intros _. apply catches_same, same_caught_call.
Qed.

(** X5 (what reaches the consumer).  How the generator ends depends on
    the calls outside the [try] only: it raises the exception of the
    first of launch, new context, new page and route that raises; when
    they return it raises the exception of the saving of the storage
    state or else of the closing of the browser, if one of them
    raises; else it returns.  No exception of the navigation, of the
    waits, of the reading of the page, of the click, of the scrolls or
    of the extraction reaches the consumer: they are caught by the
    three handlers, each of which catches at most once in a run, in
    the order embedded data, refresh button, run. *)
Theorem run_returns f url storage_state_path headless_debug env :
  let out :=
    scrape_tiktok_profile_with f url storage_state_path headless_debug env
      initial in
  snd out
  = match setup_outcome f with
    | Some e => Raise e
    | None =>
        match teardown_outcome f storage_state_path with
        | Some e => Raise e
        | None => Ok tt
        end
    end /\
  exists c1 c2 c3,
    caught (fst out) = c1 ++ c2 ++ c3 /\
    at_most_one EmbeddedData c1 /\
    at_most_one RefreshButton c2 /\
    at_most_one Navigation c3.
Proof.
  cbv zeta. split.
  - pose proof (scrape_with_cases f url storage_state_path headless_debug
                  env) as C. cbv zeta in C.
    destruct (setup_outcome f); now destruct C as [C _].
  - destruct (catches_scrape f url storage_state_path headless_debug env
                initial) as (c & -> & F).
    cbn [caught initial app]. cbn [fits] in F.
    assert (H1 : forall h, at_most_one h []) by (intros h; now left).
    assert (H2 : forall h e, at_most_one h [(h, e)])
      by (intros h e; right; eauto).
    destruct F as [[[->|(e3 & c' & -> & ->)]
                   |(e2 & c' & -> & [->|(e3 & c'' & -> & ->)])]
                  |(e1 & c' & ->
                    & [[->|(e3 & c'' & -> & ->)]
                      |(e2 & c'' & -> & [->|(e3 & c3 & -> & ->)])])].
    + exists [], [], []. auto.
    + exists [], [], [(Navigation, e3)]. auto.
    + exists [], [(RefreshButton, e2)], []. auto.
    + exists [], [(RefreshButton, e2)], [(Navigation, e3)]. auto.
    + exists [(EmbeddedData, e1)], [], []. auto.
    + exists [(EmbeddedData, e1)], [], [(Navigation, e3)]. auto.
    + exists [(EmbeddedData, e1)], [(RefreshButton, e2)], []. auto.
    + exists [(EmbeddedData, e1)], [(RefreshButton, e2)],
        [(Navigation, e3)]. auto.
Qed.

(** ** Properties of the scrape button *)

Section Button.

Context {builtins : Builtins}.

Lemma py_int_raises v e :
  py_int v = Raise e -> e = ValueError \/ e = TypeError.
Proof.
  destruct v as [|b|n|s0|l|d]; cbn; try discriminate;
    try (intros E; injection E as <-; auto).
  destruct (int_of_str s0); [discriminate|].
  intros E. injection E as <-. auto.
Qed.

Lemma account_spec video_item a :
  exists a',
    account video_item a = (a', None) /\
    current_scraped_items a' = current_scraped_items a /\
    status_message a' = status_message a /\
    scraped_video_df a' = scraped_video_df a /\
    likes_for_sparkline a' = likes_for_sparkline a ++ charted video_item /\
    total_likes a' = total_likes a + sum_likes (charted video_item) /\
    total_videos_count a' = total_videos_count a.
Proof.
  unfold account, charted.
  destruct (py_int (Likes video_item)) as [n|e] eqn:Hi.
  - destruct (creation_date video_item) as [t|];
      [destruct (is_datetime t)|];
      eexists; repeat split; cbn; rewrite ?app_nil_r;
      try reflexivity; lia.
  - destruct (py_int_raises _ _ Hi) as [-> | ->];
      eexists; repeat split; cbn; rewrite ?app_nil_r;
      try reflexivity; lia.
Qed.

Lemma on_item_spec video_item a shown :
  exists a' mids r,
    on_item video_item (a, shown) = (a', shown ++ mids, r) /\
    current_scraped_items a' = current_scraped_items a ++ [video_item] /\
    likes_for_sparkline a' = likes_for_sparkline a ++ charted video_item /\
    total_likes a' = total_likes a + sum_likes (charted video_item) /\
    total_videos_count a' = List.length (current_scraped_items a') /\
    Forall (fun v => 50 <= v <= 99) mids /\
    (r = None ->
     List.length mids = 1%nat /\
     status_message a'
     = SoFar (List.length (current_scraped_items a'))) /\
    (r <> None -> mids = []).
Proof.
  unfold on_item.
  match goal with
  | |- context [account video_item ?a1] =>
      destruct (account_spec video_item a1)
        as (a2 & -> & I2 & S2 & D2 & L2 & T2 & C2)
  end.
  cbn [current_scraped_items likes_for_sparkline total_likes] in *.
  destruct (data_frame _) as [df|e] eqn:Hdf.
  - eexists _, [_], None. split; [reflexivity|].
    cbn [current_scraped_items likes_for_sparkline total_likes
         total_videos_count status_message].
    split; [exact I2|]. split; [exact L2|]. split; [exact T2|].
    split; [reflexivity|]. split.
    { constructor; [|constructor].
      pose proof (Z.mod_pos_bound
                    (Z.of_nat (List.length (current_scraped_items a2)))
                    50 ltac:(lia)).
      lia. }
    split; [intros _; split; reflexivity | congruence].
  - eexists _, [], (Some e). rewrite app_nil_r. split; [reflexivity|].
    cbn [current_scraped_items likes_for_sparkline total_likes
         total_videos_count status_message].
    split; [exact I2|]. split; [exact L2|]. split; [exact T2|].
    split; [reflexivity|]. split; [constructor|].
    split; [discriminate | reflexivity].
Qed.

Lemma sum_likes_app p q : sum_likes (p ++ q) = sum_likes p + sum_likes q.
Proof.
  unfold sum_likes. induction p as [|x p IH]; cbn; [reflexivity|].
  cbn in IH. rewrite IH. lia.
Qed.

Lemma consume_spec items :
  forall a shown,
    exists a' mids r consumed rest,
      consume items (a, shown) = (a', shown ++ mids, r) /\
      items = consumed ++ rest /\
      (r = None -> rest = []) /\
      current_scraped_items a' = current_scraped_items a ++ consumed /\
      likes_for_sparkline a'
      = likes_for_sparkline a ++ flat_map charted consumed /\
      total_likes a'
      = total_likes a + sum_likes (flat_map charted consumed) /\
      (total_videos_count a = List.length (current_scraped_items a) ->
       total_videos_count a' = List.length (current_scraped_items a')) /\
      Forall (fun v => 50 <= v <= 99) mids /\
      (List.length mids <= List.length consumed)%nat /\
      (r = None -> consumed <> [] ->
       status_message a'
       = SoFar (List.length (current_scraped_items a'))) /\
      (consumed = [] -> a' = a).
Proof.
  induction items as [|video_item items IH]; intros a shown; cbn [consume].
  - exists a, [], None, [], []. rewrite !app_nil_r. cbn.
    repeat split; auto; try lia. now intros _ [].
  - destruct (on_item_spec video_item a shown)
      as (a1 & mids1 & r1 & -> & I1 & L1 & T1 & C1 & F1 & Hn1 & He1).
    destruct r1 as [e|].
    + exists a1, mids1, (Some e), [video_item], items.
      rewrite (He1 ltac:(discriminate)) in *. cbn [flat_map].
      rewrite !app_nil_r.
      repeat split; auto; try discriminate. cbn. lia.
    + destruct (IH a1 (shown ++ mids1))
        as (a2 & mids2 & r2 & consumed & rest & -> & -> & Hr & I2 & L2 & T2
            & C2 & F2 & Hl2 & Hs2 & Hsame).
      destruct (Hn1 eq_refl) as [Hlen1 Hst1].
      exists a2, (mids1 ++ mids2), r2, (video_item :: consumed), rest.
      rewrite app_assoc. split; [reflexivity|].
      split; [reflexivity|]. split; [assumption|].
      split; [rewrite I2, I1, <- app_assoc; reflexivity|].
      split; [rewrite L2, L1; cbn [flat_map]; now rewrite <- !app_assoc|].
      split; [rewrite T2, T1; cbn [flat_map]; rewrite sum_likes_app; lia|].
      split; [intros _; now apply C2|].
      split; [apply Forall_app; now split|].
      split; [rewrite length_app; cbn [List.length]; lia|].
      split.
      * intros Hr2 _. destruct consumed as [|c consumed].
        -- rewrite (Hsame eq_refl). exact Hst1.
        -- apply Hs2; [assumption | discriminate].
      * discriminate.
Qed.

Lemma serializable_items_fst items :
  forall out, serializable_items items = Ok out -> map fst out = items.
Proof.
  induction items as [|item items IH]; intros out; cbn [serializable_items].
  - intros E. now injection E as <-.
  - unfold Res.bind, serializable.
    destruct (creation_date item) as [t|];
      [destruct (is_datetime t); [destruct (strftime t); [|discriminate]|]|];
      (destruct (serializable_items items) as [xs|]; [|discriminate]);
      intros E; injection E as <-; cbn; now rewrite (IH xs eq_refl).
Qed.

Lemma on_scrape_spec tiktok_url headless_mode current_dir env a :
  tiktok_url <> "" ->
  let o := on_scrape_button tiktok_url headless_mode current_dir env a in
  let items :=
    stream tiktok_url (Some (storage_file_path current_dir)) headless_mode
      env in
  exists consumed rest mids,
    items = consumed ++ rest /\
    current_scraped_items (final o) = consumed /\
    likes_for_sparkline (final o) = flat_map charted consumed /\
    total_likes (final o) = sum_likes (flat_map charted consumed) /\
    total_videos_count (final o) = List.length consumed /\
    shown_progress o = 10 :: 30 :: mids ++ [100] /\
    Forall (fun v => 50 <= v <= 99) mids /\
    (List.length mids <= List.length consumed)%nat /\
    ((status_message (final o) = Succeeded (List.length items) /\
      rest = [] /\ consumed <> [] /\
      exists out, written o = Some out /\ map fst out = items) \/
     (status_message (final o) = NoData /\ items = [] /\ written o = None) \/
     (exists e, status_message (final o) = Failed e /\ written o = None)).
Proof.
  intros Hurl. cbv zeta. unfold on_scrape_button.
  destruct (String.eqb_spec tiktok_url ""); [contradiction|].
  match goal with
  | |- context [consume ?items (?a0, ?shown0)] =>
      destruct (consume_spec items a0 shown0)
        as (a1 & mids & r & consumed & rest & -> & Hitems & Hrest & I1 & L1
            & T1 & C1 & F1 & Hlen & _ & _)
  end.
  cbn [current_scraped_items likes_for_sparkline total_likes
       total_videos_count app] in I1, L1, T1, C1.
  specialize (C1 eq_refl).
  exists consumed, rest, mids.
  split; [exact Hitems|].
  destruct r as [e|].
  - cbn [final shown_progress written set_status current_scraped_items
         likes_for_sparkline total_likes total_videos_count status_message].
    rewrite C1, I1.
    repeat split; try assumption; try reflexivity.
    right. right. eauto.
  - rewrite (Hrest eq_refl), app_nil_r in Hitems.
    unfold after_loop. rewrite I1.
    destruct consumed as [|c consumed].
    + cbn [final shown_progress written set_status current_scraped_items
           likes_for_sparkline total_likes total_videos_count
           status_message].
      rewrite C1, I1.
      repeat split; try assumption; try reflexivity.
      right. left. now repeat split.
    + destruct (serializable_items (c :: consumed)) as [out|e] eqn:Hout;
        [destruct (json_dump out) as [e|] eqn:Hdump|];
        cbn [final shown_progress written set_status current_scraped_items
             likes_for_sparkline total_likes total_videos_count
             status_message];
        rewrite ?C1, ?I1;
        (repeat split; try assumption; try reflexivity).
      * right. right. eauto.
      * left. rewrite Hitems, (Hrest eq_refl).
        repeat split; try discriminate.
        exists out. split; [reflexivity|].
        now apply serializable_items_fst.
      * right. right. eauto.
Qed.










(** With no fault the press is the press of [on_scrape_button]. *)
Lemma press_no_faults tiktok_url headless_mode current_dir env a :
  on_scrape_button_with no_faults tiktok_url headless_mode current_dir env a
  = on_scrape_button tiktok_url headless_mode current_dir env a.
Proof.
  unfold on_scrape_button_with, on_scrape_button, stream, run.
  destruct (String.eqb tiktok_url ""); [reflexivity|]. cbv zeta.
  rewrite scrape_no_faults.
  destruct (consume _ _) as [[a1 shown] [e|]]; [reflexivity|].
  assert (R : snd (scrape_tiktok_profile tiktok_url
                     (Some (storage_file_path current_dir)) headless_mode
                     env initial) = Ok tt).
  { rewrite <- scrape_no_faults.
    pose proof (scrape_with_cases no_faults tiktok_url
                  (Some (storage_file_path current_dir)) headless_mode env)
      as C.
    cbv zeta in C. cbn [setup_outcome no_faults launch_outcome
                        new_context_outcome new_page_outcome route_outcome]
      in C.
    destruct C as [-> _]. unfold teardown_outcome.
    now destruct (path_given _). }
  now rewrite R.
Qed.


(** X18 (progress bar).  A press with a URL sets the progress bar to 10,
    then to 30, then, after each item that has been displayed, to a
    value from 50 to 99, and last, however it ends, to 100. *)
Theorem button_progress tiktok_url headless_mode current_dir env a :
  tiktok_url <> "" ->
  let o := on_scrape_button tiktok_url headless_mode current_dir env a in
  exists mids,
    shown_progress o = 10 :: 30 :: mids ++ [100] /\
    Forall (fun v => 50 <= v <= 99) mids /\
    (List.length mids <= List.length (current_scraped_items (final o)))%nat.
Proof.
  intros Hurl.
  destruct (on_scrape_spec tiktok_url headless_mode current_dir env a Hurl)
    as (consumed & rest & mids & _ & I & _ & _ & _ & P & F & Hlen & _).
  cbv zeta. exists mids. rewrite I. now repeat split.
Qed.

End Button.

End Properties.

(** ** Runs on the fixtures *)

#[local] Existing Instance fixture_libraries.

(** Video 2, complete in the embedded document and in a response, is
    yielded once, by strategy 1. *)
Lemma dedup_invariant_witness :
  no_extraction_error (run Fixture.url None true Fixture.both_sources) /\
  count_id (JStr "2")
    (map ID (stream Fixture.url None true Fixture.both_sources)) = 1%nat /\
  count_id (JStr "2")
    (map ID (embedded_stream Fixture.url None true Fixture.both_sources))
  = 1%nat.
Proof.
  assert (Herr : no_extraction_error
                   (run Fixture.url None true Fixture.both_sources)).
  { intros h e Hin. vm_compute in Hin.
    destruct Hin as [Heq|[]]. now injection Heq. }
  split; [exact Herr|].
  destruct (dedup_invariant Fixture.url None true Fixture.both_sources)
    as (_ & _ & _ & Hone).
  destruct (Hone Herr (Embedded, Fixture.html_item "2") (JStr "2"))
    as [H1 H2].
  - right. left. reflexivity.
  - reflexivity.
  - split; [exact H1 | exact (H2 eq_refl)].
Defined.

(** Video 2 is complete in both sources, but the embedded item before
    it has no cover: the embedded loop is left before it reaches
    video 2, which is then yielded from the response and not by the
    source processed first.  And video 7, complete in the second
    response of [Fixture.faulty_sources], comes after an item without
    cover and is not yielded at all. *)
Lemma dedup_counterexample :
  In (Fixture.html_item "2")
    (embedded_items (page_content Fixture.faulty_before_shared)) /\
  In (Fixture.api_item "2")
    (intercepted_items
       (intercepted_api_responses Fixture.faulty_before_shared)) /\
  count_id (JStr "2")
    (map ID
       (embedded_stream Fixture.url None true Fixture.faulty_before_shared))
  = 0%nat /\
  count_id (JStr "2")
    (map ID (stream Fixture.url None true Fixture.faulty_before_shared))
  = 1%nat /\
  In (Fixture.api_item "7")
    (intercepted_items (intercepted_api_responses Fixture.faulty_sources)) /\
  is_ok (api_normalize (Fixture.api_item "7") 0) = true /\
  count_id (JStr "7")
    (map ID (stream Fixture.url None true Fixture.faulty_sources))
  = 0%nat.
Proof.
  split; [right; left; reflexivity|].
  split; [left; reflexivity|].
  split; [vm_compute; reflexivity|].
  split; [vm_compute; reflexivity|].
  split; [do 3 right; left; reflexivity|].
  split; vm_compute; reflexivity.
Qed.

(** After the embedded item without cover nothing more is yielded from
    the embedded document. *)
Lemma fail_soft_by_source_witness :
  goto_outcome Fixture.faulty_embedded = None /\
  map ID (embedded_stream Fixture.url None true Fixture.faulty_embedded)
  = [JStr "1"].
Proof.
  split; [reflexivity|].
  destruct (fail_soft_by_source Fixture.url None true Fixture.faulty_embedded
              eq_refl) as (Hembedded & _).
  rewrite (proj1 (Hembedded [Fixture.html_item "1"]
                    (Fixture.html_no_cover_fields "2") (JStr "2")
                    [Fixture.html_item "3"] KeyError
                    eq_refl eq_refl eq_refl eq_refl eq_refl eq_refl)).
  reflexivity.
Defined.

(** The second item of each source has no cover: the complete items 3,
    6 and 7 that come after it are not yielded. *)
Lemma fail_soft_counterexample :
  let env := Fixture.faulty_sources in
  embedded_items (page_content env)
  = [Fixture.html_item "1"; Fixture.html_item_no_cover "2";
     Fixture.html_item "3"] /\
  intercepted_items (intercepted_api_responses env)
  = [Fixture.api_item "4"; Fixture.api_item_no_cover "5";
     Fixture.api_item "6"; Fixture.api_item "7"] /\
  is_ok (html_normalize (Fixture.html_item "3") 1) = true /\
  is_ok (api_normalize (Fixture.api_item "6") 2) = true /\
  is_ok (api_normalize (Fixture.api_item "7") 3) = true /\
  map ID (stream Fixture.url None true env) = [JStr "1"; JStr "4"].
Proof. repeat split. Qed.

(** C3, on the code.  An item without ['stats'] is normalized with
    ['N/A'] as [Likes], [Comments] and [Shares]; an item without
    ['statsV2'] is not: reading [playCount] raises [KeyError], in both
    sources, and a run whose only item lacks ['statsV2'] yields
    nothing. *)
Lemma statsV2_absent_raises :
  (exists r,
     api_normalize (Fixture.api_item_no_stats "1") 0 = Ok r /\
     Likes r = JStr "N/A" /\ Comments r = JStr "N/A" /\
     Shares r = JStr "N/A") /\
  api_normalize (Fixture.api_item_no_statsV2 "1") 0 = Raise KeyError /\
  html_normalize (Fixture.html_item_no_statsV2 "1") 0 = Raise KeyError /\
  api_item (Fixture.api_item_no_statsV2 "1") initial
  = (initial, Raise KeyError) /\
  stream Fixture.url None true Fixture.without_statsV2 = [] /\
  caught (run Fixture.url None true Fixture.without_statsV2)
  = [(RefreshButton, TimeoutError); (Navigation, KeyError)].
Proof. split; [eexists|]; repeat split. Qed.

(** A navigation that times out, with a path given. *)
Lemma timeout_resilience_witness :
  goto_outcome Fixture.unreachable = Some TimeoutError /\
  emitted (run Fixture.url (Some "state.json") true Fixture.unreachable)
  = [] /\
  actions (run Fixture.url (Some "state.json") true Fixture.unreachable)
  = [Launch true; NewContext (Some "state.json"); NewPage; Route;
     Goto Fixture.url 60000; StorageState "state.json"; Close].
Proof.
  split; [reflexivity|].
  destruct (timeout_resilience Fixture.url (Some "state.json") true
              Fixture.unreachable eq_refl) as (E & _ & A & _).
  split; [exact E | exact A].
Defined.

(** The complete items of the two sources carry 5 likes, each in the
    shape of its source: reached first, each is yielded with them. *)
Lemma schema_tolerance_witness :
  (exists r,
     api_item (Fixture.api_item "1") initial
     = (yielded initial r (JStr "1"), Ok tt) /\
     ID r = JStr "1" /\ Likes r = JInt 5) /\
  (exists r,
     html_item (Fixture.html_item "1") initial
     = (yielded initial r (JStr "1"), Ok tt) /\
     ID r = JStr "1" /\ Likes r = JInt 5).
Proof.
  destruct (schema_tolerance (JInt 5) initial) as [Hapi Hhtml].
  split.
  - exact (Hapi (Fixture.api_item "1") (JStr "1")
             eq_refl eq_refl eq_refl eq_refl eq_refl eq_refl).
  - exact (Hhtml (Fixture.html_item "1") (JStr "1")
             eq_refl eq_refl eq_refl eq_refl eq_refl eq_refl).
Defined.

(** A page whose height stays at 1000. *)
Lemma pagination_bound_witness :
  (forall k,
     scroll_height (Fixture.still NoScriptTag []) k = 1000) /\
  (scrolls_performed
     (actions (run Fixture.url None true (Fixture.still NoScriptTag [])))
   <= 1)%nat.
Proof.
  split; [reflexivity|].
  apply (pagination_bound Fixture.url None true
           (Fixture.still NoScriptTag []) 1000).
  reflexivity.
Defined.

(** On the same page the second measurement equals the first. *)
Lemma scroll_loop_exit_witness :
  let env := Fixture.still NoScriptTag [] in
  scroll_height env 1 = compared_with (scroll_height env) 1 /\
  (scrolls_performed (actions (run Fixture.url None true env)) <= 1)%nat.
Proof.
  split; [reflexivity|].
  destruct (scroll_loop_exit Fixture.url None true
              (Fixture.still NoScriptTag [])) as (_ & Hstop & _).
  apply Hstop. reflexivity.
Defined.

(** A page whose height goes 3000, 2000, 1000: no measurement is
    greater than the one before it, and the loop scrolls three times. *)
Lemma scroll_loop_counterexample :
  let env := Fixture.shrinking NoScriptTag [] in
  scroll_height env 1 <= scroll_height env 0 /\
  scroll_height env 2 <= scroll_height env 1 /\
  scrolls_performed (actions (run Fixture.url None true env)) = 3%nat.
Proof. cbn. repeat split; lia. Qed.

(** The first response item without ['id'] of a run. *)
Lemma missing_id_sentinel_witness :
  Py.lookup "id" Fixture.no_id_fields = None /\
  exists r,
    ID r = JStr "N/A" /\
    api_item Fixture.api_item_no_id initial
    = (yielded initial r (JStr "N/A"), Ok tt).
Proof.
  split; [reflexivity|].
  destruct (missing_id_sentinel Fixture.no_id_fields initial eq_refl)
    as (_ & Hnew & _).
  apply Hnew; reflexivity.
Defined.



(** ** The interaction and the extraction on the fixtures *)

(** A navigation that times out: the run waits for it and for nothing
    else. *)
Lemma wait_budget_witness :
  goto_outcome Fixture.unreachable <> None /\
  total_wait (actions (run Fixture.url None true Fixture.unreachable))
  = 60000.
Proof.
  assert (Hgoto : goto_outcome Fixture.unreachable <> None) by discriminate.
  split; [exact Hgoto|].
  exact (proj2 (wait_budget Fixture.url None true Fixture.unreachable) Hgoto).
Defined.


(** A response with videos 2 and 3 that comes twice. *)
Lemma repeated_responses_witness :
  let responses := [Fixture.response [Fixture.api_item "2";
                                      Fixture.api_item "3"]] in
  snd (strategy2 responses initial) = Ok tt /\
  strategy2 (responses ++ responses) initial = strategy2 responses initial.
Proof.
  cbv zeta. split; [reflexivity|].
  exact (proj2 (repeated_responses
                  [Fixture.response [Fixture.api_item "2";
                                     Fixture.api_item "3"]]
                  initial eq_refl)).
Defined.

(** A document without [__DEFAULT_SCOPE__], and one that is a string. *)
Lemma embedded_list_paths_witness :
  aweme_list_from_html (JDict [("other", JNull)]) = Ok (JList []) /\
  aweme_list_from_html (JStr "<html>") = Raise AttributeError.
Proof.
  split.
  - destruct (embedded_list_paths (JDict [("other", JNull)]))
      as (_ & _ & _ & Hnone & _).
    exact (Hnone [("other", JNull)] eq_refl eq_refl).
  - destruct (embedded_list_paths (JStr "<html>")) as (_ & _ & _ & _ & Hnot).
    exact (Hnot eq_refl).
Defined.

(** A dated item of a response without ['stats']. *)
Lemma record_defaults_witness :
  let d := Fixture.dated_no_stats_fields "2" 1700086400 in
  Py.lookup "stats" d = None /\
  Py.lookup "createTime" d = Some (JInt 1700086400) /\
  exists r,
    api_normalize (JDict d) 0 = Ok r /\
    Likes r = JStr "N/A" /\ Comments r = JStr "N/A" /\
    Shares r = JStr "N/A" /\
    creation_date r = Some 1700086400.
Proof.
  cbv zeta. split; [reflexivity|]. split; [reflexivity|].
  destruct (api_normalize
              (JDict (Fixture.dated_no_stats_fields "2" 1700086400)) 0)
    as [r|e] eqn:E; [|vm_compute in E; discriminate E].
  exists r. split; [reflexivity|].
  destruct (record_defaults (Fixture.dated_no_stats_fields "2" 1700086400)
              0 r) as [Hapi _].
  destruct (Hapi E) as (_ & Hstats & _ & Hdate).
  destruct (Hstats eq_refl) as (Hl & Hc & Hs).
  destruct (Hdate (JInt 1700086400) eq_refl eq_refl) as (t & Ht & Hr).
  repeat split; try assumption.
  rewrite Hr. f_equal. vm_compute in Ht. now injection Ht.
Defined.

(** The records of the two sources all link to the page of alice, the
    handle of their items. *)
Lemma stream_links_witness :
  let items := stream Fixture.url None true Fixture.both_sources in
  map video_url items
  = [Link (JStr "alice") (JStr "1"); Link (JStr "alice") (JStr "2");
     Link (JStr "alice") (JStr "3")] /\
  Forall (fun r =>
            exists tagged n a,
              In tagged (processing_order Fixture.both_sources) /\
              normalize_from tagged n = Ok r /\
              author_unique_id_of (snd tagged) = Ok a /\
              video_url r
              = (if Py.truthy a && negb (Py.eqb (ID r) (JStr "N/A"))
                 then Link a (ID r) else NoLink)) items.
Proof.
  cbv zeta. split; [vm_compute; reflexivity|].
  apply Forall_forall. intros r Hin.
  exact (stream_links Fixture.url None true Fixture.both_sources r Hin).
Defined.

(** Video 2 is in [seen_ids] when the run on the two sources ends, and
    video 4 is not. *)
Lemma seen_ids_are_stream_ids_witness :
  let st := run Fixture.url None true Fixture.both_sources in
  Py.set_contains (seen_ids st) (JStr "2") = Ok true /\
  Py.set_contains (seen_ids st) (JStr "4") = Ok false.
Proof.
  cbv zeta.
  destruct (seen_ids_are_stream_ids Fixture.url None true
              Fixture.both_sources) as [Hin _].
  split.
  - rewrite (Hin (JStr "2") eq_refl). vm_compute. reflexivity.
  - rewrite (Hin (JStr "4") eq_refl). vm_compute. reflexivity.
Defined.

(** The page cannot be read and the state cannot be saved: the run
    stops reading the page, tries to save the state and does not close
    the browser. *)
Lemma session_calls_witness :
  let st :=
    fst (scrape_tiktok_profile_with Fixture.page_lost Fixture.url
           (Some "state.json") true Fixture.both_sources initial) in
  setup_outcome Fixture.page_lost = None /\
  actions st
  = [Launch true; NewContext None; NewPage; Route; Goto Fixture.url 60000;
     WaitForTimeout 5000; Content; StorageState "state.json"] /\
  ~ In Close (actions st) /\
  exists middle,
    actions st
    = opening Fixture.url (Some "state.json") true Fixture.both_sources
      ++ middle ++ [StorageState "state.json"] /\
    forallb on_page middle = true.
Proof.
  cbv zeta.
  destruct (session_calls Fixture.page_lost Fixture.url (Some "state.json")
              true Fixture.both_sources) as (Hloaded & _ & Hclose & _).
  split; [reflexivity|]. split; [vm_compute; reflexivity|]. split.
  - intros Hin. apply Hclose in Hin. destruct Hin as [_ Hsaved].
    specialize (Hsaved eq_refl). discriminate Hsaved.
  - exact (Hloaded eq_refl).
Defined.

(** ** Presses of the button on the fixtures *)

#[local] Existing Instance fixture_builtins.



(** Three videos: 10, 30, 51, 52, 53 and 100. *)
Lemma button_progress_witness :
  let o := on_scrape_button Fixture.url true Fixture.current_dir
             Fixture.dated session_start in
  Fixture.url <> "" /\
  shown_progress o = [10; 30; 51; 52; 53; 100] /\
  exists mids,
    shown_progress o = 10 :: 30 :: mids ++ [100] /\
    Forall (fun v => 50 <= v <= 99) mids /\
    (List.length mids <= List.length (current_scraped_items (final o)))%nat.
Proof.
  cbv zeta.
  assert (Hurl : Fixture.url <> "") by discriminate.
  split; [exact Hurl|]. split; [vm_compute; reflexivity|].
  exact (button_progress Fixture.url true Fixture.current_dir Fixture.dated
           session_start Hurl).
Defined.
